(** * TinyWar engine ([src/engine.c]): registries, hitboxes, tiles, frame loop

    A shallow embedding of the engine: the process-wide statics, the heap
    blocks the engine allocates and frees, the singly linked registries of
    objects, object templates, textures and fonts, the collision and hover
    tests, tilemaps and tiles, the shape-drawing wrappers, anchored text,
    the start and the end of the engine, the window calls and the frame
    loop.  The SDL libraries are the environment: what they return is an
    input, what they are told is recorded. *)

From Stdlib Require Import ZArith Bool Ascii String Sorted.
From stdpp Require Import gmap strings list fin_maps.

Local Open Scope Z_scope.

(** ** C integers *)

(** [int] is a 32-bit two's-complement integer, kept as a [Z] in range;
    arithmetic wraps around as the compiled code does. *)
Definition INT_MIN : Z := - 2 ^ 31.
Definition INT_MAX : Z := 2 ^ 31 - 1.

Definition in_int (z : Z) : Prop := INT_MIN <= z <= INT_MAX.

Definition wrap_int (z : Z) : Z := (z + 2 ^ 31) mod 2 ^ 32 - 2 ^ 31.

Definition int_add (a b : Z) : Z := wrap_int (a + b).

(** [Uint32], for the tick counter. *)
Definition wrap_uint32 (z : Z) : Z := z mod 2 ^ 32.

(** ** C strings *)

(** A name is the byte sequence before the terminator.  [strcmp] walks both
    strings to the first pair of bytes that differ and returns a number of
    the sign of their comparison (the standard fixes no more than the
    sign), [0] when the strings end together. *)
Fixpoint strcmp (a b : string) : Z :=
  match a, b with
  | EmptyString, EmptyString => 0
  | EmptyString, String _ _ => -1
  | String _ _, EmptyString => 1
  | String c a', String d b' =>
      if Ascii.eqb c d then strcmp a' b'
      else if (nat_of_ascii c <? nat_of_ascii d)%nat then -1 else 1
  end.

(** ** Data *)

Definition loc := positive.

(** A pointer: [NULL] or the address of a block. *)
Definition ptr := option loc.
Abbreviation NULL := None.

(** Modelled from the spec: the struct declarations of [engine.h], which is
    not among the sources.  The records below have the fields that
    [engine.c] reads and writes, which are the ones the data model of the
    specification lists.  [Color] is a "4-channel (red, green, blue, alpha)
    value". *)
Record Color := { r : Z; g : Z; b : Z; a : Z }.

(** Modelled from the spec: [Object] of [engine.h], "a drawable entity with
    a process-wide monotonically increasing unique identifier, a non-owning
    texture reference, position, size, a hitbox-enabled flag, and an opaque
    user-data reference". *)
Record Object := {
  id : Z;
  texture : ptr;
  x : Z;
  y : Z;
  width : Z;
  height : Z;
  hitbox : bool;
  data : ptr
}.

(** Modelled from the spec: [ObjectTemplate] of [engine.h], "a named
    blueprint (texture reference, size, hitbox flag)". *)
Record ObjectTemplate := {
  tpl_texture : ptr;
  tpl_width : Z;
  tpl_height : Z;
  tpl_hitbox : bool
}.

(** Modelled from the spec: [ObjectList], [ObjectTemplateList],
    [TextureList] and [Font] of [engine.h], each "a node owning a
    heap-allocated name string and a reference to a payload, linked to the
    next node".  They are one struct up to the name of the first field
    ([object], [object_template], [texture], [font]). *)
Record ListNode := {
  payload : ptr;
  name : ptr;
  next : ptr
}.

(** Modelled from the spec: [Tilemap] of [engine.h], "one texture handle
    plus tile geometry (tile width/height, inter-tile spacing, row/column
    counts)". *)
Record Tilemap := {
  tm_texture : ptr;
  tile_width : Z;
  tile_height : Z;
  spacing : Z;
  nb_rows : Z;
  nb_cols : Z
}.

(** Modelled from the spec: [Tile] of [engine.h], "tilemap back-reference +
    row/col indices". *)
Record Tile := {
  tilemap : ptr;
  row : Z;
  col : Z
}.

(** Modelled from the spec: [Engine] of [engine.h], "the window handle,
    renderer handle, running flag, logical size, and target frame rate". *)
Record Engine := {
  window : ptr;
  renderer : ptr;
  isRunning : bool;
  eng_width : Z;
  eng_height : Z;
  fps : Z
}.

(** ** The heap *)

(** What a block holds.  [CForeign] is a resource a library handed out
    (a [TTF_Font], a texture); the engine never looks inside. *)
Inductive cell :=
  | CString (s : string)
  | CObject (o : Object)
  | CTemplate (t : ObjectTemplate)
  | CNode (n : ListNode)
  | CTilemap (t : Tilemap)
  | CTile (t : Tile)
  | CForeign.

(** A block of the heap: what it holds, and whether it was given back.  A
    freed block is kept with the contents it had, and the allocator here
    never reuses one. *)
Record block := {
  contents : cell;
  released : bool
}.

(** [blocks] holds every block that was ever handed out.  [checked]
    decides what an access to a freed block does: when set it is trapped
    (the C standard's undefined behaviour, as a memory checker reports it);
    when clear the block is read and written as if it were live, with the
    contents it had when it was given back.  The second reading idealises
    the real machine, whose allocator may overwrite part of a freed block:
    it is used only for the [next] field of a freed node, in the loop of
    [destroy_object_by_name].  [limit] is the number of blocks the
    allocator can hand out before [malloc] returns [NULL]. *)
Record memory := {
  blocks : gmap loc block;
  checked : bool;
  limit : nat
}.

(** The result of a piece of code that only touches the heap. *)
Inductive result (A : Type) :=
  | Done (v : A)
  | Undefined
  | Diverges.
Arguments Done {A} v.
Arguments Undefined {A}.
Arguments Diverges {A}.

Definition rbind {A B} (c : result A) (k : A -> result B) : result B :=
  match c with
  | Done v => k v
  | Undefined => Undefined
  | Diverges => Diverges
  end.

Declare Scope result_scope.
Delimit Scope result_scope with result.
Notation "x <- c ; k" := (rbind c (fun x => k))
  (at level 20, c at level 100, k at level 200, only parsing) : result_scope.

Definition set_blocks (bs : gmap loc block) (m : memory) : memory :=
  {| blocks := bs; checked := checked m; limit := limit m |}.

Definition accessible (m : memory) (bk : block) : bool :=
  negb (checked m && released bk).

Definition load (m : memory) (p : ptr) : result cell :=
  match p with
  | NULL => Undefined
  | Some l =>
      match blocks m !! l with
      | Some bk => if accessible m bk then Done (contents bk) else Undefined
      | None => Undefined
      end
  end.

Definition store (m : memory) (p : ptr) (c : cell) : result memory :=
  match p with
  | NULL => Undefined
  | Some l =>
      match blocks m !! l with
      | Some bk =>
          if accessible m bk
          then Done (set_blocks
                       (<[l := {| contents := c; released := released bk |}]> (blocks m)) m)
          else Undefined
      | None => Undefined
      end
  end.

(** [malloc] with the contents the code writes into the new block right
    after: [None] is a [NULL] return. *)
Definition malloc (m : memory) (c : cell) : option (loc * memory) :=
  if decide (size (blocks m) < limit m)%nat then
    let l := fresh (dom (blocks m)) in
    Some (l, set_blocks (<[l := {| contents := c; released := false |}]> (blocks m)) m)
  else None.

(** [free]: nothing on [NULL]; a block that is not live cannot be freed. *)
Definition free (m : memory) (p : ptr) : result memory :=
  match p with
  | NULL => Done m
  | Some l =>
      match blocks m !! l with
      | Some bk =>
          if released bk then Undefined
          else Done (set_blocks
                       (<[l := {| contents := contents bk; released := true |}]> (blocks m)) m)
      | None => Undefined
      end
  end.

Definition load_string (m : memory) (p : ptr) : result string :=
  (c <- load m p ; match c with CString s => Done s | _ => Undefined end)%result.

Definition load_object (m : memory) (p : ptr) : result Object :=
  (c <- load m p ; match c with CObject o => Done o | _ => Undefined end)%result.

Definition load_node (m : memory) (p : ptr) : result ListNode :=
  (c <- load m p ; match c with CNode n => Done n | _ => Undefined end)%result.

Definition load_tilemap (m : memory) (p : ptr) : result Tilemap :=
  (c <- load m p ; match c with CTilemap t => Done t | _ => Undefined end)%result.

(** [p->next = q] *)
Definition store_next (m : memory) (p q : ptr) : result memory :=
  (n <- load_node m p ;
   store m p (CNode {| payload := payload n; name := name n; next := q |}))%result.

(** ** What the renderer is asked to draw *)

(** The primitives of SDL2_gfx the engine calls, with their arguments. *)
Inductive shape :=
  | Line (x1 y1 x2 y2 : Z) (c : Color)
  | Rectangle (x1 y1 x2 y2 : Z) (c : Color)
  | Ellipse (cx cy rx ry : Z) (c : Color)
  | Circle (cx cy rad : Z) (c : Color)
  | ThickLine (x1 y1 x2 y2 thickness : Z) (c : Color)
  | ThickCircle (cx cy rad thickness : Z) (c : Color)
  | ThickEllipse (cx cy rx ry thickness : Z) (c : Color).

(** ** The process *)

(** The file's statics, the heap, the error stream, and the part of the SDL
    state the engine's results depend on: the renderer's draw colour and the
    pointer position [SDL_GetMouseState] reports, the font files
    [TTF_OpenFont] can open, the shapes drawn so far.  [_engine] holds the
    struct the static points to, [None] for [NULL]. *)
Record world := {
  _engine : option Engine;
  _object_id : Z;
  _object_list : ptr;
  _object_template_list : ptr;
  _texture_list : ptr;
  _font : ptr;
  _color : Color;
  mem : memory;
  stderr : list string;
  draw_color : Color;
  mouse_state : Z * Z;
  font_files : gset string;
  canvas : list shape
}.

Definition set_engine (e : option Engine) (w : world) : world :=
  {| _engine := e; _object_id := _object_id w; _object_list := _object_list w;
     _object_template_list := _object_template_list w;
     _texture_list := _texture_list w; _font := _font w;
     _color := _color w; mem := mem w; stderr := stderr w;
     draw_color := draw_color w; mouse_state := mouse_state w;
     font_files := font_files w; canvas := canvas w |}.

Definition set_object_id (i : Z) (w : world) : world :=
  {| _engine := _engine w; _object_id := i; _object_list := _object_list w;
     _object_template_list := _object_template_list w;
     _texture_list := _texture_list w; _font := _font w;
     _color := _color w; mem := mem w; stderr := stderr w;
     draw_color := draw_color w; mouse_state := mouse_state w;
     font_files := font_files w; canvas := canvas w |}.

Definition set_object_list (p : ptr) (w : world) : world :=
  {| _engine := _engine w; _object_id := _object_id w; _object_list := p;
     _object_template_list := _object_template_list w;
     _texture_list := _texture_list w; _font := _font w;
     _color := _color w; mem := mem w; stderr := stderr w;
     draw_color := draw_color w; mouse_state := mouse_state w;
     font_files := font_files w; canvas := canvas w |}.

Definition set_object_template_list (p : ptr) (w : world) : world :=
  {| _engine := _engine w; _object_id := _object_id w; _object_list := _object_list w;
     _object_template_list := p;
     _texture_list := _texture_list w; _font := _font w;
     _color := _color w; mem := mem w; stderr := stderr w;
     draw_color := draw_color w; mouse_state := mouse_state w;
     font_files := font_files w; canvas := canvas w |}.

Definition set_texture_list (p : ptr) (w : world) : world :=
  {| _engine := _engine w; _object_id := _object_id w; _object_list := _object_list w;
     _object_template_list := _object_template_list w;
     _texture_list := p; _font := _font w;
     _color := _color w; mem := mem w; stderr := stderr w;
     draw_color := draw_color w; mouse_state := mouse_state w;
     font_files := font_files w; canvas := canvas w |}.

Definition set_font (p : ptr) (w : world) : world :=
  {| _engine := _engine w; _object_id := _object_id w; _object_list := _object_list w;
     _object_template_list := _object_template_list w;
     _texture_list := _texture_list w; _font := p;
     _color := _color w; mem := mem w; stderr := stderr w;
     draw_color := draw_color w; mouse_state := mouse_state w;
     font_files := font_files w; canvas := canvas w |}.

Definition set_mem (m : memory) (w : world) : world :=
  {| _engine := _engine w; _object_id := _object_id w; _object_list := _object_list w;
     _object_template_list := _object_template_list w;
     _texture_list := _texture_list w; _font := _font w;
     _color := _color w; mem := m; stderr := stderr w;
     draw_color := draw_color w; mouse_state := mouse_state w;
     font_files := font_files w; canvas := canvas w |}.

Definition set_stderr (l : list string) (w : world) : world :=
  {| _engine := _engine w; _object_id := _object_id w; _object_list := _object_list w;
     _object_template_list := _object_template_list w;
     _texture_list := _texture_list w; _font := _font w;
     _color := _color w; mem := mem w; stderr := l;
     draw_color := draw_color w; mouse_state := mouse_state w;
     font_files := font_files w; canvas := canvas w |}.

Definition set_draw_color (c : Color) (w : world) : world :=
  {| _engine := _engine w; _object_id := _object_id w; _object_list := _object_list w;
     _object_template_list := _object_template_list w;
     _texture_list := _texture_list w; _font := _font w;
     _color := _color w; mem := mem w; stderr := stderr w;
     draw_color := c; mouse_state := mouse_state w;
     font_files := font_files w; canvas := canvas w |}.

Definition set_canvas (l : list shape) (w : world) : world :=
  {| _engine := _engine w; _object_id := _object_id w; _object_list := _object_list w;
     _object_template_list := _object_template_list w;
     _texture_list := _texture_list w; _font := _font w;
     _color := _color w; mem := mem w; stderr := stderr w;
     draw_color := draw_color w; mouse_state := mouse_state w;
     font_files := font_files w; canvas := l |}.

Definition set_mouse_state (ms : Z * Z) (w : world) : world :=
  {| _engine := _engine w; _object_id := _object_id w; _object_list := _object_list w;
     _object_template_list := _object_template_list w;
     _texture_list := _texture_list w; _font := _font w;
     _color := _color w; mem := mem w; stderr := stderr w;
     draw_color := draw_color w; mouse_state := ms;
     font_files := font_files w; canvas := canvas w |}.

(** What a call does to the process: it returns, it ends the process with
    [exit], it runs into undefined behaviour, or it never comes back. *)
Inductive outcome (A : Type) :=
  | Returns (v : A) (w : world)
  | Exits (status : Z) (w : world)
  | Undef
  | Hangs.
Arguments Returns {A} v w.
Arguments Exits {A} status w.
Arguments Undef {A}.
Arguments Hangs {A}.

Definition M (A : Type) : Type := world -> outcome A.

Definition ret {A} (v : A) : M A := fun w => Returns v w.

Definition bind {A B} (c : M A) (k : A -> M B) : M B :=
  fun w =>
    match c w with
    | Returns v w' => k v w'
    | Exits s w' => Exits s w'
    | Undef => Undef
    | Hangs => Hangs
    end.

Declare Scope engine_scope.
Delimit Scope engine_scope with engine.
Notation "x <- c ; k" := (bind c (fun x => k))
  (at level 20, c at level 100, k at level 200, only parsing) : engine_scope.
Notation "c ;;; k" := (bind c (fun _ => k))
  (at level 100, k at level 200, right associativity, only parsing) : engine_scope.

(** [fprintf(stderr, msg); exit(1);]  The message is kept as the format
    string of the source. *)
Definition fatal {A} (msg : string) : M A :=
  fun w => Exits 1 (set_stderr (stderr w ++ [msg]) w).

(** Heap code that only reads. *)
Definition read_heap {A} (f : memory -> result A) : M A :=
  fun w =>
    match f (mem w) with
    | Done v => Returns v w
    | Undefined => Undef
    | Diverges => Hangs
    end.

Definition _assert_engine_init : M unit :=
  fun w =>
    match _engine w with
    | None => fatal "[ENGINE] Engine not initialized\n" w
    | Some _ => Returns tt w
    end.

(** The statics as the file initialises them, on an empty heap. *)
Definition process_start (chk : bool) (lim : nat) (c : Color) (ms : Z * Z)
    (files : gset string) : world :=
  {| _engine := None; _object_id := 0; _object_list := NULL;
     _object_template_list := NULL; _texture_list := NULL; _font := NULL;
     _color := {| r := 0; g := 0; b := 0; a := 255 |};
     mem := {| blocks := ∅; checked := chk; limit := lim |};
     stderr := [];
     draw_color := c; mouse_state := ms; font_files := files; canvas := [] |}.

(** ** Hitboxes and hovering *)

(** The function reads the two structs its arguments point to. *)
Definition hitbox_is_colliding (hitbox1 hitbox2 : Object) : bool :=
  (x hitbox1 <? int_add (x hitbox2) (width hitbox2))
  && (int_add (x hitbox1) (width hitbox1) >? x hitbox2)
  && (y hitbox1 <? int_add (y hitbox2) (height hitbox2))
  && (int_add (y hitbox1) (height hitbox1) >? y hitbox2).

Definition object_is_hovered (object : Object) : M bool :=
  (_assert_engine_init ;;;
   fun w =>
     let '(mouseX, mouseY) := mouse_state w in
     Returns ((mouseX >=? x object)
              && (mouseX <=? int_add (x object) (width object))
              && (mouseY >=? y object)
              && (mouseY <=? int_add (y object) (height object))) w)%engine.

(** ** Tiles *)

Definition get_tile (tilemap : ptr) (tile_row tile_col : Z) : M ptr :=
  (_assert_engine_init ;;;
   tm <- read_heap (fun m => load_tilemap m tilemap) ;
   if (tile_row >=? nb_rows tm) || (tile_col >=? nb_cols tm) then
     fatal "[ENGINE] Tile out of bounds\n"
   else
     fun w =>
       match malloc (mem w) (CTile {| tilemap := tilemap; row := tile_row; col := tile_col |}) with
       | None => fatal "[ENGINE] Failed to allocate memory for tile\n" w
       | Some (tile, m') => Returns (Some tile) (set_mem m' w)
       end)%engine.

(** ** Registries *)

(** The four registries are singly linked lists of [ListNode]s hanging off
    [_object_list], [_object_template_list], [_texture_list] and [_font].
    The loops below are the [while] loops of the source, run on the heap;
    [fuel] bounds the number of iterations, and since a walk that visits
    more nodes than the heap has blocks has entered a cycle, running out of
    it is a loop that never ends. *)
Definition enough_fuel (m : memory) : nat := S (size (blocks m)).

(** [while (current->next != NULL) current = current->next;
     current->next = item;] *)
Fixpoint append_walk (fuel : nat) (m : memory) (current item : ptr) : result memory :=
  match fuel with
  | O => Diverges
  | S fuel' =>
      (n <- load_node m current ;
       match next n with
       | NULL => store_next m current item
       | Some _ => append_walk fuel' m (next n) item
       end)%result
  end.

(** [_add_object_to_list], [_add_object_template_to_list],
    [_add_to_texture_list] and the second half of [load_font]: a block of
    [room] bytes for the copy of the name,
    [strcpy] into it (which writes past the block when the name and its
    terminator do not fit), a new node, linked in as the head of an empty
    list and after the last node otherwise.  [head] and [set_head] select
    the static. *)
Definition add_to_list (head : world -> ptr) (set_head : ptr -> world -> world)
    (no_name no_item : string) (room : nat) (value : ptr) (name : string) : M unit :=
  fun w =>
    match malloc (mem w) (CString name) with
    | None => fatal no_name w
    | Some (name_copy, m1) =>
        if (room <? String.length name + 1)%nat then Undef
        else
          match malloc m1 (CNode {| payload := value; name := Some name_copy; next := NULL |}) with
          | None => fatal no_item (set_mem m1 w)
          | Some (item, m2) =>
              match head w with
              | NULL => Returns tt (set_head (Some item) (set_mem m2 w))
              | Some _ =>
                  match append_walk (enough_fuel m2) m2 (head w) (Some item) with
                  | Done m3 => Returns tt (set_mem m3 w)
                  | Undefined => Undef
                  | Diverges => Hangs
                  end
              end
          end
    end.

Definition _add_object_to_list (object : ptr) (name : string) : M unit :=
  add_to_list _object_list set_object_list
    "[ENGINE] Failed to allocate memory for object name\n"
    "[ENGINE] Failed to allocate memory for object list item\n"
    (String.length name + 1) object name.

Definition _add_object_template_to_list (template : ptr) (name : string) : M unit :=
  add_to_list _object_template_list set_object_template_list
    "[ENGINE] Failed to allocate memory for object template name\n"
    "[ENGINE] Failed to allocate memory for object template list item\n"
    (String.length name + 1) template name.

(** The test a loop applies to the node it is at. *)
Definition matcher := memory -> ListNode -> result bool.

(** [strcmp(current->name, name) == 0] *)
Definition name_is (key : string) : matcher :=
  fun m n => (s <- load_string m (name n) ; Done (strcmp s key =? 0))%result.

(** [current->object->id == id] *)
Definition object_id_is (key : Z) : matcher :=
  fun m n => (o <- load_object m (payload n) ; Done (id o =? key))%result.

(** [while (current != NULL) { if (test) return current; current = current->next; }] *)
Fixpoint find_first (fuel : nat) (test : matcher) (m : memory) (current : ptr)
    : result (option ListNode) :=
  match fuel with
  | O => Diverges
  | S fuel' =>
      match current with
      | NULL => Done None
      | Some _ =>
          (n <- load_node m current ;
           hit <- test m n ;
           if hit : bool then Done (Some n)
           else find_first fuel' test m (next n))%result
      end
  end.

(** The body the three removal loops share once the test has succeeded:
    [if (prev == NULL) head = current->next; else prev->next = current->next;]
    then the payload, the name and the node are given back.  The result is
    the heap and the head. *)
Definition unlink_node (m : memory) (head current prev : ptr) (n : ListNode)
    : result (memory * ptr) :=
  (st <- match prev with
         | NULL => Done (m, next n)
         | Some _ => (m' <- store_next m prev (next n) ; Done (m', head))
         end ;
   m1 <- free (fst st) (payload n) ;
   m2 <- free m1 (name n) ;
   m3 <- free m2 current ;
   Done (m3, snd st))%result.

(** The loop of [destroy_object_by_id], [destroy_object_template] and
    [close_font]: unlink the first node that passes the test and [return]. *)
Fixpoint unlink_first (fuel : nat) (test : matcher) (m : memory)
    (head current prev : ptr) : result (memory * ptr) :=
  match fuel with
  | O => Diverges
  | S fuel' =>
      match current with
      | NULL => Done (m, head)
      | Some _ =>
          (n <- load_node m current ;
           hit <- test m n ;
           if hit : bool then unlink_node m head current prev n
           else unlink_first fuel' test m head (next n) current)%result
      end
  end.

(** The loop of [destroy_object_by_name]: there is no [return] after the
    node is freed, so [prev = current; current = current->next;] runs on the
    node that was just given back. *)
Fixpoint unlink_every (fuel : nat) (test : matcher) (m : memory)
    (head current prev : ptr) : result (memory * ptr) :=
  match fuel with
  | O => Diverges
  | S fuel' =>
      match current with
      | NULL => Done (m, head)
      | Some _ =>
          (n <- load_node m current ;
           hit <- test m n ;
           st <- (if hit : bool then unlink_node m head current prev n
                  else Done (m, head)) ;
           n' <- load_node (fst st) current ;
           unlink_every fuel' test (fst st) (snd st) (next n') current)%result
      end
  end.

(** The loop of [destroy_all_objects], [destroy_all_templates],
    [destroy_all_textures] and [close_all_fonts]: [next = current->next],
    give the payload, the name and the node back, [current = next]. *)
Fixpoint free_all (fuel : nat) (m : memory) (current : ptr) : result memory :=
  match fuel with
  | O => Diverges
  | S fuel' =>
      match current with
      | NULL => Done m
      | Some _ =>
          (n <- load_node m current ;
           m1 <- free m (payload n) ;
           m2 <- free m1 (name n) ;
           m3 <- free m2 current ;
           free_all fuel' m3 (next n))%result
      end
  end.

(** A lookup loop run on one of the registries. *)
Definition lookup_in (head : world -> ptr) (test : matcher) : M (option ListNode) :=
  fun w => read_heap (fun m => find_first (enough_fuel m) test m (head w)) w.

(** A removal loop run on one of the registries. *)
Definition remove_from (head : world -> ptr) (set_head : ptr -> world -> world)
    (loop : nat -> matcher -> memory -> ptr -> ptr -> ptr -> result (memory * ptr))
    (test : matcher) : M unit :=
  fun w =>
    match loop (enough_fuel (mem w)) test (mem w) (head w) (head w) NULL with
    | Done (m', head') => Returns tt (set_head head' (set_mem m' w))
    | Undefined => Undef
    | Diverges => Hangs
    end.

(** ** Objects *)

Definition create_object (name : string) (texture : ptr) (x y width height : Z)
    (hitbox : bool) (data : ptr) : M ptr :=
  (_assert_engine_init ;;;
   fun w =>
     match malloc (mem w)
             (CObject {| id := _object_id w; texture := texture; x := x; y := y;
                         width := width; height := height; hitbox := hitbox;
                         data := data |}) with
     | None => fatal "[ENGINE] Failed to allocate memory for object\n" w
     | Some (object, m') =>
         (_add_object_to_list (Some object) name ;;; ret (Some object))
           (set_object_id (int_add (_object_id w) 1) (set_mem m' w))
     end)%engine.

(** [create_object] called with the fields of [o], and the object it
    builds: [o] with the identifier the counter gives. *)
Definition create_like (name : string) (o : Object) : M ptr :=
  create_object name (texture o) (x o) (y o) (width o) (height o) (hitbox o) (data o).

Definition with_id (i : Z) (o : Object) : Object :=
  {| id := i; texture := texture o; x := x o; y := y o; width := width o;
     height := height o; hitbox := hitbox o; data := data o |}.

Definition get_object_by_name (name : string) : M ptr :=
  (_assert_engine_init ;;;
   found <- lookup_in _object_list (name_is name) ;
   match found with
   | Some n => ret (payload n)
   | None => fatal "[ENGINE] Object not found: %s\n"
   end)%engine.

Definition get_object_by_id (id : Z) : M ptr :=
  (_assert_engine_init ;;;
   found <- lookup_in _object_list (object_id_is id) ;
   match found with
   | Some n => ret (payload n)
   | None => fatal "[ENGINE] Object not found: %d\n"
   end)%engine.

Definition object_exists (name : string) : M bool :=
  (_assert_engine_init ;;;
   found <- lookup_in _object_list (name_is name) ;
   match found with
   | Some _ => ret true
   | None => ret false
   end)%engine.

Definition destroy_object_by_id (id : Z) : M unit :=
  (_assert_engine_init ;;;
   remove_from _object_list set_object_list unlink_first (object_id_is id))%engine.

Definition destroy_object_by_name (name : string) : M unit :=
  (_assert_engine_init ;;;
   remove_from _object_list set_object_list unlink_every (name_is name))%engine.

Definition destroy_all_objects : M unit :=
  (_assert_engine_init ;;;
   fun w =>
     match free_all (enough_fuel (mem w)) (mem w) (_object_list w) with
     | Done m' => Returns tt (set_object_list NULL (set_mem m' w))
     | Undefined => Undef
     | Diverges => Hangs
     end)%engine.

(** ** Object templates *)

Definition create_object_template (name : string) (texture : ptr) (width height : Z)
    (hitbox : bool) : M ptr :=
  (_assert_engine_init ;;;
   fun w =>
     match malloc (mem w)
             (CTemplate {| tpl_texture := texture; tpl_width := width;
                           tpl_height := height; tpl_hitbox := hitbox |}) with
     | None => fatal "[ENGINE] Failed to allocate memory for object template\n" w
     | Some (object_template, m') =>
         (_add_object_template_to_list (Some object_template) name ;;;
          ret (Some object_template)) (set_mem m' w)
     end)%engine.

Definition get_template_by_name (name : string) : M ptr :=
  (_assert_engine_init ;;;
   found <- lookup_in _object_template_list (name_is name) ;
   match found with
   | Some n => ret (payload n)
   | None => fatal "[ENGINE] Object template not found: %s\n"
   end)%engine.

Definition instantiate_object (object_template : ptr) (name : string) (x y : Z)
    (data : ptr) : M ptr :=
  (_assert_engine_init ;;;
   t <- read_heap (fun m =>
          (c <- load m object_template ;
           match c with CTemplate t => Done t | _ => Undefined end)%result) ;
   create_object name (tpl_texture t) x y (tpl_width t) (tpl_height t)
     (tpl_hitbox t) data)%engine.

Definition destroy_object_template (name : string) : M unit :=
  (_assert_engine_init ;;;
   remove_from _object_template_list set_object_template_list unlink_first
     (name_is name))%engine.

Definition destroy_all_templates : M unit :=
  (_assert_engine_init ;;;
   fun w =>
     match free_all (enough_fuel (mem w)) (mem w) (_object_template_list w) with
     | Done m' => Returns tt (set_object_template_list NULL (set_mem m' w))
     | Undefined => Undef
     | Diverges => Hangs
     end)%engine.

(** ** Fonts *)

(** [TTF_OpenFont] hands out a block of the library's when the file can be
    opened.  The block for the name has room for [filename], and [name] is
    what is copied into it. *)
Definition load_font (filename : string) (size : Z) (name : string) : M unit :=
  (_assert_engine_init ;;;
   fun w =>
     if bool_decide (filename ∈ font_files w) then
       match malloc (mem w) CForeign with
       | None => fatal "[ENGINE] Failed to load font: %s\n" w
       | Some (font, m') =>
           add_to_list _font set_font
             "[ENGINE] Failed to allocate memory for font filename\n"
             "[ENGINE] Failed to allocate memory for font\n"
             (String.length filename + 1) (Some font) name (set_mem m' w)
       end
     else fatal "[ENGINE] Failed to load font: %s\n" w)%engine.

(** [TTF_CloseFont] gives the font back to the library, which is [free] on
    the block the library handed out. *)
Definition close_font (name : string) : M unit :=
  (_assert_engine_init ;;;
   remove_from _font set_font unlink_first (name_is name))%engine.

(** ** Textures *)

Definition _add_to_texture_list (texture : ptr) (name : string) : M unit :=
  add_to_list _texture_list set_texture_list
    "[ENGINE] Failed to allocate memory for texture name\n"
    "[ENGINE] Failed to allocate memory for texture list item\n"
    (String.length name + 1) texture name.

(** [IMG_LoadTexture] hands out a block of the library's when the file can
    be decoded; [image_files] are the files it can. *)
Definition load_texture (image_files : gset string) (filename name : string) : M ptr :=
  (_assert_engine_init ;;;
   fun w =>
     if bool_decide (filename ∈ image_files) then
       match malloc (mem w) CForeign with
       | None => fatal "[ENGINE] Failed to load image: %s\n" w
       | Some (texture, m') =>
           (_add_to_texture_list (Some texture) name ;;; ret (Some texture))
             (set_mem m' w)
       end
     else fatal "[ENGINE] Failed to load image: %s\n" w)%engine.

Definition get_texture_by_name (name : string) : M ptr :=
  (_assert_engine_init ;;;
   found <- lookup_in _texture_list (name_is name) ;
   match found with
   | Some n => ret (payload n)
   | None => fatal "[ENGINE] Texture not found: %s\n"
   end)%engine.

(** [SDL_DestroyTexture] gives the texture back to the library. *)
Definition destroy_all_textures : M unit :=
  (_assert_engine_init ;;;
   fun w =>
     match free_all (enough_fuel (mem w)) (mem w) (_texture_list w) with
     | Done m' => Returns tt (set_texture_list NULL (set_mem m' w))
     | Undefined => Undef
     | Diverges => Hangs
     end)%engine.

(** ** Shapes *)

(** A primitive of SDL2_gfx draws the shape and leaves the renderer with a
    draw colour of its choosing: [leaves s c] is that colour, for the shape
    [s] drawn when the draw colour was [c]. *)
Definition gfx (leaves : shape -> Color -> Color) (s : shape) : M unit :=
  fun w => Returns tt (set_draw_color (leaves s (draw_color w))
                         (set_canvas (canvas w ++ [s]) w)).

Definition SDL_SetRenderDrawColor (c : Color) : M unit :=
  fun w => Returns tt (set_draw_color c w).

(** [SDL_SetRenderDrawColor(_engine->renderer, _color.r, _color.g, _color.b, _color.a)] *)
Definition restore_color : M unit :=
  fun w => SDL_SetRenderDrawColor
             {| r := r (_color w); g := g (_color w); b := b (_color w);
                a := a (_color w) |} w.

Section Shapes.
Variable leaves : shape -> Color -> Color.

Definition draw_line (x1 y1 x2 y2 : Z) (color : Color) : M unit :=
  (_assert_engine_init ;;;
   gfx leaves (Line x1 y1 x2 y2 color) ;;;
   restore_color)%engine.

Definition draw_rect (x1 y1 x2 y2 : Z) (color : Color) : M unit :=
  (_assert_engine_init ;;;
   gfx leaves (Rectangle x1 y1 x2 y2 color) ;;;
   restore_color)%engine.

Definition draw_ellipse (x y rx ry : Z) (color : Color) : M unit :=
  (_assert_engine_init ;;;
   gfx leaves (Ellipse x y rx ry color) ;;;
   restore_color)%engine.

Definition draw_circle (x y radius : Z) (color : Color) : M unit :=
  (_assert_engine_init ;;;
   gfx leaves (Circle x y radius color) ;;;
   restore_color)%engine.

Definition draw_line_thick (x1 y1 x2 y2 : Z) (color : Color) (thickness : Z) : M unit :=
  (_assert_engine_init ;;;
   gfx leaves (ThickLine x1 y1 x2 y2 thickness color) ;;;
   restore_color)%engine.

Definition draw_rect_thick (x1 y1 x2 y2 : Z) (color : Color) (thickness : Z) : M unit :=
  (_assert_engine_init ;;;
   gfx leaves (ThickLine x1 y1 x2 y1 thickness color) ;;;
   gfx leaves (ThickLine x2 y1 x2 y2 thickness color) ;;;
   gfx leaves (ThickLine x2 y2 x1 y2 thickness color) ;;;
   gfx leaves (ThickLine x1 y2 x1 y1 thickness color) ;;;
   restore_color)%engine.

Definition draw_circle_thick (x y radius : Z) (color : Color) (thickness : Z) : M unit :=
  (_assert_engine_init ;;;
   gfx leaves (ThickCircle x y radius thickness color) ;;;
   restore_color)%engine.

Definition draw_ellipse_thick (x y rx ry : Z) (color : Color) (thickness : Z) : M unit :=
  (_assert_engine_init ;;;
   gfx leaves (ThickEllipse x y rx ry thickness color) ;;;
   restore_color)%engine.
End Shapes.

(** A call of one of the eight shape-drawing functions. *)
Inductive shape_call :=
  | DrawLine (x1 y1 x2 y2 : Z) (color : Color)
  | DrawRect (x1 y1 x2 y2 : Z) (color : Color)
  | DrawEllipse (cx cy rx ry : Z) (color : Color)
  | DrawCircle (cx cy radius : Z) (color : Color)
  | DrawLineThick (x1 y1 x2 y2 : Z) (color : Color) (thickness : Z)
  | DrawRectThick (x1 y1 x2 y2 : Z) (color : Color) (thickness : Z)
  | DrawCircleThick (cx cy radius : Z) (color : Color) (thickness : Z)
  | DrawEllipseThick (cx cy rx ry : Z) (color : Color) (thickness : Z).

Definition draw_shape (leaves : shape -> Color -> Color) (c : shape_call) : M unit :=
  match c with
  | DrawLine x1 y1 x2 y2 color => draw_line leaves x1 y1 x2 y2 color
  | DrawRect x1 y1 x2 y2 color => draw_rect leaves x1 y1 x2 y2 color
  | DrawEllipse cx cy rx ry color => draw_ellipse leaves cx cy rx ry color
  | DrawCircle cx cy radius color => draw_circle leaves cx cy radius color
  | DrawLineThick x1 y1 x2 y2 color thickness =>
      draw_line_thick leaves x1 y1 x2 y2 color thickness
  | DrawRectThick x1 y1 x2 y2 color thickness =>
      draw_rect_thick leaves x1 y1 x2 y2 color thickness
  | DrawCircleThick cx cy radius color thickness =>
      draw_circle_thick leaves cx cy radius color thickness
  | DrawEllipseThick cx cy rx ry color thickness =>
      draw_ellipse_thick leaves cx cy rx ry color thickness
  end.

(** SDL2_gfx as it is: a primitive sets the draw colour to the colour of the
    shape and leaves it there. *)
Definition sdl2_gfx_leaves (s : shape) (_ : Color) : Color :=
  match s with
  | Line _ _ _ _ c | Rectangle _ _ _ _ c | Ellipse _ _ _ _ c | Circle _ _ _ c
  | ThickLine _ _ _ _ _ c | ThickCircle _ _ _ _ c | ThickEllipse _ _ _ _ _ c => c
  end.

(** ** The frame loop *)

(** An event of the backend ([SDL_Event] of SDL): its [type] field and the
    rest of the union.  [SDL_QUIT] is SDL's [0x100]. *)
Record SDL_Event := {
  type : Z;
  detail : Z
}.

Definition SDL_QUIT : Z := 256.

(** What the backend supplies during one iteration: the events
    [SDL_PollEvent] hands over before it returns [0], and the two readings
    of [SDL_GetTicks]. *)
Record frame := {
  pending : list SDL_Event;
  ticks_start : Z;
  ticks_end : Z
}.

(** What the loop did, in order: the calls of the user's handlers and of
    the backend. *)
Inductive action :=
  | Handled (ev : SDL_Event)
  | Updated
  | Cleared
  | Drawn
  | Presented
  | Delayed (ms : Z).

(** [_engine->isRunning = 0] *)
Definition stop (eng : Engine) : Engine :=
  {| window := window eng; renderer := renderer eng; isRunning := false;
     eng_width := eng_width eng; eng_height := eng_height eng; fps := fps eng |}.

(** How a run of the loop over the supplied frames ends: the loop was left,
    the frames ran out with the loop still going, or [1000 / fps] divided
    by zero. *)
Inductive loop_end :=
  | LoopLeft
  | FramesRanOut
  | DividedByZero.

Section FrameLoop.
Context {G : Type}.
Variable update : G -> G.
Variable draw : option (G -> G).
Variable event_handler : option (SDL_Event -> G -> G).

(** [while (SDL_PollEvent(&_event)) { ... }] *)
Fixpoint poll_events (events : list SDL_Event) (eng : Engine) (game : G)
    (log : list action) : Engine * G * list action :=
  match events with
  | [] => (eng, game, log)
  | _event :: rest =>
      if type _event =? SDL_QUIT then poll_events rest (stop eng) game log
      else
        match event_handler with
        | Some handle =>
            poll_events rest eng (handle _event game) (log ++ [Handled _event])
        | None => poll_events rest eng game log
        end
  end.

(** The rest of an iteration, after the events: update, clear, draw,
    present, and the delay that fills the frame.  [None] in the third
    place is the division by a zero [fps]. *)
Definition finish_frame (f : frame) (eng : Engine) (game : G) (log : list action)
    : G * list action * option unit :=
  let game1 := update game in
  let log1 := log ++ [Updated; Cleared] in
  let game2 := match draw with Some d => d game1 | None => game1 end in
  let log2 := log1 ++ match draw with Some _ => [Drawn] | None => [] end in
  let log3 := log2 ++ [Presented] in
  let frameTime := wrap_int (wrap_uint32 (ticks_end f - ticks_start f)) in
  if fps eng =? 0 then (game2, log3, None)
  else
    (game2,
     if frameTime <? 1000 ÷ fps eng
     then log3 ++ [Delayed (wrap_uint32 (1000 ÷ fps eng - frameTime))]
     else log3,
     Some tt).

(** [while (_engine->isRunning) { ... }] *)
Fixpoint frame_loop (frames : list frame) (eng : Engine) (game : G)
    (log : list action) : Engine * G * list action * loop_end :=
  if isRunning eng then
    match frames with
    | [] => (eng, game, log, FramesRanOut)
    | f :: rest =>
        let '(eng1, game1, log1) := poll_events (pending f) eng game log in
        match finish_frame f eng1 game1 log1 with
        | (game2, log2, None) => (eng1, game2, log2, DividedByZero)
        | (game2, log2, Some _) => frame_loop rest eng1 game2 log2
        end
    end
  else (eng, game, log, LoopLeft).

(** [engine_run]: the loop on the engine the static points to.  The
    callbacks get the game data and nothing of the engine's. *)
Definition engine_run (frames : list frame) (game : G)
    : M (G * list action * loop_end) :=
  (_assert_engine_init ;;;
   fun w =>
     match _engine w with
     | None => Undef
     | Some eng =>
         let '(eng', game', log, how) := frame_loop frames eng game [] in
         Returns (game', log, how) (set_engine (Some eng') w)
     end)%engine.
End FrameLoop.

Definition is_quit (ev : SDL_Event) : bool := type ev =? SDL_QUIT.

(** ** Sequences of calls *)

(** A call of the object, template and font interface. *)
Inductive call :=
  | CreateObject (name : string) (o : Object)
  | InstantiateObject (template : ptr) (name : string) (px py : Z) (data : ptr)
  | GetObjectByName (name : string)
  | GetObjectById (key : Z)
  | ObjectExists (name : string)
  | DestroyObjectById (key : Z)
  | DestroyObjectByName (name : string)
  | DestroyAllObjects
  | CreateObjectTemplate (name : string) (t : ObjectTemplate)
  | GetTemplateByName (name : string)
  | DestroyObjectTemplate (name : string)
  | DestroyAllTemplates
  | LoadFont (filename : string) (size : Z) (name : string)
  | CloseFont (name : string).

(** [object->id], read through the pointer a creation returned. *)
Definition returned_id (p : ptr) (w : world) : list Z :=
  match p with
  | Some l =>
      match blocks (mem w) !! l with
      | Some {| contents := CObject o |} => [id o]
      | _ => []
      end
  | NULL => []
  end.

(** The call, and the identifiers it hands to the caller. *)
Definition perform (c : call) : M (list Z) :=
  match c with
  | CreateObject name o =>
      (p <- create_like name o ; fun w => Returns (returned_id p w) w)%engine
  | InstantiateObject template name px py data =>
      (p <- instantiate_object template name px py data ;
       fun w => Returns (returned_id p w) w)%engine
  | GetObjectByName name => (get_object_by_name name ;;; ret [])%engine
  | GetObjectById key => (get_object_by_id key ;;; ret [])%engine
  | ObjectExists name => (object_exists name ;;; ret [])%engine
  | DestroyObjectById key => (destroy_object_by_id key ;;; ret [])%engine
  | DestroyObjectByName name => (destroy_object_by_name name ;;; ret [])%engine
  | DestroyAllObjects => (destroy_all_objects ;;; ret [])%engine
  | CreateObjectTemplate name t =>
      (create_object_template name (tpl_texture t) (tpl_width t) (tpl_height t)
         (tpl_hitbox t) ;;; ret [])%engine
  | GetTemplateByName name => (get_template_by_name name ;;; ret [])%engine
  | DestroyObjectTemplate name => (destroy_object_template name ;;; ret [])%engine
  | DestroyAllTemplates => (destroy_all_templates ;;; ret [])%engine
  | LoadFont filename size name => (load_font filename size name ;;; ret [])%engine
  | CloseFont name => (close_font name ;;; ret [])%engine
  end.

Definition creates (c : call) : bool :=
  match c with
  | CreateObject _ _ | InstantiateObject _ _ _ _ _ => true
  | _ => false
  end.

(** The calls run one after the other until one of them does not return:
    the identifiers handed out, and how the run ended. *)
Fixpoint run (cs : list call) (w : world) : list Z * outcome unit :=
  match cs with
  | [] => ([], Returns tt w)
  | c :: cs' =>
      match perform c w with
      | Returns ids w' => let '(ids', o) := run cs' w' in (ids ++ ids', o)
      | Exits status w' => ([], Exits status w')
      | Undef => ([], Undef)
      | Hangs => ([], Hangs)
      end
  end.

(** ** Predicates of the statements *)

(** Block [l] is live and holds [c]. *)
Definition live (m : memory) (l : loc) (c : cell) : Prop :=
  blocks m !! l = Some {| contents := c; released := false |}.

(** The allocator can hand out [n] more blocks. *)
Definition can_allocate (m : memory) (n : nat) : Prop :=
  (size (blocks m) + n <= limit m)%nat.

Definition engine_initialized (w : world) : Prop := _engine w <> None.

(** The call ended the process through [exit(1)]. *)
Definition fails_fatally {A} (o : outcome A) : Prop :=
  exists w', o = Exits 1 w'.

(** None of the sums the two tests form leaves the range of [int]. *)
Definition extent_in_int (o : Object) : Prop :=
  in_int (x o + width o) /\ in_int (y o + height o).

(** A box as [create_hitbox] fills it in. *)
Definition box (bx by_ bw bh : Z) : Object :=
  {| id := 0; texture := NULL; x := bx; y := by_; width := bw; height := bh;
     hitbox := true; data := NULL |}.

(** *** What a registry holds *)

(** One registered entry: the node, the block of its payload and what that
    block holds, the block of its name copy and the name. *)
Record entry := {
  e_node : loc;
  e_payload : loc;
  e_value : cell;
  e_name_ptr : loc;
  e_name : string
}.

Definition first_or (l : list entry) (q : ptr) : ptr :=
  match l with
  | [] => q
  | e :: _ => Some (e_node e)
  end.

(** The node of [e] as it lies in the heap when its successor is [nx]. *)
Definition node_of (e : entry) (nx : ptr) : ListNode :=
  {| payload := Some (e_payload e); name := Some (e_name_ptr e); next := nx |}.

(** The entries of [l] are live in [m] and linked in this order, the last
    one pointing to [q]. *)
Fixpoint segment (m : memory) (l : list entry) (q : ptr) : Prop :=
  match l with
  | [] => True
  | e :: l' =>
      live m (e_node e) (CNode (node_of e (first_or l' q)))
      /\ live m (e_name_ptr e) (CString (e_name e))
      /\ live m (e_payload e) (e_value e)
      /\ segment m l' q
  end.

Definition addresses (l : list entry) : list loc :=
  flat_map (fun e => [e_node e; e_name_ptr e; e_payload e]) l.

(** The list that starts at [head] holds exactly the entries of [l], in
    this order, each in blocks of its own. *)
Definition registry (m : memory) (head : ptr) (l : list entry) : Prop :=
  head = first_or l NULL /\ segment m l NULL /\ NoDup (addresses l).

Definition named (key : string) (e : entry) : bool := bool_decide (e_name e = key).

Definition has_id (key : Z) (e : entry) : bool :=
  match e_value e with
  | CObject o => id o =? key
  | _ => false
  end.

Definition holds_object (e : entry) : Prop := exists o, e_value e = CObject o.

(** The first entry that passes [f], and the list without it. *)
Fixpoint first_such (f : entry -> bool) (l : list entry) : option entry :=
  match l with
  | [] => None
  | e :: l' => if f e then Some e else first_such f l'
  end.

Fixpoint without_first (f : entry -> bool) (l : list entry) : list entry :=
  match l with
  | [] => []
  | e :: l' => if f e then l' else e :: without_first f l'
  end.

(** The test [test] run in [m] on the node of an entry of [l] answers
    what [f] says about the entry. *)
Definition tests_as (test : matcher) (m : memory) (f : entry -> bool)
    (l : list entry) : Prop :=
  Forall (fun e => forall nx, test m (node_of e nx) = Done (f e)) l.

(** The heap after [free] on the live block [l] that holds [c]. *)
Definition mark_released (l : loc) (c : cell) (m : memory) : memory :=
  set_blocks (<[l := {| contents := c; released := true |}]> (blocks m)) m.

(** The heap after the three [free]s on the entry [e] whose node points to
    [nx]. *)
Definition release_entry (e : entry) (nx : ptr) (m : memory) : memory :=
  mark_released (e_node e) (CNode (node_of e nx))
    (mark_released (e_name_ptr e) (CString (e_name e))
       (mark_released (e_payload e) (e_value e) m)).

(** Block [l] was given back. *)
Definition gone (m : memory) (l : loc) : Prop :=
  exists c, blocks m !! l = Some {| contents := c; released := true |}.

Definition entry_gone (m : memory) (e : entry) : Prop :=
  gone m (e_node e) /\ gone m (e_name_ptr e) /\ gone m (e_payload e).

(** The registries of a process. *)
Definition object_registry (w : world) (l : list entry) : Prop :=
  registry (mem w) (_object_list w) l /\ Forall holds_object l.

Definition template_registry (w : world) (l : list entry) : Prop :=
  registry (mem w) (_object_template_list w) l.

Definition font_registry (w : world) (l : list entry) : Prop :=
  registry (mem w) (_font w) l.

(** The diagnostic [msg] was printed and the process ended. *)
Definition died_with (msg : string) (w : world) : outcome ptr :=
  Exits 1 (set_stderr (stderr w ++ [msg]) w).

(** ** Sample processes *)

Definition black : Color := {| r := 0; g := 0; b := 0; a := 255 |}.

Definition sample_engine : Engine :=
  {| window := Some 1%positive; renderer := Some 2%positive; isRunning := true;
     eng_width := 800; eng_height := 600; fps := 50 |}.

(** A process whose engine is initialised and that has registered nothing
    yet, on a heap of 64 blocks, checked or not. *)
Definition fresh_process (chk : bool) : world :=
  set_engine (Some sample_engine)
    (process_start chk 64 black (0, 0) {["assets/font.ttf"%string]}).

(** The process after a call. *)
Definition after {A} (c : M A) (w : world) : world :=
  match c w with
  | Returns _ w' => w'
  | Exits _ w' => w'
  | Undef => w
  | Hangs => w
  end.

(** How many entries of [l] are registered under [key]. *)
Definition count_named (key : string) (l : list entry) : nat :=
  length (List.filter (named key) l).

Definition sample_object : Object :=
  {| id := 0; texture := NULL; x := 10; y := 20; width := 32; height := 32;
     hitbox := true; data := NULL |}.

(** Objects "a", "a", "b" created in this order. *)
Definition three_objects (chk : bool) : world :=
  after (create_like "b" sample_object)
    (after (create_like "a" sample_object)
       (after (create_like "a" sample_object) (fresh_process chk))).

Definition three_objects_entries : list entry :=
  [ {| e_node := 3; e_payload := 1; e_value := CObject (with_id 0 sample_object);
       e_name_ptr := 2; e_name := "a" |};
    {| e_node := 6; e_payload := 4; e_value := CObject (with_id 1 sample_object);
       e_name_ptr := 5; e_name := "a" |};
    {| e_node := 9; e_payload := 7; e_value := CObject (with_id 2 sample_object);
       e_name_ptr := 8; e_name := "b" |} ]%positive.

(** Templates "a" and "a" created one after the other. *)
Definition two_templates : world :=
  after (create_object_template "a" NULL 32 32 false)
    (after (create_object_template "a" NULL 16 16 true) (fresh_process true)).

Definition two_templates_entries : list entry :=
  [ {| e_node := 3; e_payload := 1;
       e_value := CTemplate {| tpl_texture := NULL; tpl_width := 16; tpl_height := 16;
                               tpl_hitbox := true |};
       e_name_ptr := 2; e_name := "a" |};
    {| e_node := 6; e_payload := 4;
       e_value := CTemplate {| tpl_texture := NULL; tpl_width := 32; tpl_height := 32;
                               tpl_hitbox := false |};
       e_name_ptr := 5; e_name := "a" |} ]%positive.

(** The three objects and one font. *)
Definition objects_and_font : world :=
  after (load_font "assets/font.ttf" 16 "main") (three_objects true).

Definition font_entries : list entry :=
  [ {| e_node := 12; e_payload := 10; e_value := CForeign;
       e_name_ptr := 11; e_name := "main" |} ]%positive.

(** The process with one more block, holding [c]. *)
Definition with_block (c : cell) (w : world) : world :=
  match malloc (mem w) c with
  | Some (_, m') => set_mem m' w
  | None => w
  end.

Definition sample_tilemap : Tilemap :=
  {| tm_texture := NULL; tile_width := 16; tile_height := 16; spacing := 1;
     nb_rows := 4; nb_cols := 5 |}.

(** A process that holds [sample_tilemap] in block 1. *)
Definition tile_process : world :=
  with_block (CTilemap sample_tilemap) (fresh_process true).

(** A process whose pointer is at the bottom-right corner of
    [sample_object]. *)
Definition corner_process : world := set_mouse_state (42, 52) (fresh_process true).

Definition red : Color := {| r := 255; g := 0; b := 0; a := 255 |}.

(** The handler calls of one pass over the pending events: the events
    that are not quit events, in queue order. *)
Definition forwarded (events : list SDL_Event) : list SDL_Event :=
  List.filter (fun ev => negb (is_quit ev)) events.

Definition has_quit (events : list SDL_Event) : bool := existsb is_quit events.

(** A game that is the list of the event types its handler was given, and
    callbacks that leave marks in it. *)
Definition sample_handler (ev : SDL_Event) (game : list Z) : list Z := game ++ [type ev].
Definition sample_update (game : list Z) : list Z := game ++ [-1].

Definition key_event (k : Z) : SDL_Event := {| type := 768; detail := k |}.
Definition quit_event : SDL_Event := {| type := SDL_QUIT; detail := 0 |}.

Definition sample_frames : list frame :=
  [ {| pending := [key_event 97]; ticks_start := 0; ticks_end := 5 |};
    {| pending := [key_event 98; quit_event; key_event 99];
       ticks_start := 20; ticks_end := 50 |};
    {| pending := [key_event 100]; ticks_start := 50; ticks_end := 55 |} ].

(** A call that, when it returns, has left the identifier counter alone. *)
Definition keeps_counter {A} (c : M A) : Prop :=
  forall w v w', c w = Returns v w' -> _object_id w' = _object_id w.

(** A call that, when it returns, has left the blocks that hold objects as
    they were. *)
Definition keeps_objects {A} (c : M A) : Prop :=
  forall w v w', c w = Returns v w' ->
  forall l o rel, blocks (mem w) !! l = Some {| contents := CObject o; released := rel |} ->
                  blocks (mem w') !! l = Some {| contents := CObject o; released := rel |}.

(** The creations among the calls. *)
Definition creations (cs : list call) : nat := length (List.filter creates cs).

Definition sample_calls : list call :=
  [ CreateObject "a" sample_object;
    CreateObject "b" sample_object;
    DestroyObjectById 0;
    CreateObjectTemplate "t"
      {| tpl_texture := NULL; tpl_width := 8; tpl_height := 8; tpl_hitbox := true |};
    InstantiateObject (Some 7%positive) "c" 1 2 NULL;
    DestroyAllObjects;
    CreateObject "d" sample_object ].

(** ** The rest of the interface *)

(** *** The engine and the window *)

(** What the backend answers while the engine starts: whether [malloc] has
    a block for the [Engine], the results of [SDL_Init] and [TTF_Init], the
    window and the renderer that were created, the result of
    [SDL_SetRenderDrawBlendMode]. *)
Record backend_start := {
  engine_allocated : bool;
  sdl_init : Z;
  ttf_init : Z;
  created_window : ptr;
  created_renderer : ptr;
  blend_mode_set : Z
}.

Definition with_window (p : ptr) (eng : Engine) : Engine :=
  {| window := p; renderer := renderer eng; isRunning := isRunning eng;
     eng_width := eng_width eng; eng_height := eng_height eng; fps := fps eng |}.

Definition with_renderer (p : ptr) (eng : Engine) : Engine :=
  {| window := window eng; renderer := p; isRunning := isRunning eng;
     eng_width := eng_width eng; eng_height := eng_height eng; fps := fps eng |}.

(** [junk] is what the new block happens to hold; the fields are written
    one after the other.  The title is handed to [SDL_CreateWindow]. *)
Definition engine_init (boot : backend_start) (junk : Engine) (title : string)
    (width height fps : Z) : M unit :=
  fun w =>
    match _engine w with
    | Some _ => fatal "[ENGINE] Engine already initialized\n" w
    | None =>
        if negb (engine_allocated boot) then
          fatal "[ENGINE] Failed to allocate memory for engine\n" w
        else
          let w1 := set_engine (Some junk) w in
          if negb (sdl_init boot =? 0) then
            fatal "[ENGINE] Failed to initialize SDL: %s\n" w1
          else if negb (ttf_init boot =? 0) then
            fatal "[ENGINE] Failed to initialize TTF: %s\n" w1
          else
            let eng2 := with_window (created_window boot) junk in
            let w2 := set_engine (Some eng2) w in
            match created_window boot with
            | NULL => fatal "[ENGINE] Failed to create window: %s\n" w2
            | Some _ =>
                let eng3 := with_renderer (created_renderer boot) eng2 in
                let w3 := set_engine (Some eng3) w in
                match created_renderer boot with
                | NULL => fatal "[ENGINE] Failed to create renderer: %s\n" w3
                | Some _ =>
                    if negb (blend_mode_set boot =? 0) then
                      fatal "[ENGINE] Failed to set render draw blend mode: %s\n" w3
                    else
                      Returns tt
                        (set_draw_color {| r := 0; g := 0; b := 0; a := 255 |}
                           (set_engine
                              (Some {| window := created_window boot;
                                       renderer := created_renderer boot;
                                       isRunning := true; eng_width := width;
                                       eng_height := height; fps := fps |}) w))
                end
            end
    end.

(** The renderer and the window are destroyed, SDL is shut down, and the
    [Engine] is given back; no static is written, [_engine] keeps the
    address of the struct that is gone.  The record [world] has no place
    for that: the function is modelled for the call its documentation asks
    for, "at the end of the program", and says nothing of calls that
    follow it. *)
Definition engine_quit : M unit :=
  (_assert_engine_init ;;; ret tt)%engine.

(** [IMG_Load] returns a surface when the file can be decoded;
    [image_files] are the files it can.  The surface is given back before
    the function returns. *)
Definition set_window_icon (image_files : gset string) (filename : string) : M unit :=
  (_assert_engine_init ;;;
   if bool_decide (filename ∈ image_files) then ret tt
   else fatal "[ENGINE] Failed to load icon: %s\n")%engine.

(** [SDL_TRUE] and [SDL_FALSE] are [1] and [0]; the result is what
    [SDL_SetWindowResizable] is given after the window. *)
Definition window_resizable (resizable : bool) : M Z :=
  (_assert_engine_init ;;; ret (if resizable then 1 else 0))%engine.

(** [SDL_WINDOW_FULLSCREEN] is [1]; the result is what
    [SDL_SetWindowFullscreen] is given after the window. *)
Definition window_fullscreen (fullscreen : bool) : M Z :=
  (_assert_engine_init ;;; ret (if fullscreen then 1 else 0))%engine.

(** *** Heap updates, arithmetic *)

(** Heap code that changes the heap. *)
Definition update_heap (f : memory -> result memory) : M unit :=
  fun w =>
    match f (mem w) with
    | Done m' => Returns tt (set_mem m' w)
    | Undefined => Undef
    | Diverges => Hangs
    end.

Definition int_sub (a b : Z) : Z := wrap_int (a - b).

Definition int_mul (a b : Z) : Z := wrap_int (a * b).

(** *** Drawing textures and objects *)

(** [SDL_Rect] of SDL. *)
Record SDL_Rect := {
  rect_x : Z;
  rect_y : Z;
  rect_w : Z;
  rect_h : Z
}.

(** What [SDL_RenderCopy] is given after the renderer: the texture, the
    source rectangle and the destination rectangle, [None] for [NULL].
    The functions that end in that call return it here. *)
Record render_copy := {
  copied : ptr;
  srcrect : option SDL_Rect;
  dstrect : option SDL_Rect
}.

Definition draw_texture (texture : ptr) (x y width height : Z) : M render_copy :=
  (_assert_engine_init ;;;
   ret {| copied := texture; srcrect := None;
          dstrect := Some {| rect_x := x; rect_y := y; rect_w := width;
                             rect_h := height |} |})%engine.

(** [made] is what [IMG_LoadTexture] returns, which the function does
    not look at; the texture is given back before the function returns. *)
Definition draw_texture_from_path (made : ptr) (filename : string)
    (x y width height : Z) : M render_copy :=
  (_assert_engine_init ;;;
   ret {| copied := made; srcrect := None;
          dstrect := Some {| rect_x := x; rect_y := y; rect_w := width;
                             rect_h := height |} |})%engine.

(** What [SDL_RenderCopyEx] is given besides the renderer, the two [NULL]
    rectangles, the [NULL] centre and [SDL_FLIP_NONE]: the texture and the
    angle, a [double] that is handed on as it came. *)
Definition rotate_texture {D : Type} (name : string) (angle : D) : M (ptr * D) :=
  (_assert_engine_init ;;;
   texture <- get_texture_by_name name ;
   ret (texture, angle))%engine.

(** The function reads the struct its argument points to. *)
Definition draw_object (object : Object) : M render_copy :=
  (_assert_engine_init ;;;
   ret {| copied := texture object; srcrect := None;
          dstrect := Some {| rect_x := x object; rect_y := y object;
                             rect_w := width object; rect_h := height object |} |})%engine.

(** ** Tilemaps and tiles *)

Definition load_tile (m : memory) (p : ptr) : result Tile :=
  (c <- load m p ; match c with CTile t => Done t | _ => Undefined end)%result.

(** [IMG_LoadTexture] hands out a block of the library's when the file can
    be decoded; [image_files] are the files it can.  The tilemap is
    allocated first, and its fields are written once the texture is
    there. *)
Definition create_tilemap (image_files : gset string) (filename : string)
    (tile_width tile_height spacing nb_rows nb_cols : Z) : M ptr :=
  (_assert_engine_init ;;;
   fun w =>
     match malloc (mem w)
             (CTilemap {| tm_texture := NULL; tile_width := tile_width;
                          tile_height := tile_height; spacing := spacing;
                          nb_rows := nb_rows; nb_cols := nb_cols |}) with
     | None => fatal "[ENGINE] Failed to allocate memory for tilemap\n" w
     | Some (tilemap, m1) =>
         if bool_decide (filename ∈ image_files) then
           match malloc m1 CForeign with
           | None => fatal "[ENGINE] Failed to load tilemap: %s\n" (set_mem m1 w)
           | Some (texture, m2) =>
               match store m2 (Some tilemap)
                       (CTilemap {| tm_texture := Some texture; tile_width := tile_width;
                                    tile_height := tile_height; spacing := spacing;
                                    nb_rows := nb_rows; nb_cols := nb_cols |}) with
               | Done m3 => Returns (Some tilemap) (set_mem m3 w)
               | Undefined => Undef
               | Diverges => Hangs
               end
           end
         else fatal "[ENGINE] Failed to load tilemap: %s\n" (set_mem m1 w)
     end)%engine.

(** The initialiser of [src] in the three functions that draw a tile. *)
Definition tile_src (tm : Tilemap) (tile_row tile_col : Z) : SDL_Rect :=
  {| rect_x := int_mul tile_col (int_add (tile_width tm) (spacing tm));
     rect_y := int_mul tile_row (int_add (tile_height tm) (spacing tm));
     rect_w := tile_width tm;
     rect_h := tile_height tm |}.

Definition draw_tile (tile : ptr) (x y : Z) : M render_copy :=
  (_assert_engine_init ;;;
   t <- read_heap (fun m => load_tile m tile) ;
   tm <- read_heap (fun m => load_tilemap m (tilemap t)) ;
   ret {| copied := tm_texture tm;
          srcrect := Some (tile_src tm (row t) (col t));
          dstrect := Some {| rect_x := x; rect_y := y; rect_w := tile_width tm;
                             rect_h := tile_height tm |} |})%engine.

Definition draw_tile_with_size (tile : ptr) (x y width height : Z) : M render_copy :=
  (_assert_engine_init ;;;
   t <- read_heap (fun m => load_tile m tile) ;
   tm <- read_heap (fun m => load_tilemap m (tilemap t)) ;
   ret {| copied := tm_texture tm;
          srcrect := Some (tile_src tm (row t) (col t));
          dstrect := Some {| rect_x := x; rect_y := y; rect_w := width;
                             rect_h := height |} |})%engine.

Definition draw_tile_from_tilemap (tilemap : ptr) (tile_row tile_col x y : Z)
    : M render_copy :=
  (_assert_engine_init ;;;
   tm <- read_heap (fun m => load_tilemap m tilemap) ;
   if (tile_row >=? nb_rows tm) || (tile_col >=? nb_cols tm) then
     fatal "[ENGINE] Tile out of bounds\n"
   else
     ret {| copied := tm_texture tm;
            srcrect := Some (tile_src tm tile_row tile_col);
            dstrect := Some {| rect_x := x; rect_y := y; rect_w := tile_width tm;
                               rect_h := tile_height tm |} |})%engine.

(** [free(tile)], without a look at the engine. *)
Definition destroy_tile (tile : ptr) : M unit :=
  update_heap (fun m => free m tile).

(** [SDL_DestroyTexture] gives the texture back to the library; it does
    nothing on [NULL]. *)
Definition destroy_tilemap (tilemap : ptr) : M unit :=
  (_assert_engine_init ;;;
   update_heap (fun m =>
     (tm <- load_tilemap m tilemap ;
      m1 <- free m (tm_texture tm) ;
      free m1 tilemap)%result))%engine.

(** ** Hitboxes and the pointer, continued *)

(** The block comes from [malloc] and only [x], [y], [width], [height] and
    [hitbox] are written: [junk] is what the block happens to hold in the
    other fields.  The name is not used. *)
Definition create_hitbox (junk : Object) (name : string) (x y width height : Z)
    : M ptr :=
  (_assert_engine_init ;;;
   fun w =>
     match malloc (mem w)
             (CObject {| id := id junk; texture := texture junk; x := x; y := y;
                         width := width; height := height; hitbox := true;
                         data := data junk |}) with
     | None => fatal "[ENGINE] Failed to allocate memory for hitbox\n" w
     | Some (new_hitbox, m') => Returns (Some new_hitbox) (set_mem m' w)
     end)%engine.

(** The loop of [get_object_by_id], with [return false] after it. *)
Definition object_is_hovered_by_id (id : Z) : M bool :=
  (_assert_engine_init ;;;
   found <- lookup_in _object_list (object_id_is id) ;
   match found with
   | Some n =>
       object <- read_heap (fun m => load_object m (payload n)) ;
       object_is_hovered object
   | None => ret false
   end)%engine.

(** [SDL_KEYDOWN] is SDL's [0x300]. *)
Definition SDL_KEYDOWN : Z := 768.

Definition any_key_pressed (event : SDL_Event) : M bool :=
  (_assert_engine_init ;;; ret (type event =? SDL_KEYDOWN))%engine.

(** ** Text *)

(** Modelled from the spec: [Anchor] of [engine.h], "a named reference
    point (corner, edge-midpoint, or center) used to offset text placement
    relative to a target position"; the nine names are the labels of the
    [switch] in [draw_text]. *)
Inductive Anchor :=
  | TOP_LEFT
  | TOP
  | TOP_RIGHT
  | LEFT
  | CENTER
  | RIGHT
  | BOTTOM_LEFT
  | BOTTOM
  | BOTTOM_RIGHT.

Definition _get_font (font_name : string) : M ListNode :=
  (found <- lookup_in _font (name_is font_name) ;
   match found with
   | Some n => ret n
   | None => fatal "[ENGINE] Font not found: %s\n"
   end)%engine.

(** [SDL_Rect rect = {x, y, surface->w, surface->h}; switch (anchor) ...] *)
Definition anchored (anchor : Anchor) (x y w h : Z) : SDL_Rect :=
  let half_w := int_sub x (w ÷ 2) in
  let full_w := int_sub x w in
  let half_h := int_sub y (h ÷ 2) in
  let full_h := int_sub y h in
  match anchor with
  | TOP_LEFT => {| rect_x := x; rect_y := y; rect_w := w; rect_h := h |}
  | TOP => {| rect_x := half_w; rect_y := y; rect_w := w; rect_h := h |}
  | TOP_RIGHT => {| rect_x := full_w; rect_y := y; rect_w := w; rect_h := h |}
  | LEFT => {| rect_x := x; rect_y := half_h; rect_w := w; rect_h := h |}
  | CENTER => {| rect_x := half_w; rect_y := half_h; rect_w := w; rect_h := h |}
  | RIGHT => {| rect_x := full_w; rect_y := half_h; rect_w := w; rect_h := h |}
  | BOTTOM_LEFT => {| rect_x := x; rect_y := full_h; rect_w := w; rect_h := h |}
  | BOTTOM => {| rect_x := half_w; rect_y := full_h; rect_w := w; rect_h := h |}
  | BOTTOM_RIGHT => {| rect_x := full_w; rect_y := full_h; rect_w := w; rect_h := h |}
  end.

(** [rendered] is the size of the surface [TTF_RenderText_Solid] returns,
    [None] for [NULL]; [made] is what [SDL_CreateTextureFromSurface]
    returns.  Surface and texture are given back before the function
    returns. *)
Definition draw_text (rendered : option (Z * Z)) (made : ptr)
    (font_name text : string) (x y : Z) (color : Color) (anchor : Anchor)
    : M render_copy :=
  (_assert_engine_init ;;;
   fun w =>
     match _font w with
     | NULL => fatal "[ENGINE] Font not loaded\n" w
     | Some _ =>
         (font_struct <- _get_font font_name ;
          match rendered with
          | None => fatal "[ENGINE] Failed to render text: %s\n"
          | Some (surface_w, surface_h) =>
              match made with
              | NULL => fatal "[ENGINE] Failed to create texture from surface: %s\n"
              | Some _ =>
                  ret {| copied := made; srcrect := None;
                         dstrect := Some (anchored anchor x y surface_w surface_h) |}
              end
          end) w
     end)%engine.

Definition close_all_fonts : M unit :=
  (_assert_engine_init ;;;
   fun w =>
     match _font w with
     | NULL => Returns tt w
     | Some _ =>
         match free_all (enough_fuel (mem w)) (mem w) (_font w) with
         | Done m' => Returns tt (set_font NULL (set_mem m' w))
         | Undefined => Undef
         | Diverges => Hangs
         end
     end)%engine.

(** ** Predicates of the further statements *)

(** The identifier of a registered object. *)
Definition entry_id (e : entry) : Z :=
  match e_value e with
  | CObject o => id o
  | _ => -1
  end.

(** The identifiers of the registered objects grow along the list and
    stay below [bound]. *)
Definition ids_in_order (bound : Z) (l : list entry) : Prop :=
  StronglySorted (fun e1 e2 => entry_id e1 < entry_id e2) l
  /\ Forall (fun e => 0 <= entry_id e < bound) l.

(** The object, template and font registries of a process hold [lo], [lt]
    and [lf], no block serves two entries, and the objects carry distinct
    identifiers that the counter has passed. *)
Definition well_formed (w : world) (lo lt lf : list entry) : Prop :=
  object_registry w lo /\ template_registry w lt /\ font_registry w lf
  /\ NoDup (addresses (lo ++ lt ++ lf))
  /\ ids_in_order (_object_id w) lo.

(** Two rectangles share a point of positive area. *)
Definition rects_overlap (a b : SDL_Rect) : Prop :=
  rect_x a < rect_x b + rect_w b /\ rect_x b < rect_x a + rect_w a
  /\ rect_y a < rect_y b + rect_h b /\ rect_y b < rect_y a + rect_h a.

(** The point lies in the rectangle, borders included. *)
Definition rect_holds (rc : SDL_Rect) (px py : Z) : Prop :=
  rect_x rc <= px <= rect_x rc + rect_w rc
  /\ rect_y rc <= py <= rect_y rc + rect_h rc.

(** What changed between two heaps lies in [touched]. *)
Definition only_touches (touched : list loc) (m m' : memory) : Prop :=
  forall a bk, blocks m !! a = Some bk -> a ∉ touched -> blocks m' !! a = Some bk.

(** The products and sums of [tile_src] for the tile at [(tile_row,
    tile_col)] stay in the range of [int]. *)
Definition tile_in_int (tm : Tilemap) (tile_row tile_col : Z) : Prop :=
  in_int (tile_width tm + spacing tm) /\ in_int (tile_height tm + spacing tm)
  /\ in_int (tile_col * (tile_width tm + spacing tm))
  /\ in_int (tile_row * (tile_height tm + spacing tm)).


Definition is_updated (a : action) : bool :=
  match a with Updated => true | _ => false end.

Definition is_presented (a : action) : bool :=
  match a with Presented => true | _ => false end.

Definition is_delayed (a : action) : bool :=
  match a with Delayed _ => true | _ => false end.

(** A process with a tilemap of 4 rows and 5 columns in block 1, its
    texture in block 2, and the tile of cell (2, 3) in block 3. *)
Definition sheet_process (chk : bool) : world :=
  after (get_tile (Some 1%positive) 2 3)
    (after (create_tilemap {["assets/tiles.png"%string]} "assets/tiles.png" 16 16 1 4 5)
       (fresh_process chk)).

Definition sheet : Tilemap :=
  {| tm_texture := Some 2%positive; tile_width := 16; tile_height := 16; spacing := 1;
     nb_rows := 4; nb_cols := 5 |}.

(** The game data after an iteration that met the events [events]: the
    handler on each event that is not a quit event, in queue order, then
    [update], then [draw]. *)
Definition frame_effect {G : Type} (update : G -> G) (draw : option (G -> G))
    (event_handler : option (SDL_Event -> G -> G)) (events : list SDL_Event)
    (game : G) : G :=
  let handled :=
    match event_handler with
    | Some handle => fold_left (fun g ev => handle ev g) (forwarded events) game
    | None => game
    end in
  match draw with
  | Some d => d (update handled)
  | None => update handled
  end.

(** What an iteration does after the events, up to the delay. *)
Definition frame_actions {G : Type} (draw : option (G -> G)) : list action :=
  [Updated; Cleared] ++ match draw with Some _ => [Drawn] | None => [] end
  ++ [Presented].

(** How many actions of the log pass [p]. *)
Definition count_actions (p : action -> bool) (log : list action) : nat :=
  length (List.filter p log).

Definition stalled_engine : Engine :=
  {| window := Some 1%positive; renderer := Some 2%positive; isRunning := true;
     eng_width := 800; eng_height := 600; fps := 0 |}.

(** The frame time of an iteration of [elapsed] milliseconds, less than
    2^32: the difference of the two tick readings is a [Uint32], and
    [frameTime] is an [int]. *)
Definition frame_time (elapsed : Z) : Z :=
  if elapsed <? 2 ^ 31 then elapsed else elapsed - 2 ^ 32.

(** An engine that was given a negative frame rate. *)
Definition reversed_engine : Engine :=
  {| window := Some 1%positive; renderer := Some 2%positive; isRunning := true;
     eng_width := 800; eng_height := 600; fps := -50 |}.

(** A call that, when it returns, has left the process as it was. *)
Definition changes_nothing {A} (c : M A) : Prop :=
  forall w v w', c w = Returns v w' -> w' = w.

(** The point of a rectangle an anchor names: a corner, the middle of an
    edge, or the centre. *)
Definition anchor_point (anchor : Anchor) (rc : SDL_Rect) : Z * Z :=
  let left := rect_x rc in
  let middle := rect_x rc + rect_w rc ÷ 2 in
  let right := rect_x rc + rect_w rc in
  let top := rect_y rc in
  let centre := rect_y rc + rect_h rc ÷ 2 in
  let bottom := rect_y rc + rect_h rc in
  match anchor with
  | TOP_LEFT => (left, top)
  | TOP => (middle, top)
  | TOP_RIGHT => (right, top)
  | LEFT => (left, centre)
  | CENTER => (middle, centre)
  | RIGHT => (right, centre)
  | BOTTOM_LEFT => (left, bottom)
  | BOTTOM => (middle, bottom)
  | BOTTOM_RIGHT => (right, bottom)
  end.

(** Two entries that pass [f] lie next to each other in [l]. *)
Fixpoint neighbours (f : entry -> bool) (l : list entry) : bool :=
  match l with
  | [] => false
  | e1 :: l' =>
      match l' with
      | e2 :: _ => f e1 && f e2
      | [] => false
      end || neighbours f l'
  end.

(** The entries of [l] that do not pass [f], in their order. *)
Definition others (f : entry -> bool) (l : list entry) : list entry :=
  List.filter (fun e => negb (f e)) l.

(** ** The four registries, side by side *)

Inductive registry_kind :=
  | Objects
  | Templates
  | Textures
  | Fonts.

(** The static a registry hangs off. *)
Definition head_of (k : registry_kind) : world -> ptr :=
  match k with
  | Objects => _object_list
  | Templates => _object_template_list
  | Textures => _texture_list
  | Fonts => _font
  end.

Definition set_head_of (k : registry_kind) : ptr -> world -> world :=
  match k with
  | Objects => set_object_list
  | Templates => set_object_template_list
  | Textures => set_texture_list
  | Fonts => set_font
  end.

(** What the insertion into a registry is given besides the name: the
    fields of an object, those of a template, the image file of a texture
    with the files [IMG_LoadTexture] can decode, the file and the size of
    a font. *)
Inductive registrant :=
  | AnObject (o : Object)
  | ATemplate (t : ObjectTemplate)
  | ATexture (image_files : gset string) (filename : string)
  | AFont (filename : string) (size : Z).

Definition kind_of (r : registrant) : registry_kind :=
  match r with
  | AnObject _ => Objects
  | ATemplate _ => Templates
  | ATexture _ _ => Textures
  | AFont _ _ => Fonts
  end.

(** The insertion of each registry.  [load_font] returns nothing. *)
Definition insert (r : registrant) (name : string) : M ptr :=
  match r with
  | AnObject o => create_like name o
  | ATemplate t =>
      create_object_template name (tpl_texture t) (tpl_width t) (tpl_height t)
        (tpl_hitbox t)
  | ATexture image_files filename => load_texture image_files filename name
  | AFont filename size => (load_font filename size name ;;; ret NULL)%engine
  end.

(** The lookup by name of each registry.  [_get_font] returns the node, of
    which [draw_text] takes the font. *)
Definition lookup (k : registry_kind) (name : string) : M ptr :=
  match k with
  | Objects => get_object_by_name name
  | Templates => get_template_by_name name
  | Textures => get_texture_by_name name
  | Fonts => (font_struct <- _get_font name ; ret (payload font_struct))%engine
  end.

(** The diagnostic of a lookup that found nothing. *)
Definition not_found (k : registry_kind) : string :=
  match k with
  | Objects => "[ENGINE] Object not found: %s\n"
  | Templates => "[ENGINE] Object template not found: %s\n"
  | Textures => "[ENGINE] Texture not found: %s\n"
  | Fonts => "[ENGINE] Font not found: %s\n"
  end.

(** What the payload block of a new entry holds. *)
Definition registered_value (r : registrant) (w : world) : cell :=
  match r with
  | AnObject o => CObject (with_id (_object_id w) o)
  | ATemplate t => CTemplate t
  | ATexture _ _ => CForeign
  | AFont _ _ => CForeign
  end.

(** What the insertion returns when [e] is the new entry. *)
Definition returned (r : registrant) (e : entry) : ptr :=
  match r with
  | AFont _ _ => NULL
  | _ => Some (e_payload e)
  end.

(** The library can make the resource, and the name with its terminator
    fits the block it is copied into. *)
Definition insertable (r : registrant) (name : string) (w : world) : Prop :=
  match r with
  | AnObject _ => True
  | ATemplate _ => True
  | ATexture image_files filename => filename ∈ image_files
  | AFont filename _ =>
      filename ∈ font_files w /\ (String.length name <= String.length filename)%nat
  end.

(** ** Every call of the interface *)

(** A function that is given a pointer to an object reads the struct once
    the engine was looked at. *)
Definition on_object {A} (object : ptr) (f : Object -> M A) : M A :=
  (_assert_engine_init ;;;
   o <- read_heap (fun m => load_object m object) ;
   f o)%engine.

(** A call of a function of the interface, with the answers of the
    libraries it depends on: [G] is the type of the game data, [D] stands
    for [double]. *)
Inductive operation (G D : Type) :=
  | Call (c : call)
  | EngineInit (boot : backend_start) (junk : Engine) (title : string)
      (width height fps : Z)
  | EngineQuit
  | EngineRun (update : G -> G) (draw : option (G -> G))
      (event_handler : option (SDL_Event -> G -> G)) (frames : list frame) (game : G)
  | SetWindowIcon (image_files : gset string) (filename : string)
  | WindowResizable (resizable : bool)
  | WindowFullscreen (fullscreen : bool)
  | LoadTexture (image_files : gset string) (filename name : string)
  | GetTextureByName (name : string)
  | DrawTexture (texture : ptr) (px py pw ph : Z)
  | DrawTextureFromPath (made : ptr) (filename : string) (px py pw ph : Z)
  | DestroyAllTextures
  | RotateTexture (name : string) (angle : D)
  | CreateTilemap (image_files : gset string) (filename : string)
      (tw th sp rows cols : Z)
  | GetTile (tilemap : ptr) (tile_row tile_col : Z)
  | DrawTile (tile : ptr) (px py : Z)
  | DrawTileWithSize (tile : ptr) (px py pw ph : Z)
  | DrawTileFromTilemap (tilemap : ptr) (tile_row tile_col px py : Z)
  | DestroyTile (tile : ptr)
  | DestroyTilemap (tilemap : ptr)
  | DrawObject (object : ptr)
  | CreateHitbox (junk : Object) (name : string) (px py pw ph : Z)
  | HitboxIsColliding (hitbox1 hitbox2 : ptr)
  | DrawShape (leaves : shape -> Color -> Color) (c : shape_call)
  | AnyKeyPressed (event : SDL_Event)
  | ObjectIsHovered (object : ptr)
  | ObjectIsHoveredById (key : Z)
  | DrawText (rendered : option (Z * Z)) (made : ptr) (font_name text : string)
      (px py : Z) (color : Color) (anchor : Anchor)
  | CloseAllFonts.
Arguments Call {G D} c.
Arguments EngineInit {G D} boot junk title width height fps.
Arguments EngineQuit {G D}.
Arguments EngineRun {G D} update draw event_handler frames game.
Arguments SetWindowIcon {G D} image_files filename.
Arguments WindowResizable {G D} resizable.
Arguments WindowFullscreen {G D} fullscreen.
Arguments LoadTexture {G D} image_files filename name.
Arguments GetTextureByName {G D} name.
Arguments DrawTexture {G D} texture px py pw ph.
Arguments DrawTextureFromPath {G D} made filename px py pw ph.
Arguments DestroyAllTextures {G D}.
Arguments RotateTexture {G D} name angle.
Arguments CreateTilemap {G D} image_files filename tw th sp rows cols.
Arguments GetTile {G D} tilemap tile_row tile_col.
Arguments DrawTile {G D} tile px py.
Arguments DrawTileWithSize {G D} tile px py pw ph.
Arguments DrawTileFromTilemap {G D} tilemap tile_row tile_col px py.
Arguments DestroyTile {G D} tile.
Arguments DestroyTilemap {G D} tilemap.
Arguments DrawObject {G D} object.
Arguments CreateHitbox {G D} junk name px py pw ph.
Arguments HitboxIsColliding {G D} hitbox1 hitbox2.
Arguments DrawShape {G D} leaves c.
Arguments AnyKeyPressed {G D} event.
Arguments ObjectIsHovered {G D} object.
Arguments ObjectIsHoveredById {G D} key.
Arguments DrawText {G D} rendered made font_name text px py color anchor.
Arguments CloseAllFonts {G D}.

(** The call, and the identifiers of the objects [create_object] and
    [instantiate_object] hand to the caller. *)
Definition perform_operation {G D : Type} (op : operation G D) : M (list Z) :=
  match op with
  | Call c => perform c
  | EngineInit boot junk title width height fps =>
      (engine_init boot junk title width height fps ;;; ret [])%engine
  | EngineQuit => (engine_quit ;;; ret [])%engine
  | EngineRun update draw event_handler frames game =>
      (engine_run update draw event_handler frames game ;;; ret [])%engine
  | SetWindowIcon image_files filename =>
      (set_window_icon image_files filename ;;; ret [])%engine
  | WindowResizable resizable => (window_resizable resizable ;;; ret [])%engine
  | WindowFullscreen fullscreen => (window_fullscreen fullscreen ;;; ret [])%engine
  | LoadTexture image_files filename name =>
      (load_texture image_files filename name ;;; ret [])%engine
  | GetTextureByName name => (get_texture_by_name name ;;; ret [])%engine
  | DrawTexture texture px py pw ph => (draw_texture texture px py pw ph ;;; ret [])%engine
  | DrawTextureFromPath made filename px py pw ph =>
      (draw_texture_from_path made filename px py pw ph ;;; ret [])%engine
  | DestroyAllTextures => (destroy_all_textures ;;; ret [])%engine
  | RotateTexture name angle => (rotate_texture name angle ;;; ret [])%engine
  | CreateTilemap image_files filename tw th sp rows cols =>
      (create_tilemap image_files filename tw th sp rows cols ;;; ret [])%engine
  | GetTile tilemap tile_row tile_col => (get_tile tilemap tile_row tile_col ;;; ret [])%engine
  | DrawTile tile px py => (draw_tile tile px py ;;; ret [])%engine
  | DrawTileWithSize tile px py pw ph =>
      (draw_tile_with_size tile px py pw ph ;;; ret [])%engine
  | DrawTileFromTilemap tilemap tile_row tile_col px py =>
      (draw_tile_from_tilemap tilemap tile_row tile_col px py ;;; ret [])%engine
  | DestroyTile tile => (destroy_tile tile ;;; ret [])%engine
  | DestroyTilemap tilemap => (destroy_tilemap tilemap ;;; ret [])%engine
  | DrawObject object => (on_object object draw_object ;;; ret [])%engine
  | CreateHitbox junk name px py pw ph =>
      (create_hitbox junk name px py pw ph ;;; ret [])%engine
  | HitboxIsColliding hitbox1 hitbox2 =>
      (o1 <- read_heap (fun m => load_object m hitbox1) ;
       o2 <- read_heap (fun m => load_object m hitbox2) ;
       ret (hitbox_is_colliding o1 o2) ;;; ret [])%engine
  | DrawShape leaves c => (draw_shape leaves c ;;; ret [])%engine
  | AnyKeyPressed event => (any_key_pressed event ;;; ret [])%engine
  | ObjectIsHovered object => (on_object object object_is_hovered ;;; ret [])%engine
  | ObjectIsHoveredById key => (object_is_hovered_by_id key ;;; ret [])%engine
  | DrawText rendered made font_name text px py color anchor =>
      (draw_text rendered made font_name text px py color anchor ;;; ret [])%engine
  | CloseAllFonts => (close_all_fonts ;;; ret [])%engine
  end.

(** The calls that create an object of the registry. *)
Definition creates_object {G D : Type} (op : operation G D) : bool :=
  match op with
  | Call c => creates c
  | _ => false
  end.

(** The calls run one after the other until one of them does not return:
    the identifiers handed out, and how the run ended. *)
Fixpoint run_operations {G D : Type} (ops : list (operation G D)) (w : world)
    : list Z * outcome unit :=
  match ops with
  | [] => ([], Returns tt w)
  | op :: ops' =>
      match perform_operation op w with
      | Returns ids w' => let '(ids', o) := run_operations ops' w' in (ids ++ ids', o)
      | Exits status w' => ([], Exits status w')
      | Undef => ([], Undef)
      | Hangs => ([], Hangs)
      end
  end.

(** [engine_quit] is called at the end only. *)
Fixpoint quit_is_last {G D : Type} (ops : list (operation G D)) : bool :=
  match ops with
  | [] => true
  | EngineQuit :: ops' => match ops' with [] => true | _ :: _ => false end
  | _ :: ops' => quit_is_last ops'
  end.

(** The creations among the calls. *)
Definition object_creations {G D : Type} (ops : list (operation G D)) : nat :=
  length (List.filter creates_object ops).

(** A backend that starts without a fault. *)
Definition sample_start : backend_start :=
  {| engine_allocated := true; sdl_init := 0; ttf_init := 0;
     created_window := Some 1%positive; created_renderer := Some 2%positive;
     blend_mode_set := 0 |}.

(** The process before [engine_init], on a heap of 64 blocks. *)
Definition new_process : world :=
  process_start true 64 black (0, 0) {["assets/font.ttf"%string]}.

(** A program from [engine_init] to [engine_quit]: three objects are
    created, and between the creations a hitbox, a texture, a font and a
    tilemap come and go, the registries are emptied, a shape is drawn and
    the frame loop runs. *)
Definition sample_operations : list (operation (list Z) Z) :=
  [ EngineInit sample_start stalled_engine "TinyWar" 800 600 50;
    Call (CreateObject "a" sample_object);
    CreateHitbox sample_object "wall" 0 0 8 8;
    LoadTexture {["assets/tiles.png"%string]} "assets/tiles.png" "tiles";
    Call (LoadFont "assets/font.ttf" 16 "main");
    Call (CreateObject "b" sample_object);
    DestroyTile (Some 4%positive);
    DestroyAllTextures;
    CloseAllFonts;
    Call DestroyAllObjects;
    CreateTilemap {["assets/tiles.png"%string]} "assets/tiles.png" 16 16 1 4 5;
    DestroyTilemap (Some 14%positive);
    DrawShape sdl2_gfx_leaves (DrawLine 0 0 10 10 red);
    EngineRun sample_update None (Some sample_handler) sample_frames [];
    Call (CreateObject "c" sample_object);
    EngineQuit ].

(** * Properties *)

(** ** Integers and strings *)

Lemma wrap_int_in_range z : in_int z -> wrap_int z = z.
Proof.
  unfold in_int, wrap_int, INT_MIN, INT_MAX. intros H.
  rewrite Z.mod_small; lia.
Qed.

Lemma strcmp_refl s : strcmp s s = 0.
Proof. induction s as [|c s IH]; simpl; [done|]. by rewrite Ascii.eqb_refl. Qed.

Lemma strcmp_eq s t : strcmp s t = 0 <-> s = t.
Proof.
  split; [|intros ->; apply strcmp_refl].
  revert t. induction s as [|c s IH]; intros [|d t]; simpl; try done.
  destruct (Ascii.eqb_spec c d) as [->|Hne].
  - intros H. f_equal. by apply IH.
  - by destruct (_ <? _)%nat.
Qed.

Lemma strcmp_eqb s t : (strcmp s t =? 0) = bool_decide (s = t).
Proof.
  destruct (Z.eqb_spec (strcmp s t) 0) as [H|H]; symmetry.
  - apply bool_decide_eq_true. by apply strcmp_eq.
  - apply bool_decide_eq_false. intros E. apply H. by apply strcmp_eq.
Qed.

(** ** Collision and hovering *)

(** C3: [hitbox_is_colliding a b] is true exactly when
    [a.x < b.x+b.width], [a.x+a.width > b.x], [a.y < b.y+b.height] and
    [a.y+a.height > b.y], all strict (the sums being sums of [int]s that
    stay in range); boxes [{0,0,10,10}] and [{10,0,10,10}], which touch,
    do not collide, and [{0,0,10,10}] and [{9,0,10,10}], which overlap by
    one pixel, do. *)
Theorem hitbox_is_colliding_strict (a b : Object) :
  extent_in_int a -> extent_in_int b ->
  (hitbox_is_colliding a b = true <->
     x a < x b + width b /\ x a + width a > x b /\
     y a < y b + height b /\ y a + height a > y b)
  /\ hitbox_is_colliding (box 0 0 10 10) (box 10 0 10 10) = false
  /\ hitbox_is_colliding (box 0 0 10 10) (box 9 0 10 10) = true.
Proof.
  intros [Hax Hay] [Hbx Hby]. split; [|split; reflexivity].
  unfold hitbox_is_colliding, int_add.
  rewrite !wrap_int_in_range by assumption.
  rewrite !andb_true_iff, !Z.ltb_lt, !Z.gtb_gt. tauto.
Qed.

Lemma hitbox_is_colliding_strict_witness :
  extent_in_int (box 3 4 5 6) /\ extent_in_int (box 7 8 2 2) /\
  (hitbox_is_colliding (box 3 4 5 6) (box 7 8 2 2) = true <->
     3 < 7 + 2 /\ 3 + 5 > 7 /\ 4 < 8 + 2 /\ 4 + 6 > 8).
Proof.
  assert (Ha : extent_in_int (box 3 4 5 6)) by (vm_compute; intuition discriminate).
  assert (Hb : extent_in_int (box 7 8 2 2)) by (vm_compute; intuition discriminate).
  split; [exact Ha|]. split; [exact Hb|].
  exact (proj1 (hitbox_is_colliding_strict (box 3 4 5 6) (box 7 8 2 2) Ha Hb)).
Defined.

(** C4: [object_is_hovered] is true exactly when the pointer lies in
    [[x, x+width]] and [[y, y+height]], both ends included; on a box of
    non-negative size the pointer at [(x+width, y+height)] hovers. *)
Theorem object_is_hovered_inclusive (o : Object) (w : world) :
  engine_initialized w -> extent_in_int o ->
  exists h : bool,
    object_is_hovered o w = Returns h w
    /\ (h = true <->
          x o <= fst (mouse_state w) <= x o + width o /\
          y o <= snd (mouse_state w) <= y o + height o)
    /\ (0 <= width o -> 0 <= height o ->
        mouse_state w = (x o + width o, y o + height o) -> h = true).
Proof.
  intros Hinit [Hx Hy].
  unfold object_is_hovered, bind, _assert_engine_init.
  destruct (_engine w) as [e|] eqn:He; [|by destruct Hinit].
  destruct (mouse_state w) as [mouseX mouseY] eqn:Hm. simpl.
  eexists. split; [reflexivity|].
  unfold int_add. rewrite !wrap_int_in_range by assumption.
  rewrite !andb_true_iff, !Z.geb_le, !Z.leb_le. split; [lia|].
  intros Hw Hh [= -> ->]. lia.
Qed.

Lemma object_is_hovered_inclusive_witness :
  engine_initialized corner_process /\ extent_in_int sample_object
  /\ object_is_hovered sample_object corner_process = Returns true corner_process.
Proof.
  assert (Hinit : engine_initialized corner_process) by (vm_compute; discriminate).
  assert (Hext : extent_in_int sample_object) by (vm_compute; intuition discriminate).
  split; [exact Hinit|]. split; [exact Hext|].
  destruct (object_is_hovered_inclusive sample_object corner_process Hinit Hext)
    as (h & Hrun & _ & Hcorner).
  rewrite Hrun. f_equal. apply Hcorner; [discriminate|discriminate|reflexivity].
Defined.

(** ** Tiles *)

Lemma load_live m l c : live m l c -> load m (Some l) = Done c.
Proof.
  unfold live, load, accessible. intros ->. simpl. by rewrite andb_false_r.
Qed.

Lemma malloc_can_allocate m c n :
  can_allocate m (S n) ->
  exists l m', malloc m c = Some (l, m') /\ blocks m !! l = None
    /\ m' = set_blocks (<[l := {| contents := c; released := false |}]> (blocks m)) m.
Proof.
  unfold can_allocate, malloc. intros H.
  destruct (decide _) as [_|Hn]; [|lia].
  eexists _, _. split; [reflexivity|]. split; [|done].
  apply not_elem_of_dom, is_fresh.
Qed.

(** C7: [get_tile] ends the process exactly when [row >= nb_rows] or
    [col >= nb_cols]; [row == nb_rows] is refused; there is no lower bound:
    every index pair below the two bounds, negative ones included, yields a
    tile. *)
Theorem get_tile_upper_bound_only (w : world) (p : loc) (tm : Tilemap)
    (tile_row tile_col : Z) :
  engine_initialized w -> live (mem w) p (CTilemap tm) -> can_allocate (mem w) 1 ->
  (fails_fatally (get_tile (Some p) tile_row tile_col w) <->
     tile_row >= nb_rows tm \/ tile_col >= nb_cols tm)
  /\ fails_fatally (get_tile (Some p) (nb_rows tm) tile_col w)
  /\ (tile_row < nb_rows tm -> tile_col < nb_cols tm ->
      exists t w',
        get_tile (Some p) tile_row tile_col w = Returns (Some t) w'
        /\ live (mem w') t
             (CTile {| tilemap := Some p; row := tile_row; col := tile_col |}))
  /\ (0 <= nb_rows tm -> 0 <= nb_cols tm -> tile_row < 0 -> tile_col < 0 ->
      ~ fails_fatally (get_tile (Some p) tile_row tile_col w)).
Proof.
  intros Hinit Hlive Hcap.
  assert (Hrun : forall i j,
    get_tile (Some p) i j w =
      if (i >=? nb_rows tm) || (j >=? nb_cols tm)
      then fatal "[ENGINE] Tile out of bounds\n" w
      else match malloc (mem w) (CTile {| tilemap := Some p; row := i; col := j |}) with
           | None => fatal "[ENGINE] Failed to allocate memory for tile\n" w
           | Some (tile, m') => Returns (Some tile) (set_mem m' w)
           end).
  { intros i j. unfold get_tile, bind, _assert_engine_init, read_heap, load_tilemap.
    destruct (_engine w) as [e|] eqn:He; [|by destruct Hinit].
    rewrite (load_live _ _ _ Hlive). simpl. by destruct (_ || _). }
  assert (Hok : forall i j, i < nb_rows tm -> j < nb_cols tm ->
    exists t w', get_tile (Some p) i j w = Returns (Some t) w'
      /\ live (mem w') t (CTile {| tilemap := Some p; row := i; col := j |})).
  { intros i j Hi Hj. rewrite Hrun.
    replace (i >=? nb_rows tm) with false by (symmetry; rewrite Z.geb_leb; apply Z.leb_gt; lia).
    replace (j >=? nb_cols tm) with false by (symmetry; rewrite Z.geb_leb; apply Z.leb_gt; lia).
    simpl.
    destruct (malloc_can_allocate (mem w)
      (CTile {| tilemap := Some p; row := i; col := j |}) 0 Hcap)
      as (l & m' & -> & Hfresh & ->).
    eexists _, _. split; [reflexivity|]. unfold live. simpl.
    apply lookup_insert_eq. }
  assert (Hexit : forall i j, i >= nb_rows tm \/ j >= nb_cols tm ->
    fails_fatally (get_tile (Some p) i j w)).
  { intros i j Hij. rewrite Hrun.
    replace ((i >=? nb_rows tm) || (j >=? nb_cols tm)) with true.
    - eexists. reflexivity.
    - symmetry. apply orb_true_iff. rewrite !Z.geb_leb, !Z.leb_le. lia. }
  assert (Hnot : forall i j, i < nb_rows tm -> j < nb_cols tm ->
    ~ fails_fatally (get_tile (Some p) i j w)).
  { intros i j Hi Hj [w' Hw'].
    destruct (Hok i j Hi Hj) as (t & w'' & Hr & _). congruence. }
  split; [|split; [|split]].
  - split; [|apply Hexit].
    intros Hf.
    destruct (Z_lt_ge_dec tile_row (nb_rows tm)) as [Hi|Hi]; [|by left].
    destruct (Z_lt_ge_dec tile_col (nb_cols tm)) as [Hj|Hj]; [|by right].
    by destruct (Hnot _ _ Hi Hj).
  - apply Hexit. left. lia.
  - apply Hok.
  - intros. apply Hnot; lia.
Qed.

Lemma get_tile_upper_bound_only_witness :
  engine_initialized tile_process
  /\ live (mem tile_process) 1%positive (CTilemap sample_tilemap)
  /\ can_allocate (mem tile_process) 1
  /\ fails_fatally (get_tile (Some 1%positive) 4 0 tile_process)
  /\ ~ fails_fatally (get_tile (Some 1%positive) (-1) (-1) tile_process).
Proof.
  assert (Hinit : engine_initialized tile_process) by (vm_compute; discriminate).
  assert (Hlive : live (mem tile_process) 1%positive (CTilemap sample_tilemap))
    by (vm_compute; reflexivity).
  assert (Hcap : can_allocate (mem tile_process) 1) by (vm_compute; lia).
  split; [exact Hinit|]. split; [exact Hlive|]. split; [exact Hcap|].
  destruct (get_tile_upper_bound_only tile_process 1%positive sample_tilemap (-1) (-1)
              Hinit Hlive Hcap) as (_ & _ & _ & Hneg).
  destruct (get_tile_upper_bound_only tile_process 1%positive sample_tilemap 4 0
              Hinit Hlive Hcap) as (_ & Heq & _).
  split; [exact Heq|]. apply Hneg; reflexivity || discriminate.
Defined.

(** ** The heap *)

Lemma set_mem_same w : set_mem (mem w) w = w.
Proof. by destruct w. Qed.

Lemma live_is_Some m l c : live m l c -> is_Some (blocks m !! l).
Proof. unfold live. intros ->. eauto. Qed.

Lemma load_node_live m l n : live m l (CNode n) -> load_node m (Some l) = Done n.
Proof. intros H. unfold load_node. by rewrite (load_live _ _ _ H). Qed.

Lemma load_string_live m l s : live m l (CString s) -> load_string m (Some l) = Done s.
Proof. intros H. unfold load_string. by rewrite (load_live _ _ _ H). Qed.

Lemma load_object_live m l o : live m l (CObject o) -> load_object m (Some l) = Done o.
Proof. intros H. unfold load_object. by rewrite (load_live _ _ _ H). Qed.

(** The heap [m] with block [l] overwritten by [bk]. *)
Lemma live_set_ne m l bk l' c :
  l <> l' -> live m l' c -> live (set_blocks (<[l := bk]> (blocks m)) m) l' c.
Proof. unfold live. simpl. intros Hne H. by rewrite lookup_insert_ne. Qed.

Lemma free_live m l c :
  live m l c ->
  free m (Some l) =
    Done (set_blocks (<[l := {| contents := c; released := true |}]> (blocks m)) m).
Proof. unfold live, free. by intros ->. Qed.

Lemma store_live m l c c' :
  live m l c ->
  store m (Some l) c' =
    Done (set_blocks (<[l := {| contents := c'; released := false |}]> (blocks m)) m).
Proof. unfold live, store, accessible. intros ->. simpl. by rewrite andb_false_r. Qed.

Lemma store_next_live m l n q :
  live m l (CNode n) ->
  store_next m (Some l) q =
    Done (set_blocks
            (<[l := {| contents := CNode {| payload := payload n; name := name n; next := q |};
                       released := false |}]> (blocks m)) m).
Proof.
  intros H. unfold store_next. rewrite (load_node_live _ _ _ H).
  unfold rbind. by rewrite (store_live _ _ _ _ H).
Qed.

(** ** Linked segments *)

Ltac in_list :=
  solve [repeat first [assumption | apply list_elem_of_here | apply list_elem_of_further]].

Lemma first_or_app l1 l2 q : first_or (l1 ++ l2) q = first_or l1 (first_or l2 q).
Proof. by destruct l1. Qed.

Lemma addresses_app l1 l2 : addresses (l1 ++ l2) = addresses l1 ++ addresses l2.
Proof. apply flat_map_app. Qed.

Lemma addresses_cons e l :
  addresses (e :: l) = e_node e :: e_name_ptr e :: e_payload e :: addresses l.
Proof. reflexivity. Qed.

Lemma segment_frame m m' l q :
  (forall a, a ∈ addresses l -> blocks m' !! a = blocks m !! a) ->
  segment m l q -> segment m' l q.
Proof.
  induction l as [|e l IH]; cbn [segment]; [done|].
  rewrite addresses_cons.
  intros Hfr (Hn & Hs & Hp & Hl). unfold live in *.
  rewrite !Hfr by in_list.
  repeat split; try done.
  apply IH; [|done]. intros a0 Ha. apply Hfr. in_list.
Qed.

Lemma segment_set_ne m a0 bk l q :
  a0 ∉ addresses l -> segment m l q ->
  segment (set_blocks (<[a0 := bk]> (blocks m)) m) l q.
Proof.
  intros Hni. apply segment_frame. intros a1 Ha. simpl.
  apply lookup_insert_ne. intros ->. by apply Hni.
Qed.

Lemma segment_app m l1 l2 q :
  segment m (l1 ++ l2) q <-> segment m l1 (first_or l2 q) /\ segment m l2 q.
Proof.
  induction l1 as [|e l1 IH]; cbn [segment app]; [tauto|].
  rewrite first_or_app, IH. tauto.
Qed.

Lemma segment_addresses m l q a0 :
  segment m l q -> a0 ∈ addresses l -> is_Some (blocks m !! a0).
Proof.
  induction l as [|e l IH]; cbn [segment]; [by intros _ ?%elem_of_nil|].
  intros (Hn & Hs & Hp & Hl). rewrite addresses_cons, !elem_of_cons.
  intros [->|[->|[->|Ha]]]; eauto using live_is_Some.
Qed.

(** The last node of a segment sent to another successor. *)
Lemma segment_retarget m l e q q' :
  segment m (l ++ [e]) q -> NoDup (addresses (l ++ [e])) ->
  segment
    (set_blocks (<[e_node e := {| contents := CNode (node_of e q'); released := false |}]>
                   (blocks m)) m)
    (l ++ [e]) q'.
Proof.
  rewrite !segment_app, addresses_app. simpl.
  intros [Hl (Hn & Hs & Hp & _)] Hnd.
  apply NoDup_app in Hnd as (_ & Hdisj & Hnde).
  apply NoDup_cons in Hnde as [Hne1 Hnde]. apply NoDup_cons in Hnde as [Hne2 _].
  split.
  - apply segment_set_ne; [|done]. intros Hin. apply (Hdisj _ Hin). in_list.
  - repeat split.
    + unfold live. simpl. apply lookup_insert_eq.
    + apply live_set_ne; [|done]. intros E. apply Hne1. rewrite E. in_list.
    + apply live_set_ne; [|done]. intros E. apply Hne1. rewrite E. in_list.
Qed.

Lemma node_in_addresses e l : e ∈ l -> e_node e ∈ addresses l.
Proof.
  induction l as [|e' l IH]; [by intros ?%elem_of_nil|].
  rewrite addresses_cons, !elem_of_cons. intros [->|Hin]; [by left|].
  right. right. right. by apply IH.
Qed.

(** A segment has no more nodes than the heap has blocks. *)
Lemma segment_length m l q :
  segment m l q -> NoDup (addresses l) -> (length l <= size (blocks m))%nat.
Proof.
  intros Hseg Hnd.
  assert (Hnodes : NoDup (e_node <$> l)).
  { clear Hseg. induction l as [|e l IH]; [constructor|].
    rewrite addresses_cons in Hnd. apply NoDup_cons in Hnd as [Hni Hnd].
    apply NoDup_cons in Hnd as [_ Hnd]. apply NoDup_cons in Hnd as [_ Hnd].
    rewrite fmap_cons. constructor; [|by apply IH].
    intros Hin. apply Hni. apply list_elem_of_fmap in Hin as (e' & -> & Hin).
    right. right. by apply node_in_addresses. }
  rewrite <- (length_fmap e_node), <- size_dom.
  rewrite <- (size_list_to_set (C := gset loc) (e_node <$> l)) by done.
  apply subseteq_size. intros a0 Ha. apply elem_of_list_to_set in Ha.
  apply elem_of_dom. apply (segment_addresses _ _ _ _ Hseg).
  apply list_elem_of_fmap in Ha as (e' & -> & Hin).
  by apply node_in_addresses.
Qed.

(** ** The loops on a registry *)

Lemma name_is_tests key m l q :
  segment m l q -> tests_as (name_is key) m (named key) l.
Proof.
  induction l as [|e l IH]; cbn [segment]; [constructor|].
  intros (Hn & Hs & Hp & Hl). constructor; [|by apply IH].
  intros nx. unfold name_is, node_of, named. cbn [name].
  rewrite (load_string_live _ _ _ Hs). cbn [rbind]. by rewrite strcmp_eqb.
Qed.

Lemma object_id_is_tests key m l q :
  segment m l q -> Forall holds_object l ->
  tests_as (object_id_is key) m (has_id key) l.
Proof.
  induction l as [|e l IH]; cbn [segment]; [constructor|].
  intros (Hn & Hs & Hp & Hl) Hobj. apply Forall_cons in Hobj as [[o Ho] Hobj].
  constructor; [|by apply IH].
  intros nx. unfold object_id_is, node_of, has_id. cbn [payload].
  rewrite Ho in Hp |- *. by rewrite (load_object_live _ _ _ Hp).
Qed.

Lemma find_first_segment test f m l fuel :
  segment m l NULL -> tests_as test m f l -> (length l < fuel)%nat ->
  exists r, find_first fuel test m (first_or l NULL) = Done r
    /\ payload <$> r = (fun e => Some (e_payload e)) <$> first_such f l.
Proof.
  revert fuel. induction l as [|e l IH]; intros fuel Hseg Htest Hfuel;
    (destruct fuel as [|fuel]; [simpl in Hfuel; lia|]).
  - exists None. done.
  - cbn [segment] in Hseg. destruct Hseg as (Hn & Hs & Hp & Hl).
    apply Forall_cons in Htest as [Hte Htest].
    cbn [find_first first_or first_such].
    rewrite (load_node_live _ _ _ Hn). cbn [rbind]. rewrite Hte. cbn [rbind].
    destruct (f e).
    + eexists. split; [reflexivity|]. done.
    + cbn [node_of next]. apply IH; [done..|]. simpl in Hfuel. lia.
Qed.

Lemma unlink_first_absent test f m l fuel head prev :
  segment m l NULL -> tests_as test m f l -> Forall (fun e => f e = false) l ->
  (length l < fuel)%nat ->
  unlink_first fuel test m head (first_or l NULL) prev = Done (m, head).
Proof.
  revert fuel prev. induction l as [|e l IH]; intros fuel prev Hseg Htest Hf Hfuel;
    (destruct fuel as [|fuel]; [simpl in Hfuel; lia|]).
  - done.
  - cbn [segment] in Hseg. destruct Hseg as (Hn & Hs & Hp & Hl).
    apply Forall_cons in Htest as [Hte Htest]. apply Forall_cons in Hf as [Hfe Hf].
    cbn [unlink_first first_or].
    rewrite (load_node_live _ _ _ Hn). cbn [rbind]. rewrite Hte, Hfe. cbn [rbind].
    cbn [node_of next]. apply IH; [done..|]. simpl in Hfuel. lia.
Qed.

(** The three [free]s on a live entry. *)
Lemma free_entry m e nx :
  live m (e_node e) (CNode (node_of e nx)) ->
  live m (e_name_ptr e) (CString (e_name e)) ->
  live m (e_payload e) (e_value e) ->
  NoDup [e_node e; e_name_ptr e; e_payload e] ->
  (m1 <- free m (Some (e_payload e)) ;
   m2 <- free m1 (Some (e_name_ptr e)) ;
   free m2 (Some (e_node e)))%result = Done (release_entry e nx m).
Proof.
  intros Hn Hs Hp Hnd.
  apply NoDup_cons in Hnd as [Hn1 Hnd]. apply NoDup_cons in Hnd as [Hn2 _].
  rewrite (free_live _ _ _ Hp). cbn [rbind].
  assert (Hs' : live (mark_released (e_payload e) (e_value e) m) (e_name_ptr e)
                  (CString (e_name e))).
  { apply live_set_ne; [|done]. intros E. apply Hn2. rewrite E. in_list. }
  unfold mark_released in Hs'. rewrite (free_live _ _ _ Hs'). cbn [rbind].
  apply free_live.
  apply live_set_ne; [intros E; apply Hn1; rewrite <- E; in_list|].
  apply live_set_ne; [intros E; apply Hn1; rewrite <- E; in_list|done].
Qed.

Lemma release_entry_gone m e nx :
  NoDup [e_node e; e_name_ptr e; e_payload e] -> entry_gone (release_entry e nx m) e.
Proof.
  intros Hnd.
  apply NoDup_cons in Hnd as [Hn1 Hnd]. apply NoDup_cons in Hnd as [Hn2 _].
  unfold entry_gone, gone, release_entry, mark_released. simpl. repeat split.
  - eexists. apply lookup_insert_eq.
  - eexists. rewrite lookup_insert_ne by (intros E; apply Hn1; rewrite E; in_list).
    apply lookup_insert_eq.
  - eexists. rewrite lookup_insert_ne by (intros E; apply Hn1; rewrite E; in_list).
    rewrite lookup_insert_ne by (intros E; apply Hn2; rewrite E; in_list).
    apply lookup_insert_eq.
Qed.

Lemma segment_release_entry m e nx l q :
  (forall a0, a0 ∈ [e_node e; e_name_ptr e; e_payload e] -> a0 ∉ addresses l) ->
  segment m l q -> segment (release_entry e nx m) l q.
Proof.
  intros Hdisj Hseg. unfold release_entry, mark_released.
  apply segment_set_ne; [apply Hdisj; in_list|].
  apply segment_set_ne; [apply Hdisj; in_list|].
  apply segment_set_ne; [apply Hdisj; in_list|done].
Qed.

Lemma addresses_mid l1 e l2 :
  addresses (l1 ++ e :: l2)
  = addresses l1 ++ [e_node e; e_name_ptr e; e_payload e] ++ addresses l2.
Proof. by rewrite addresses_app. Qed.

Lemma NoDup_addresses_mid l1 e l2 :
  NoDup (addresses (l1 ++ e :: l2)) ->
  NoDup [e_node e; e_name_ptr e; e_payload e]
  /\ (forall a0, a0 ∈ [e_node e; e_name_ptr e; e_payload e] ->
        a0 ∉ addresses (l1 ++ l2))
  /\ NoDup (addresses (l1 ++ l2)).
Proof.
  rewrite addresses_mid, addresses_app.
  intros (Hl1 & Hd1 & (He & Hd2 & Hl2)%NoDup_app)%NoDup_app.
  split; [done|]. split.
  - intros a0 Ha [Hin|Hin]%elem_of_app; [|by apply (Hd2 a0)].
    apply (Hd1 _ Hin). apply elem_of_app. by left.
  - apply NoDup_app. split; [done|]. split; [|done].
    intros a0 Hin Hin2. apply (Hd1 _ Hin). apply elem_of_app. by right.
Qed.

Lemma first_or_snoc l e q q' : first_or ((l ++ [e]) ++ q) q' = first_or (l ++ [e]) NULL.
Proof. by destruct l. Qed.

Lemma unlink_first_found test f m head l2 e fuel l1 :
  forall pre,
  segment m (pre ++ l1 ++ e :: l2) NULL ->
  NoDup (addresses (pre ++ l1 ++ e :: l2)) ->
  tests_as test m f (l1 ++ [e]) ->
  Forall (fun e' => f e' = false) l1 -> f e = true ->
  (length l1 < fuel)%nat ->
  head = first_or (pre ++ l1 ++ e :: l2) NULL ->
  exists m',
    unlink_first fuel test m head (first_or (l1 ++ e :: l2) NULL) (e_node <$> last pre)
    = Done (m', first_or (pre ++ l1 ++ l2) NULL)
    /\ segment m' (pre ++ l1 ++ l2) NULL
    /\ entry_gone m' e
    /\ checked m' = checked m /\ limit m' = limit m.
Proof.
  revert fuel. induction l1 as [|e1 l1 IH]; intros fuel pre Hseg Hnd Htest Hf Hfe Hfuel Hhead;
    (destruct fuel as [|fuel]; [simpl in Hfuel; lia|]).
  - cbn [app] in *.
    apply segment_app in Hseg as [Hpre Hseg]. cbn [segment first_or] in Hseg, Hpre.
    destruct Hseg as (Hn & Hs & Hp & Hl2).
    apply Forall_cons in Htest as [Hte _].
    destruct (NoDup_addresses_mid _ _ _ Hnd) as (Hnde & Hdisj & Hnd').
    cbn [unlink_first first_or].
    rewrite (load_node_live _ _ _ Hn). cbn [rbind]. rewrite Hte, Hfe. cbn [rbind].
    unfold unlink_node. cbn [node_of next payload name].
    destruct pre as [|ep pre _] using rev_ind.
    + cbn [last fmap option_fmap option_map rbind fst snd app].
      pose proof (free_entry m e (first_or l2 NULL) Hn Hs Hp Hnde) as Hfree.
      destruct (free m (Some (e_payload e))) as [m1| |]; try discriminate Hfree.
      cbn [rbind] in Hfree |- *.
      destruct (free m1 (Some (e_name_ptr e))) as [m2| |]; try discriminate Hfree.
      cbn [rbind] in Hfree |- *. rewrite Hfree. cbn [rbind].
      eexists. split; [reflexivity|]. split; [|split; [|done]].
      * apply segment_release_entry; [|done]. intros a0 Ha. by apply (Hdisj a0).
      * by apply release_entry_gone.
    + rewrite last_snoc. cbn [fmap option_fmap option_map].
      pose proof Hpre as Hpre0.
      apply segment_app in Hpre as [Hpre' Hep]. cbn [segment first_or] in Hep.
      destruct Hep as (Hepn & Heps & Hepp & _).
      rewrite (store_next_live _ _ _ _ Hepn). cbn [rbind fst snd node_of payload name].
      fold (node_of ep (first_or l2 NULL)).
      set (m0 := set_blocks _ m).
      assert (Hne : forall a0, a0 ∈ [e_node e; e_name_ptr e; e_payload e] ->
                    e_node ep <> a0).
      { intros a0 Ha E. apply (Hdisj _ Ha). rewrite <- E.
        rewrite !addresses_app. apply elem_of_app. left. apply elem_of_app. right.
        rewrite addresses_cons. in_list. }
      assert (Hn0 : live m0 (e_node e) (CNode (node_of e (first_or l2 NULL)))).
      { apply live_set_ne; [apply Hne; in_list|done]. }
      assert (Hs0 : live m0 (e_name_ptr e) (CString (e_name e))).
      { apply live_set_ne; [apply Hne; in_list|done]. }
      assert (Hp0 : live m0 (e_payload e) (e_value e)).
      { apply live_set_ne; [apply Hne; in_list|done]. }
      pose proof (free_entry m0 e (first_or l2 NULL) Hn0 Hs0 Hp0 Hnde) as Hfree.
      destruct (free m0 (Some (e_payload e))) as [m1| |]; try discriminate Hfree.
      cbn [rbind] in Hfree |- *.
      destruct (free m1 (Some (e_name_ptr e))) as [m2| |]; try discriminate Hfree.
      cbn [rbind] in Hfree |- *. rewrite Hfree. cbn [rbind].
      rewrite Hhead, (first_or_snoc pre ep (e :: l2)), (first_or_snoc pre ep l2).
      eexists. split; [reflexivity|]. split; [|split; [|done]].
      * apply segment_release_entry; [intros a0 Ha; by apply Hdisj|].
        apply segment_app. split.
        -- apply (segment_retarget _ _ _ (Some (e_node e))); [done|].
           rewrite addresses_app in Hnd'. by apply NoDup_app in Hnd' as (? & _ & _).
        -- apply segment_set_ne; [|done].
           rewrite addresses_app in Hnd'. apply NoDup_app in Hnd' as (_ & Hd & _).
           apply Hd. rewrite addresses_app. apply elem_of_app. right.
           rewrite addresses_cons. in_list.
      * by apply release_entry_gone.
  - cbn [app] in Htest, Hf, Hfuel |- *.
    pose proof Hseg as Hseg0.
    apply segment_app in Hseg as [_ Hseg]. cbn [app segment] in Hseg.
    destruct Hseg as (Hn & _).
    apply Forall_cons in Htest as [Hte Htest]. apply Forall_cons in Hf as [Hf1 Hf].
    cbn [unlink_first first_or].
    rewrite (load_node_live _ _ _ Hn). cbn [rbind]. rewrite Hte, Hf1. cbn [rbind].
    cbn [node_of next].
    replace (Some (e_node e1)) with (e_node <$> last (pre ++ [e1]))
      by (by rewrite last_snoc).
    replace (pre ++ e1 :: l1 ++ l2) with ((pre ++ [e1]) ++ l1 ++ l2)
      by (by rewrite <- app_assoc).
    assert (Hassoc : (pre ++ [e1]) ++ l1 ++ e :: l2 = pre ++ (e1 :: l1) ++ e :: l2)
      by (by rewrite <- app_assoc).
    apply IH; try done.
    + by rewrite Hassoc.
    + by rewrite Hassoc.
    + simpl in Hfuel. lia.
    + by rewrite Hassoc.
Qed.

Lemma first_such_split f l e :
  first_such f l = Some e ->
  exists l1 l2, l = l1 ++ e :: l2 /\ Forall (fun e' => f e' = false) l1
    /\ f e = true /\ without_first f l = l1 ++ l2.
Proof.
  induction l as [|e1 l IH]; cbn [first_such without_first]; [done|].
  destruct (f e1) eqn:Hf1.
  - intros [= ->]. by exists [], l.
  - intros (l1 & l2 & -> & Hl1 & Hfe & ->)%IH.
    exists (e1 :: l1), l2. repeat split; try done. by constructor.
Qed.

Lemma first_such_none f l :
  first_such f l = None ->
  Forall (fun e => f e = false) l /\ without_first f l = l.
Proof.
  induction l as [|e1 l IH]; cbn [first_such without_first]; [done|].
  destruct (f e1) eqn:Hf1; [done|].
  intros [Hl ->]%IH. split; [by constructor|done].
Qed.

Lemma tests_as_app test m f l1 l2 :
  tests_as test m f (l1 ++ l2) -> tests_as test m f l1 /\ tests_as test m f l2.
Proof. apply Forall_app. Qed.

(** The loop with [return] on a registry: the first entry that passes the
    test is unlinked and its blocks are given back; no entry passes, and
    nothing changes. *)
Lemma unlink_first_registry test f m head l :
  registry m head l -> tests_as test m f l ->
  exists m',
    unlink_first (enough_fuel m) test m head head NULL
    = Done (m', first_or (without_first f l) NULL)
    /\ registry m' (first_or (without_first f l) NULL) (without_first f l)
    /\ (first_such f l = None -> m' = m)
    /\ (forall e, first_such f l = Some e -> entry_gone m' e)
    /\ checked m' = checked m /\ limit m' = limit m.
Proof.
  intros (Hhead & Hseg & Hnd) Htest.
  pose proof (segment_length _ _ _ Hseg Hnd) as Hlen.
  destruct (first_such f l) as [e|] eqn:Hfirst.
  - destruct (first_such_split _ _ _ Hfirst) as (l1 & l2 & -> & Hl1 & Hfe & ->).
    destruct (unlink_first_found test f m head l2 e (enough_fuel m) l1 [])
      as (m' & Hrun & Hseg' & Hgone & Hchk & Hlim); try done.
    + apply tests_as_app in Htest as [H1 H2].
      apply Forall_app. split; [done|].
      apply Forall_cons in H2 as [H2 _]. by constructor.
    + unfold enough_fuel. rewrite length_app in Hlen. lia.
    + cbn [app] in Hrun. cbn [last fmap option_fmap option_map] in Hrun.
      exists m'. split; [by rewrite Hhead at 2|].
      split; [|split; [done|split; [by intros ? [= <-]|done]]].
      split; [done|]. split; [done|].
      by destruct (NoDup_addresses_mid _ _ _ Hnd) as (_ & _ & ?).
  - destruct (first_such_none _ _ Hfirst) as [Hall ->].
    exists m. split.
    + rewrite Hhead at 2.
      rewrite (unlink_first_absent test f m l); try done; [by rewrite <- Hhead|].
      unfold enough_fuel. lia.
    + split; [by rewrite <- Hhead|]. split; [done|]. split; [done|done].
Qed.

Lemma find_first_registry test f m head l :
  registry m head l -> tests_as test m f l ->
  exists r, find_first (enough_fuel m) test m head = Done r
    /\ payload <$> r = (fun e => Some (e_payload e)) <$> first_such f l.
Proof.
  intros (-> & Hseg & Hnd) Htest.
  apply find_first_segment; [done..|].
  pose proof (segment_length _ _ _ Hseg Hnd). unfold enough_fuel. lia.
Qed.

(** The walk to the last node, which is then linked to [item]. *)
Lemma append_walk_segment m e item fuel l :
  segment m (l ++ [e]) NULL -> (length l < fuel)%nat ->
  append_walk fuel m (first_or (l ++ [e]) NULL) item
  = Done (set_blocks
            (<[e_node e := {| contents := CNode (node_of e item); released := false |}]>
               (blocks m)) m).
Proof.
  revert fuel. induction l as [|e1 l IH]; intros fuel Hseg Hfuel;
    (destruct fuel as [|fuel]; [simpl in Hfuel; lia|]).
  - cbn [app segment first_or] in Hseg |- *. destruct Hseg as (Hn & _).
    cbn [append_walk]. rewrite (load_node_live _ _ _ Hn). cbn [rbind node_of next].
    by rewrite (store_next_live _ _ _ _ Hn).
  - cbn [app segment] in Hseg. destruct Hseg as (Hn & _ & _ & Hl).
    cbn [app first_or append_walk].
    rewrite (load_node_live _ _ _ Hn). cbn [rbind node_of next].
    assert (Hnext : exists a0, first_or (l ++ [e]) NULL = Some a0)
      by (destruct l; cbn; eauto).
    destruct Hnext as [a0 Ha0]. rewrite Ha0. rewrite <- Ha0.
    apply IH; [done|]. simpl in Hfuel. lia.
Qed.

Lemma registry_fresh_block m head l a0 bk :
  blocks m !! a0 = None -> registry m head l ->
  registry (set_blocks (<[a0 := bk]> (blocks m)) m) head l.
Proof.
  intros Hfresh (Hhead & Hseg & Hnd). split; [done|]. split; [|done].
  apply segment_set_ne; [|done]. intros Hin.
  destruct (segment_addresses _ _ _ _ Hseg Hin) as [? Hsome]. congruence.
Qed.

Lemma fresh_not_address m l q a0 :
  blocks m !! a0 = None -> segment m l q -> a0 ∉ addresses l.
Proof.
  intros Hfresh Hseg Hin.
  destruct (segment_addresses _ _ _ _ Hseg Hin) as [? Hsome]. congruence.
Qed.

Lemma malloc_fresh m c n :
  can_allocate m (S n) ->
  exists l,
    malloc m c
    = Some (l, set_blocks (<[l := {| contents := c; released := false |}]> (blocks m)) m)
    /\ blocks m !! l = None
    /\ can_allocate
         (set_blocks (<[l := {| contents := c; released := false |}]> (blocks m)) m) n.
Proof.
  intros Hcap.
  destruct (malloc_can_allocate m c n Hcap) as (l & m' & Hm & Hfresh & ->).
  exists l. split; [done|]. split; [done|].
  unfold can_allocate in *. simpl. rewrite map_size_insert_None by done. lia.
Qed.

(** The heap part of [add_to_list]: two blocks are handed out, and the new
    node ends up last. *)
Lemma add_node_registry m head l value c nm n :
  registry m head l -> live m value c -> value ∉ addresses l ->
  can_allocate m (S (S n)) ->
  exists a1 m1 a2 m2 m3,
    malloc m (CString nm) = Some (a1, m1)
    /\ malloc m1 (CNode {| payload := Some value; name := Some a1; next := NULL |})
       = Some (a2, m2)
    /\ (head = NULL -> m3 = m2)
    /\ (head <> NULL -> append_walk (enough_fuel m2) m2 head (Some a2) = Done m3)
    /\ registry m3 (first_or l (Some a2))
         (l ++ [{| e_node := a2; e_payload := value; e_value := c;
                   e_name_ptr := a1; e_name := nm |}])
    /\ can_allocate m3 n
    /\ checked m3 = checked m /\ limit m3 = limit m
    /\ (forall a0 bk, blocks m !! a0 = Some bk -> a0 ∉ e_node <$> l ->
          blocks m3 !! a0 = Some bk).
Proof.
  intros Hreg Hval Hvni Hcap.
  destruct (malloc_fresh m (CString nm) _ Hcap) as (a1 & Hm1 & Hf1 & Hcap1).
  set (m1 := set_blocks _ m) in *.
  destruct (malloc_fresh m1
    (CNode {| payload := Some value; name := Some a1; next := NULL |}) _ Hcap1)
    as (a2 & Hm2 & Hf2 & Hcap2).
  set (m2 := set_blocks _ m1) in *.
  set (e := {| e_node := a2; e_payload := value; e_value := c;
               e_name_ptr := a1; e_name := nm |}).
  assert (Ha12 : a1 <> a2).
  { intros <-. unfold m1 in Hf2. simpl in Hf2. by rewrite lookup_insert_eq in Hf2. }
  assert (Hf2m : blocks m !! a2 = None).
  { unfold m1 in Hf2. simpl in Hf2. by rewrite lookup_insert_ne in Hf2. }
  assert (Hv1 : value <> a1) by (intros ->; unfold live in Hval; congruence).
  assert (Hv2 : value <> a2) by (intros ->; unfold live in Hval; congruence).
  assert (Hreg2 : registry m2 head l).
  { apply registry_fresh_block; [done|]. by apply registry_fresh_block. }
  assert (He2 : segment m2 [e] NULL).
  { cbn [segment first_or]. unfold live, m2, m1. simpl. repeat split.
    - apply lookup_insert_eq.
    - rewrite lookup_insert_ne by done. apply lookup_insert_eq.
    - rewrite !lookup_insert_ne by done. done. }
  destruct Hreg as (Hhead & Hseg & Hnd).
  assert (Hnd' : NoDup (addresses (l ++ [e]))).
  { rewrite addresses_app. apply NoDup_app. split; [done|]. split.
    - intros a0 Hin. cbn. rewrite !elem_of_cons. intros [->|[->|[->|?%elem_of_nil]]]; try done.
      + by apply (fresh_not_address _ _ _ _ Hf2m Hseg).
      + by apply (fresh_not_address _ _ _ _ Hf1 Hseg).
    - cbn. apply NoDup_cons. split.
      { rewrite !elem_of_cons, elem_of_nil. intros [?|[?|[]]]; congruence. }
      apply NoDup_cons. split; [|apply NoDup_singleton].
      rewrite elem_of_cons, elem_of_nil. intros [?|[]]. congruence. }
  destruct l as [|e0 l0] using rev_ind.
  - exists a1, m1, a2, m2, m2. cbn [first_or app] in *. subst head.
    repeat split; try done; try apply He2.
    intros a0 bk Hbk _. unfold m2, m1. simpl.
    rewrite !lookup_insert_ne by congruence. done.
  - clear IHl0.
    destruct Hreg2 as (_ & Hseg2 & _).
    exists a1, m1, a2, m2,
      (set_blocks
         (<[e_node e0 := {| contents := CNode (node_of e0 (Some a2)); released := false |}]>
            (blocks m2)) m2).
    split; [done|]. split; [done|].
    split; [by intros Hn; rewrite Hhead in Hn; destruct l0|].
    split.
    { intros _. rewrite Hhead. apply append_walk_segment; [done|].
      pose proof (segment_length _ _ _ Hseg2 Hnd) as Hlen.
      rewrite length_app in Hlen. cbn [length] in Hlen. unfold enough_fuel. lia. }
    assert (Hne0 : forall a0, a0 ∈ [a2; a1; value] -> e_node e0 <> a0).
    { intros a0 Ha E. rewrite addresses_app in Hnd'.
      apply NoDup_app in Hnd' as (_ & Hd & _). apply (Hd (e_node e0)).
      - rewrite addresses_app. apply elem_of_app. right. rewrite addresses_cons. in_list.
      - by rewrite E. }
    split; [|split; [|split; [done|split; [done|]]]].
    + split; [by destruct l0|]. split; [|done].
      apply segment_app. split.
      * apply (segment_retarget _ _ _ NULL); done.
      * cbn [segment first_or] in He2 |- *. destruct He2 as (H1 & H2 & H3 & _).
        repeat split; (apply live_set_ne; [apply Hne0; cbn; in_list|done]).
    + unfold can_allocate in *. cbn [blocks set_blocks limit] in *.
      rewrite map_size_insert_Some; [done|].
      apply segment_app in Hseg2 as [_ (Hn0 & _)]. by eapply live_is_Some.
    + intros a0 bk Hbk Hni. simpl.
      rewrite lookup_insert_ne.
      * rewrite !lookup_insert_ne by congruence. done.
      * intros <-. apply Hni. rewrite fmap_app. apply elem_of_app. right. cbn. in_list.
Qed.

(** ** Objects *)

Lemma set_object_list_same w : set_object_list (_object_list w) w = w.
Proof. by destruct w. Qed.

Lemma get_object_by_name_registry w l key :
  engine_initialized w -> registry (mem w) (_object_list w) l ->
  get_object_by_name key w
  = match first_such (named key) l with
    | Some e => Returns (Some (e_payload e)) w
    | None => died_with "[ENGINE] Object not found: %s\n" w
    end.
Proof.
  intros Hinit Hreg.
  unfold get_object_by_name, bind, _assert_engine_init, lookup_in, read_heap.
  destruct (_engine w) as [eng|] eqn:He; [|by destruct Hinit].
  destruct (find_first_registry (name_is key) (named key) _ _ _ Hreg) as (r & -> & Hr).
  { destruct Hreg as (_ & Hseg & _). by eapply name_is_tests. }
  destruct r as [n|], (first_such (named key) l) as [e|]; try done.
  cbn in Hr. injection Hr as Hr. unfold ret. by rewrite Hr.
Qed.

Lemma first_such_app f l1 l2 :
  first_such f (l1 ++ l2)
  = match first_such f l1 with
    | Some e => Some e
    | None => first_such f l2
    end.
Proof.
  induction l1 as [|e l1 IH]; cbn [app first_such]; [done|]. by destruct (f e).
Qed.

(** ** Removal *)

Lemma set_font_same w : set_font (_font w) w = w.
Proof. by destruct w. Qed.

Lemma Forall_first_such_none f l :
  Forall (fun e => f e = false) l -> first_such f l = None.
Proof.
  induction 1 as [|e l He _ IH]; cbn [first_such]; [done|]. by rewrite He.
Qed.

(** A removal loop with [return] run on a registry. *)
Lemma remove_from_first head set_head test f w l :
  registry (mem w) (head w) l -> tests_as test (mem w) f l ->
  exists m',
    remove_from head set_head unlink_first test w
    = Returns tt (set_head (first_or (without_first f l) NULL) (set_mem m' w))
    /\ registry m' (first_or (without_first f l) NULL) (without_first f l)
    /\ (first_such f l = None -> m' = mem w /\ first_or (without_first f l) NULL = head w)
    /\ (forall e, first_such f l = Some e -> entry_gone m' e).
Proof.
  intros Hreg Htest.
  destruct (unlink_first_registry test f _ _ _ Hreg Htest)
    as (m' & Hrun & Hreg' & Hsame & Hgone & _).
  exists m'. unfold remove_from. rewrite Hrun. split; [done|]. split; [done|].
  split; [|done]. intros Hnone. split; [by apply Hsame|].
  destruct (first_such_none _ _ Hnone) as [_ ->]. by destruct Hreg as (-> & _).
Qed.

Lemma count_named_without_first key l :
  count_named key (without_first (named key) l) = pred (count_named key l).
Proof.
  unfold count_named.
  induction l as [|e l IH]; cbn [without_first List.filter]; [done|].
  destruct (named key e) eqn:He; cbn [List.filter length]; [done|].
  by rewrite He.
Qed.

(** C2, as the code has it: [destroy_object_template] unlinks the first
    node whose name equals the given name and returns; the registry then
    holds the other nodes in their order, the later ones of that name
    included, so that one template fewer has the name. *)
Theorem destroy_object_template_removes_first (w : world) (l : list entry)
    (key : string) :
  engine_initialized w -> template_registry w l ->
  exists w',
    destroy_object_template key w = Returns tt w'
    /\ template_registry w' (without_first (named key) l)
    /\ (forall e, first_such (named key) l = Some e -> entry_gone (mem w') e)
    /\ count_named key (without_first (named key) l) = pred (count_named key l)
    /\ (count_named key l <= 1 ->
        Forall (fun e => e_name e <> key) (without_first (named key) l))%nat.
Proof.
  intros Hinit Hreg.
  unfold destroy_object_template, bind, _assert_engine_init.
  destruct (_engine w) as [eng|] eqn:He; [|by destruct Hinit].
  destruct (remove_from_first _object_template_list set_object_template_list
              (name_is key) (named key) w l Hreg)
    as (m' & -> & Hreg' & _ & Hgone).
  { destruct Hreg as (_ & Hseg & _). by eapply name_is_tests. }
  eexists. split; [reflexivity|]. split; [exact Hreg'|]. split; [exact Hgone|].
  split; [apply count_named_without_first|].
  intros Hcount.
  assert (Hzero : count_named key (without_first (named key) l) = 0%nat).
  { rewrite count_named_without_first. lia. }
  clear Hcount. revert Hzero. unfold count_named.
  generalize (without_first (named key) l). intros l0.
  induction l0 as [|e l0 IH]; cbn [List.filter]; [constructor|].
  destruct (named key e) eqn:Hn; [done|]. intros Hz.
  constructor; [|by apply IH].
  unfold named in Hn. by apply bool_decide_eq_false in Hn.
Qed.

Lemma two_templates_registry : template_registry two_templates two_templates_entries.
Proof.
  split; [vm_compute; reflexivity|]. split.
  - vm_compute. repeat split.
  - apply (bool_decide_unpack _). vm_compute. exact I.
Qed.

Lemma destroy_object_template_removes_first_witness :
  engine_initialized two_templates
  /\ template_registry two_templates two_templates_entries
  /\ exists w',
       destroy_object_template "a" two_templates = Returns tt w'
       /\ template_registry w' (drop 1 two_templates_entries).
Proof.
  assert (Hinit : engine_initialized two_templates) by (vm_compute; discriminate).
  split; [exact Hinit|]. split; [exact two_templates_registry|].
  destruct (destroy_object_template_removes_first two_templates two_templates_entries
              "a" Hinit two_templates_registry) as (w' & Hrun & Hreg & _).
  exists w'. split; [exact Hrun|exact Hreg].
Defined.

(** C2 as stated fails: with two templates named "a", destroying templates
    named "a" leaves the second one registered, and the lookup of "a" still
    finds it. *)
Lemma destroy_object_template_leaves_later_match :
  exists w',
    destroy_object_template "a" two_templates = Returns tt w'
    /\ template_registry w' (drop 1 two_templates_entries)
    /\ Exists (fun e => e_name e = "a"%string) (drop 1 two_templates_entries)
    /\ get_template_by_name "a" w' = Returns (Some 4%positive) w'.
Proof.
  exists (after (destroy_object_template "a") two_templates).
  split; [vm_compute; reflexivity|].
  split; [|split; [by left|vm_compute; reflexivity]].
  split; [vm_compute; reflexivity|]. split.
  - vm_compute. repeat split.
  - apply (bool_decide_unpack _). vm_compute. exact I.
Qed.

(** C10: removing a key that is not there is a silent no-op.  With no
    object of identifier [key] registered, [destroy_object_by_id] returns
    and leaves the process as it was, the error stream included; so does
    [close_font] for a name no font is registered under; the lookup
    [get_object_by_id] of the same identifier prints its diagnostic and
    ends the process. *)
Theorem removing_absent_key_is_silent (w : world) (lo lf : list entry)
    (key : Z) (nm : string) :
  engine_initialized w ->
  object_registry w lo -> Forall (fun e => has_id key e = false) lo ->
  font_registry w lf -> Forall (fun e => e_name e <> nm) lf ->
  destroy_object_by_id key w = Returns tt w
  /\ close_font nm w = Returns tt w
  /\ get_object_by_id key w = died_with "[ENGINE] Object not found: %d\n" w.
Proof.
  intros Hinit [Hro Hobj] Hids Hrf Hnames.
  assert (Htid : tests_as (object_id_is key) (mem w) (has_id key) lo).
  { destruct Hro as (_ & Hseg & _). by eapply object_id_is_tests. }
  assert (Htnm : tests_as (name_is nm) (mem w) (named nm) lf).
  { destruct Hrf as (_ & Hseg & _). by eapply name_is_tests. }
  assert (Hnames' : first_such (named nm) lf = None).
  { apply Forall_first_such_none. eapply Forall_impl; [exact Hnames|].
    intros e Hne. unfold named. by apply bool_decide_eq_false. }
  pose proof (Forall_first_such_none _ _ Hids) as Hids'.
  unfold destroy_object_by_id, close_font, get_object_by_id, bind, _assert_engine_init.
  destruct (_engine w) as [eng|] eqn:He; [|by destruct Hinit].
  split; [|split].
  - destruct (remove_from_first _object_list set_object_list _ _ w lo Hro Htid)
      as (m' & -> & _ & Hsame & _).
    destruct (Hsame Hids') as [-> ->].
    by rewrite set_mem_same, set_object_list_same.
  - destruct (remove_from_first _font set_font _ _ w lf Hrf Htnm)
      as (m' & -> & _ & Hsame & _).
    destruct (Hsame Hnames') as [-> ->].
    by rewrite set_mem_same, set_font_same.
  - unfold lookup_in, read_heap.
    destruct (find_first_registry _ _ _ _ _ Hro Htid) as (r & -> & Hr).
    rewrite Hids' in Hr. by destruct r.
Qed.

Lemma three_objects_registry : object_registry objects_and_font three_objects_entries.
Proof.
  split.
  - split; [vm_compute; reflexivity|]. split.
    + vm_compute. repeat split.
    + apply (bool_decide_unpack _). vm_compute. exact I.
  - repeat constructor; eexists; reflexivity.
Qed.

Lemma one_font_registry : font_registry objects_and_font font_entries.
Proof.
  split; [vm_compute; reflexivity|]. split.
  - vm_compute. repeat split.
  - apply (bool_decide_unpack _). vm_compute. exact I.
Qed.

Lemma removing_absent_key_is_silent_witness :
  engine_initialized objects_and_font
  /\ object_registry objects_and_font three_objects_entries
  /\ Forall (fun e => has_id 7 e = false) three_objects_entries
  /\ font_registry objects_and_font font_entries
  /\ Forall (fun e => e_name e <> "title"%string) font_entries
  /\ destroy_object_by_id 7 objects_and_font = Returns tt objects_and_font
  /\ close_font "title" objects_and_font = Returns tt objects_and_font.
Proof.
  assert (Hinit : engine_initialized objects_and_font) by (vm_compute; discriminate).
  assert (Hids : Forall (fun e => has_id 7 e = false) three_objects_entries)
    by (repeat constructor).
  assert (Hnames : Forall (fun e => e_name e <> "title"%string) font_entries)
    by (repeat constructor; discriminate).
  pose proof (removing_absent_key_is_silent objects_and_font three_objects_entries
                font_entries 7 "title" Hinit three_objects_registry Hids
                one_font_registry Hnames) as (H1 & H2 & _).
  split; [exact Hinit|]. split; [exact three_objects_registry|].
  split; [exact Hids|]. split; [exact one_font_registry|].
  split; [exact Hnames|]. split; [exact H1|exact H2].
Defined.

(** The unlinking of a registered entry, as the loops run it. *)
Lemma unlink_node_found m head l2 e pre :
  segment m (pre ++ e :: l2) NULL ->
  NoDup (addresses (pre ++ e :: l2)) ->
  head = first_or (pre ++ e :: l2) NULL ->
  exists m',
    unlink_node m head (Some (e_node e)) (e_node <$> last pre)
      (node_of e (first_or l2 NULL))
    = Done (m', first_or (pre ++ l2) NULL)
    /\ entry_gone m' e /\ checked m' = checked m.
Proof.
  intros Hseg Hnd Hhead.
  destruct (unlink_first_found (fun _ _ => Done true) (fun _ => true) m head l2 e 1 [] pre)
    as (m' & Hrun & _ & Hgone & Hchk & _); try done.
  { by repeat constructor. }
  { cbn. lia. }
  apply segment_app in Hseg as [_ Hseg]. cbn [segment] in Hseg.
  destruct Hseg as (Hn & _).
  cbn [unlink_first app first_or] in Hrun.
  rewrite (load_node_live _ _ _ Hn) in Hrun. cbn [rbind] in Hrun.
  by exists m'.
Qed.

(** On a checked heap the loop of [destroy_object_by_name] does not get past
    the first node it frees: [current = current->next] reads it. *)
Lemma unlink_every_reads_freed_node test f m head l2 e fuel l1 :
  forall pre,
  segment m (pre ++ l1 ++ e :: l2) NULL ->
  NoDup (addresses (pre ++ l1 ++ e :: l2)) ->
  tests_as test m f (l1 ++ [e]) ->
  Forall (fun e' => f e' = false) l1 -> f e = true ->
  (length l1 < fuel)%nat ->
  head = first_or (pre ++ l1 ++ e :: l2) NULL ->
  checked m = true ->
  unlink_every fuel test m head (first_or (l1 ++ e :: l2) NULL) (e_node <$> last pre)
  = Undefined.
Proof.
  revert fuel.
  induction l1 as [|e1 l1 IH]; intros fuel pre Hseg Hnd Htest Hf Hfe Hfuel Hhead Hchk;
    (destruct fuel as [|fuel]; [simpl in Hfuel; lia|]).
  - cbn [app] in *.
    destruct (unlink_node_found m head l2 e pre Hseg Hnd Hhead)
      as (m' & Hrun & (Hgone & _) & Hchk').
    apply segment_app in Hseg as [_ Hseg]. cbn [segment] in Hseg.
    destruct Hseg as (Hn & _).
    apply Forall_cons in Htest as [Hte _].
    cbn [unlink_every first_or].
    rewrite (load_node_live _ _ _ Hn). cbn [rbind]. rewrite Hte, Hfe. cbn [rbind].
    rewrite Hrun. cbn [rbind fst snd].
    destruct Hgone as [c Hc].
    unfold load_node, load, accessible. rewrite Hc, Hchk', Hchk. reflexivity.
  - cbn [app] in Htest, Hf, Hfuel |- *.
    pose proof Hseg as Hseg0.
    apply segment_app in Hseg0 as [_ Hseg0]. cbn [app segment] in Hseg0.
    destruct Hseg0 as (Hn & _).
    apply Forall_cons in Htest as [Hte Htest]. apply Forall_cons in Hf as [Hf1 Hf].
    cbn [unlink_every first_or].
    rewrite (load_node_live _ _ _ Hn). cbn [rbind]. rewrite Hte, Hf1. cbn [rbind fst snd].
    rewrite (load_node_live _ _ _ Hn). cbn [rbind node_of next].
    replace (Some (e_node e1)) with (e_node <$> last (pre ++ [e1]))
      by (by rewrite last_snoc).
    assert (Hassoc : (pre ++ [e1]) ++ l1 ++ e :: l2 = pre ++ (e1 :: l1) ++ e :: l2)
      by (by rewrite <- app_assoc).
    apply IH; try done.
    + by rewrite Hassoc.
    + by rewrite Hassoc.
    + simpl in Hfuel. lia.
    + by rewrite Hassoc.
Qed.

(** Read by the C standard, [destroy_object_by_name] is undefined on every
    registry that has an object of the name. *)
Lemma destroy_object_by_name_reads_freed_node (w : world) (l : list entry)
    (key : string) :
  engine_initialized w -> object_registry w l -> checked (mem w) = true ->
  Exists (fun e => e_name e = key) l ->
  destroy_object_by_name key w = Undef.
Proof.
  intros Hinit [(Hhead & Hseg & Hnd) _] Hchk Hex.
  destruct (first_such (named key) l) as [e|] eqn:Hfirst.
  - destruct (first_such_split _ _ _ Hfirst) as (l1 & l2 & -> & Hl1 & Hfe & _).
    unfold destroy_object_by_name, bind, _assert_engine_init, remove_from.
    destruct (_engine w) as [eng|] eqn:He; [|by destruct Hinit].
    assert (Hrun : unlink_every (enough_fuel (mem w)) (name_is key) (mem w)
                     (_object_list w) (first_or (l1 ++ e :: l2) NULL) NULL = Undefined).
    { apply (unlink_every_reads_freed_node (name_is key) (named key) (mem w)
               (_object_list w) l2 e (enough_fuel (mem w)) l1 []); try done.
      - pose proof (name_is_tests key _ _ _ Hseg) as Htest.
        apply tests_as_app in Htest as [H1 H2]. apply Forall_app. split; [done|].
        apply Forall_cons in H2 as [H2 _]. by constructor.
      - pose proof (segment_length _ _ _ Hseg Hnd) as Hlen.
        rewrite length_app in Hlen. unfold enough_fuel. lia. }
    rewrite Hhead at 2. by rewrite Hrun.
  - exfalso. destruct (first_such_none _ _ Hfirst) as [Hall _].
    apply Exists_exists in Hex as (e & Hin & Hname).
    rewrite Forall_forall in Hall. specialize (Hall e Hin).
    unfold named in Hall. by apply bool_decide_eq_false in Hall.
Qed.

(** C1, on the code: with objects "a", "a", "b" registered,
    [destroy_object_by_name "a"] goes on from the node it has just freed.
    On the real machine the stale [next] is read, the second "a" is
    unlinked from the freed first node instead of from the head, and
    [_object_list] is left pointing to the freed second node: no list of
    entries is registered any more.  Under the C standard the read of the
    freed node is already undefined. *)
Theorem destroy_object_by_name_adjacent_matches :
  object_registry (three_objects false) three_objects_entries
  /\ (exists w',
        destroy_object_by_name "a" (three_objects false) = Returns tt w'
        /\ _object_list w' = Some 6%positive
        /\ gone (mem w') 6%positive
        /\ (forall l, ~ object_registry w' l))
  /\ destroy_object_by_name "a" (three_objects true) = Undef.
Proof.
  split; [|split].
  - split.
    + split; [vm_compute; reflexivity|]. split.
      * vm_compute. repeat split.
      * apply (bool_decide_unpack _). vm_compute. exact I.
    + repeat constructor; eexists; reflexivity.
  - remember (after (destroy_object_by_name "a") (three_objects false)) as w' eqn:Ew.
    assert (Hrun : destroy_object_by_name "a" (three_objects false) = Returns tt w')
      by (rewrite Ew; vm_compute; reflexivity).
    assert (Hw : _object_list w' = Some 6%positive)
      by (rewrite Ew; vm_compute; reflexivity).
    assert (Hg : gone (mem w') 6%positive)
      by (rewrite Ew; eexists; vm_compute; reflexivity).
    clear Ew. exists w'.
    split; [exact Hrun|]. split; [exact Hw|]. split; [exact Hg|].
    intros l [(Hhead & Hseg & _) _].
    rewrite Hw in Hhead. destruct l as [|e l]; [discriminate Hhead|].
    cbn [first_or] in Hhead. injection Hhead as Hhead.
    cbn [segment] in Hseg. destruct Hseg as (Hn & _).
    unfold live in Hn. rewrite <- Hhead in Hn.
    destruct Hg as [c Hg]. rewrite Hg in Hn. discriminate Hn.
  - vm_compute. reflexivity.
Qed.

(** ** Shapes *)

(** C9: after any of the eight shape-drawing calls has returned, the
    renderer's draw colour is the tracked colour [_color], whatever the
    primitive left behind; the call does not change [_color], which starts
    as opaque black. *)
Theorem shape_calls_restore_draw_color (leaves : shape -> Color -> Color)
    (c : shape_call) (w : world) :
  engine_initialized w ->
  (exists w',
     draw_shape leaves c w = Returns tt w'
     /\ draw_color w' = _color w'
     /\ _color w' = _color w)
  /\ (forall chk lim col ms files,
        _color (process_start chk lim col ms files)
        = {| r := 0; g := 0; b := 0; a := 255 |}).
Proof.
  intros Hinit. split; [|reflexivity].
  assert (Hcol : forall k : Color,
            {| r := r k; g := g k; b := b k; a := a k |} = k) by (by intros []).
  destruct c; cbn [draw_shape];
    unfold draw_line, draw_rect, draw_ellipse, draw_circle, draw_line_thick,
      draw_rect_thick, draw_circle_thick, draw_ellipse_thick,
      bind, _assert_engine_init, gfx, restore_color, SDL_SetRenderDrawColor;
    (destruct (_engine w) as [eng|] eqn:He; [|by destruct Hinit]);
    (eexists; split; [reflexivity|]); cbn; by rewrite Hcol.
Qed.

Lemma shape_calls_restore_draw_color_witness :
  engine_initialized (fresh_process true)
  /\ draw_color (after (draw_shape sdl2_gfx_leaves (DrawRectThick 0 0 10 10 red 3))
                   (fresh_process true)) = black.
Proof.
  assert (Hinit : engine_initialized (fresh_process true)) by (vm_compute; discriminate).
  split; [exact Hinit|].
  destruct (shape_calls_restore_draw_color sdl2_gfx_leaves
              (DrawRectThick 0 0 10 10 red 3) (fresh_process true) Hinit)
    as [(w' & Hrun & Hdraw & Hcolor) _].
  unfold after. rewrite Hrun, Hdraw, Hcolor. reflexivity.
Defined.

(** ** The frame loop *)

Section FrameLoopFacts.
Context {G : Type}.
Variable update : G -> G.
Variable draw : option (G -> G).
Variable event_handler : option (SDL_Event -> G -> G).

Lemma stop_stop eng : stop (stop eng) = stop eng.
Proof. done. Qed.

(** One pass over the pending events. *)
Lemma poll_events_forwards events eng game log :
  poll_events event_handler events eng game log
  = (if has_quit events then stop eng else eng,
     match event_handler with
     | Some handle => fold_left (fun g ev => handle ev g) (forwarded events) game
     | None => game
     end,
     log ++ match event_handler with
            | Some _ => map Handled (forwarded events)
            | None => []
            end).
Proof.
  revert eng game log.
  induction events as [|ev events IH]; intros eng game log;
    cbn [poll_events has_quit existsb forwarded List.filter].
  - destruct event_handler; cbn; by rewrite app_nil_r.
  - change (type ev =? SDL_QUIT) with (is_quit ev).
    destruct (is_quit ev) eqn:Hq; cbn [negb orb].
    + rewrite IH. fold (has_quit events). fold (forwarded events).
      destruct (has_quit events); by rewrite ?stop_stop.
    + fold (has_quit events). fold (forwarded events).
      destruct event_handler as [handle|]; rewrite IH; [|done].
      cbn [fold_left map]. by rewrite <- app_assoc.
Qed.

Lemma frame_loop_stopped frames eng game log :
  isRunning eng = false ->
  frame_loop update draw event_handler frames eng game log = (eng, game, log, LoopLeft).
Proof. intros H. destruct frames; cbn [frame_loop]; by rewrite H. Qed.

Lemma finish_frame_runs f eng game log :
  fps eng <> 0 ->
  exists game' log', finish_frame update draw f eng game log = (game', log', Some tt).
Proof.
  intros Hfps. unfold finish_frame.
  destruct (Z.eqb_spec (fps eng) 0) as [E|_]; [done|]. eauto.
Qed.

(** The iteration that meets the quit event is the last one. *)
Lemma frame_loop_quits post f pre :
  forall eng game log,
  Forall (fun f' => has_quit (pending f') = false) pre ->
  has_quit (pending f) = true -> fps eng <> 0 ->
  exists eng' game' log',
    frame_loop update draw event_handler (pre ++ f :: post) eng game log
    = (eng', game', log', LoopLeft)
    /\ frame_loop update draw event_handler (pre ++ [f]) eng game log
       = (eng', game', log', LoopLeft)
    /\ isRunning eng' = false /\ fps eng' = fps eng.
Proof.
  induction pre as [|f0 pre IH]; intros eng game log Hpre Hf Hfps.
  - destruct (isRunning eng) eqn:Hrun.
    + cbn [app frame_loop]. rewrite Hrun, poll_events_forwards, Hf.
      destruct (finish_frame_runs f (stop eng) 
                  (match event_handler with
                   | Some handle => fold_left (fun g ev => handle ev g)
                                      (forwarded (pending f)) game
                   | None => game
                   end)
                  (log ++ match event_handler with
                          | Some _ => map Handled (forwarded (pending f))
                          | None => []
                          end) Hfps) as (game2 & log2 & ->).
      rewrite !frame_loop_stopped by done. by eexists _, _, _.
    + rewrite !frame_loop_stopped by done. by eexists _, _, _.
  - apply Forall_cons in Hpre as [Hf0 Hpre].
    destruct (isRunning eng) eqn:Hrun.
    + cbn [app frame_loop]. rewrite Hrun, poll_events_forwards, Hf0.
      destruct (finish_frame_runs f0 eng
                  (match event_handler with
                   | Some handle => fold_left (fun g ev => handle ev g)
                                      (forwarded (pending f0)) game
                   | None => game
                   end)
                  (log ++ match event_handler with
                          | Some _ => map Handled (forwarded (pending f0))
                          | None => []
                          end) Hfps) as (game2 & log2 & ->).
      by apply IH.
    + rewrite !frame_loop_stopped by done. by eexists _, _, _.
Qed.
End FrameLoopFacts.

Lemma engine_run_initialized {G : Type} (update : G -> G) (draw : option (G -> G))
    (event_handler : option (SDL_Event -> G -> G)) frames game w eng :
  _engine w = Some eng ->
  engine_run update draw event_handler frames game w
  = let '(eng', game', log, how) :=
      frame_loop update draw event_handler frames eng game [] in
    Returns (game', log, how) (set_engine (Some eng') w).
Proof.
  intros Heng. unfold engine_run, bind, _assert_engine_init. by rewrite !Heng.
Qed.

(** C8: in the event drain of an iteration a quit event clears the running
    flag, whatever the handler, and is not given to it; the other events
    are given to the handler, when there is one, in queue order; and the
    iteration that met the quit event is the last: the frames after it are
    never looked at, the loop is left with the flag clear, and a loop
    entered with the flag clear runs no iteration. *)
Theorem quit_event_stops_the_loop {G : Type} (update : G -> G)
    (draw : option (G -> G)) (event_handler : option (SDL_Event -> G -> G))
    (pre post : list frame) (f : frame) (game : G) (w : world) (eng : Engine) :
  _engine w = Some eng -> fps eng <> 0 ->
  Forall (fun f' => has_quit (pending f') = false) pre ->
  has_quit (pending f) = true ->
  (forall events e g log,
     poll_events event_handler events e g log
     = (if has_quit events then stop e else e,
        match event_handler with
        | Some handle => fold_left (fun g' ev => handle ev g') (forwarded events) g
        | None => g
        end,
        log ++ match event_handler with
               | Some _ => map Handled (forwarded events)
               | None => []
               end))
  /\ (exists game' log' w',
        engine_run update draw event_handler (pre ++ f :: post) game w
        = Returns (game', log', LoopLeft) w'
        /\ engine_run update draw event_handler (pre ++ [f]) game w
           = Returns (game', log', LoopLeft) w'
        /\ (exists eng', _engine w' = Some eng' /\ isRunning eng' = false)
        /\ forall frames,
             engine_run update draw event_handler frames game' w'
             = Returns (game', [], LoopLeft) w').
Proof.
  intros Heng Hfps Hpre Hf. split; [apply poll_events_forwards|].
  destruct (frame_loop_quits update draw event_handler post f pre eng game []
              Hpre Hf Hfps) as (eng' & game' & log' & Hall & Hcut & Hstop & _).
  exists game', log', (set_engine (Some eng') w).
  rewrite !(engine_run_initialized _ _ _ _ _ w eng Heng), Hall, Hcut.
  split; [done|]. split; [done|]. split; [by exists eng'|].
  intros frames.
  rewrite (engine_run_initialized _ _ _ _ _ (set_engine (Some eng') w) eng') by done.
  rewrite frame_loop_stopped by done. by destruct w.
Qed.

Lemma quit_event_stops_the_loop_witness :
  _engine (fresh_process true) = Some sample_engine /\ fps sample_engine <> 0
  /\ Forall (fun f' => has_quit (pending f') = false) (take 1 sample_frames)
  /\ has_quit [key_event 98; quit_event; key_event 99] = true
  /\ exists w',
       engine_run sample_update None (Some sample_handler) sample_frames []
         (fresh_process true)
       = Returns ([768; -1; 768; 768; -1],
                  [Handled (key_event 97); Updated; Cleared; Presented; Delayed 15;
                   Handled (key_event 98); Handled (key_event 99);
                   Updated; Cleared; Presented], LoopLeft) w'.
Proof.
  assert (H1 : _engine (fresh_process true) = Some sample_engine) by reflexivity.
  assert (H2 : fps sample_engine <> 0) by discriminate.
  assert (H3 : Forall (fun f' => has_quit (pending f') = false) (take 1 sample_frames))
    by (repeat constructor).
  assert (H4 : has_quit [key_event 98; quit_event; key_event 99] = true) by reflexivity.
  split; [exact H1|]. split; [exact H2|]. split; [exact H3|]. split; [exact H4|].
  destruct (quit_event_stops_the_loop sample_update None (Some sample_handler)
              (take 1 sample_frames) (drop 2 sample_frames)
              {| pending := [key_event 98; quit_event; key_event 99];
                 ticks_start := 20; ticks_end := 50 |}
              [] (fresh_process true) sample_engine H1 H2 H3 H4)
    as (_ & game' & log' & w' & Hrun & _).
  exists w'.
  change (take 1 sample_frames ++
          {| pending := [key_event 98; quit_event; key_event 99];
             ticks_start := 20; ticks_end := 50 |} :: drop 2 sample_frames)
    with sample_frames in Hrun.
  rewrite Hrun.
  assert (Hc : engine_run sample_update None (Some sample_handler) sample_frames []
                 (fresh_process true)
               = Returns ([768; -1; 768; 768; -1],
                  [Handled (key_event 97); Updated; Cleared; Presented; Delayed 15;
                   Handled (key_event 98); Handled (key_event 99);
                   Updated; Cleared; Presented], LoopLeft)
                   (after (engine_run sample_update None (Some sample_handler)
                             sample_frames []) (fresh_process true)))
    by (vm_compute; reflexivity).
  rewrite Hrun in Hc. injection Hc as -> -> _. reflexivity.
Defined.

(** ** The identifier counter *)

Lemma keeps_counter_bind {A B} (c : M A) (k : A -> M B) :
  keeps_counter c -> (forall v, keeps_counter (k v)) -> keeps_counter (bind c k).
Proof.
  intros Hc Hk w v w'. unfold bind.
  destruct (c w) as [v0 w0| | |] eqn:E; try discriminate.
  intros Hr. rewrite (Hk _ _ _ _ Hr). by apply (Hc _ _ _ E).
Qed.

Lemma keeps_counter_ret {A} (v : A) : keeps_counter (ret v).
Proof. intros w v0 w'. unfold ret. by intros [= _ <-]. Qed.

Lemma keeps_counter_fatal {A} msg : keeps_counter (@fatal A msg).
Proof. intros w v w'. unfold fatal. discriminate. Qed.

Lemma keeps_counter_assert : keeps_counter _assert_engine_init.
Proof.
  intros w v w'. unfold _assert_engine_init, fatal.
  destruct (_engine w); [by intros [= _ <-]|discriminate].
Qed.

Lemma keeps_counter_lookup_in head test : keeps_counter (lookup_in head test).
Proof.
  intros w v w'. unfold lookup_in, read_heap.
  destruct (find_first _ _ _ _); [by intros [= _ <-]|discriminate..].
Qed.

Lemma keeps_counter_remove_from head set_head loop test :
  (forall p w, _object_id (set_head p w) = _object_id w) ->
  keeps_counter (remove_from head set_head loop test).
Proof.
  intros Hset w v w'. unfold remove_from.
  destruct (loop _ _ _ _ _ _) as [[m' h']| |]; [|discriminate..].
  intros [= _ <-]. by rewrite Hset.
Qed.

Lemma keeps_counter_add_to_list head set_head m1 m2 room value key :
  (forall p w, _object_id (set_head p w) = _object_id w) ->
  keeps_counter (add_to_list head set_head m1 m2 room value key).
Proof.
  intros Hset w v w'. unfold add_to_list, fatal.
  destruct (malloc (mem w) _) as [[a1 mm1]|]; [|discriminate].
  destruct (_ <? _)%nat; [discriminate|].
  destruct (malloc mm1 _) as [[a2 mm2]|]; [|discriminate].
  destruct (head w).
  - destruct (append_walk _ _ _ _); [|discriminate..]. by intros [= _ <-].
  - intros [= _ <-]. by rewrite Hset.
Qed.

Lemma keeps_counter_free_all (set_head : ptr -> world -> world) head :
  (forall p w, _object_id (set_head p w) = _object_id w) ->
  keeps_counter (fun w =>
    match free_all (enough_fuel (mem w)) (mem w) (head w) with
    | Done m' => Returns tt (set_head NULL (set_mem m' w))
    | Undefined => Undef
    | Diverges => Hangs
    end).
Proof.
  intros Hset w v w'. destruct (free_all _ _ _); [|discriminate..].
  intros [= _ <-]. by rewrite Hset.
Qed.

Create HintDb counter.

#[local] Hint Resolve keeps_counter_ret keeps_counter_fatal keeps_counter_assert
  keeps_counter_lookup_in keeps_counter_remove_from keeps_counter_add_to_list
  keeps_counter_free_all : counter.

Ltac counter_kept :=
  repeat first
    [ apply keeps_counter_bind; [|intros ?]
    | match goal with |- keeps_counter (match ?v with _ => _ end) => destruct v end
    | solve [eauto with counter]
    | solve [apply keeps_counter_remove_from; intros ? []; reflexivity]
    | solve [apply keeps_counter_add_to_list; intros ? []; reflexivity]
    | solve [apply (keeps_counter_free_all set_object_list _object_list);
             intros ? []; reflexivity]
    | solve [apply (keeps_counter_free_all set_object_template_list
                      _object_template_list); intros ? []; reflexivity] ].

Lemma keeps_counter_create_object_template key tex tw th hb :
  keeps_counter (create_object_template key tex tw th hb).
Proof.
  unfold create_object_template. counter_kept.
  intros w0 r0 w0'. destruct (malloc _ _) as [[a0 m0]|]; [|discriminate].
  intros Hr.
  assert (Hk : keeps_counter (bind (_add_object_template_to_list (Some a0) key)
                                (fun _ => ret (Some a0)))).
  { unfold _add_object_template_to_list. counter_kept. }
  apply Hk in Hr. by rewrite Hr.
Qed.

Lemma keeps_counter_load_font filename size key :
  keeps_counter (load_font filename size key).
Proof.
  unfold load_font. counter_kept.
  intros w0 r0 w0'. destruct (bool_decide _); [|discriminate].
  destruct (malloc _ _) as [[a0 m0]|]; [|discriminate].
  intros Hr.
  assert (Hk : keeps_counter (add_to_list _font set_font
             "[ENGINE] Failed to allocate memory for font filename\n"
             "[ENGINE] Failed to allocate memory for font\n"
             (String.length filename + 1) (Some a0) key)) by counter_kept.
  apply Hk in Hr. by rewrite Hr.
Qed.

(** The calls that do not create an object. *)
Lemma perform_keeps_counter c :
  creates c = false ->
  forall w ids w', perform c w = Returns ids w' -> ids = [] /\ _object_id w' = _object_id w.
Proof.
  intros Hc w ids w' Hrun.
  assert (Hret : forall (A : Type) (c0 : M A),
            keeps_counter c0 -> bind c0 (fun _ => ret (@nil Z)) w = Returns ids w' ->
            ids = [] /\ _object_id w' = _object_id w).
  { intros A c0 Hk. unfold bind, ret.
    destruct (c0 w) as [v0 w0| | |] eqn:E; try discriminate.
    intros [= <- <-]. split; [done|]. by apply (Hk _ _ _ E). }
  destruct c; try discriminate Hc; cbn [perform] in Hrun;
    (eapply Hret; [|exact Hrun]).
  - unfold get_object_by_name. counter_kept.
  - unfold get_object_by_id. counter_kept.
  - unfold object_exists. counter_kept.
  - unfold destroy_object_by_id. counter_kept.
  - unfold destroy_object_by_name. counter_kept.
  - unfold destroy_all_objects. counter_kept.
  - apply keeps_counter_create_object_template.
  - unfold get_template_by_name. counter_kept.
  - unfold destroy_object_template. counter_kept.
  - unfold destroy_all_templates. counter_kept.
  - apply keeps_counter_load_font.
  - unfold close_font. counter_kept.
Qed.

Lemma malloc_keeps m c l0 m' l bk :
  malloc m c = Some (l0, m') -> blocks m !! l = Some bk -> blocks m' !! l = Some bk.
Proof.
  unfold malloc. destruct (decide _); [|discriminate]. intros [= <- <-] Hl. simpl.
  rewrite lookup_insert_ne; [done|]. intros E.
  pose proof (is_fresh (dom (blocks m))) as Hfresh. apply Hfresh.
  rewrite E. apply elem_of_dom. eauto.
Qed.

Lemma malloc_holds m c l0 m' :
  malloc m c = Some (l0, m') ->
  blocks m' !! l0 = Some {| contents := c; released := false |}.
Proof.
  unfold malloc. destruct (decide _); [|discriminate]. intros [= <- <-]. simpl.
  apply lookup_insert_eq.
Qed.

Lemma store_next_keeps_objects m p q m' l o rel :
  store_next m p q = Done m' ->
  blocks m !! l = Some {| contents := CObject o; released := rel |} ->
  blocks m' !! l = Some {| contents := CObject o; released := rel |}.
Proof.
  unfold store_next, load_node, load, store. destruct p as [l0|]; [|discriminate].
  destruct (blocks m !! l0) as [bk|] eqn:Hbk; [|discriminate].
  destruct (accessible m bk); [|discriminate]. cbn [rbind].
  destruct (contents bk) eqn:Hc; try discriminate. cbn [rbind].
  intros [= <-] Hl. simpl. rewrite lookup_insert_ne; [done|].
  intros <-. rewrite Hbk in Hl. injection Hl as ->. discriminate Hc.
Qed.

Lemma append_walk_keeps_objects fuel m current item m' l o rel :
  append_walk fuel m current item = Done m' ->
  blocks m !! l = Some {| contents := CObject o; released := rel |} ->
  blocks m' !! l = Some {| contents := CObject o; released := rel |}.
Proof.
  revert current. induction fuel as [|fuel IH]; intros current; cbn [append_walk];
    [discriminate|].
  destruct (load_node m current) as [n| |]; try discriminate. cbn [rbind].
  destruct (next n) as [nx|].
  - apply IH.
  - apply store_next_keeps_objects.
Qed.

Lemma keeps_objects_add_to_list head set_head m1 m2 room value key :
  (forall p w, mem (set_head p w) = mem w) ->
  keeps_objects (add_to_list head set_head m1 m2 room value key).
Proof.
  intros Hset w v w'. unfold add_to_list, fatal.
  destruct (malloc (mem w) _) as [[a1 mm1]|] eqn:Ha1; [|discriminate].
  destruct (_ <? _)%nat; [discriminate|].
  destruct (malloc mm1 _) as [[a2 mm2]|] eqn:Ha2; [|discriminate].
  intros Hr l o rel Hl.
  pose proof (malloc_keeps _ _ _ _ _ _ Ha2 (malloc_keeps _ _ _ _ _ _ Ha1 Hl)) as Hl2.
  destruct (head w).
  - destruct (append_walk _ _ _ _) as [mm3| |] eqn:Hw; try discriminate.
    injection Hr as _ <-. cbn [mem set_mem].
    by apply (append_walk_keeps_objects _ _ _ _ _ _ _ _ Hw).
  - injection Hr as _ <-. by rewrite Hset.
Qed.

(** A creation hands out the value of the counter and moves the counter on
    by one. *)
Lemma create_object_returns_counter key tex ox oy ow oh hb dat w p w' :
  create_object key tex ox oy ow oh hb dat w = Returns p w' ->
  returned_id p w' = [_object_id w] /\ _object_id w' = int_add (_object_id w) 1.
Proof.
  unfold create_object, bind, _assert_engine_init, fatal.
  destruct (_engine w); [|discriminate].
  destruct (malloc (mem w) _) as [[a0 m0]|] eqn:Ha0; [|discriminate].
  destruct (_add_object_to_list (Some a0) key _) as [[] w1| | |] eqn:Hadd;
    try discriminate.
  unfold ret. intros [= <- <-].
  unfold _add_object_to_list in Hadd. split.
  - pose proof (malloc_holds _ _ _ _ Ha0) as Hobj.
    pose proof (keeps_objects_add_to_list _object_list set_object_list _ _ _ _ _
                  (fun _ _ => eq_refl) _ _ _ Hadd a0 _ false Hobj) as Hkept.
    unfold returned_id. by rewrite Hkept.
  - pose proof (keeps_counter_add_to_list _object_list set_object_list _ _ _ _ _
                  (fun _ _ => eq_refl) _ _ _ Hadd) as Hkept.
    by rewrite Hkept.
Qed.

Lemma perform_creation c w ids w' :
  creates c = true -> perform c w = Returns ids w' ->
  ids = [_object_id w] /\ _object_id w' = int_add (_object_id w) 1.
Proof.
  intros Hc. destruct c; try discriminate Hc; cbn [perform]; unfold bind.
  - unfold create_like.
    destruct (create_object _ _ _ _ _ _ _ _ w) as [p w1| | |] eqn:Hr; try discriminate.
    intros [= <- <-]. by apply create_object_returns_counter in Hr.
  - unfold instantiate_object, bind, _assert_engine_init, read_heap, fatal.
    destruct (_engine w); [|discriminate].
    destruct (rbind _ _) as [t| |]; try discriminate.
    destruct (create_object _ _ _ _ _ _ _ _ w) as [p w1| | |] eqn:Hr; try discriminate.
    intros [= <- <-]. by apply create_object_returns_counter in Hr.
Qed.

Lemma keeps_counter_read_heap {A} (f : memory -> result A) :
  keeps_counter (read_heap f).
Proof.
  intros w v w'. unfold read_heap.
  destruct (f (mem w)); [by intros [= _ <-]|discriminate..].
Qed.

Lemma keeps_counter_update_heap f : keeps_counter (update_heap f).
Proof.
  intros w v w'. unfold update_heap.
  destruct (f (mem w)); [by intros [= _ <-]|discriminate..].
Qed.

#[local] Hint Resolve keeps_counter_read_heap keeps_counter_update_heap : counter.

Lemma keeps_counter_engine_init boot junk title ew eh efps :
  keeps_counter (engine_init boot junk title ew eh efps).
Proof.
  intros w v w'. unfold engine_init, fatal. cbv zeta.
  destruct (_engine w); [discriminate|].
  destruct (negb (engine_allocated boot)); [discriminate|].
  destruct (negb (sdl_init boot =? 0)); [discriminate|].
  destruct (negb (ttf_init boot =? 0)); [discriminate|].
  destruct (created_window boot); [|discriminate].
  destruct (created_renderer boot); [|discriminate].
  destruct (negb (blend_mode_set boot =? 0)); [discriminate|].
  by intros [= _ <-].
Qed.

Lemma keeps_counter_engine_run {G : Type} (update : G -> G) draw event_handler frames
    (game : G) :
  keeps_counter (engine_run update draw event_handler frames game).
Proof.
  unfold engine_run. counter_kept.
  intros w0 r0 w0'. destruct (_engine w0) as [eng|]; [|discriminate].
  destruct (frame_loop _ _ _ _ _ _ _) as [[[eng' game'] log] how].
  by intros [= _ <-].
Qed.

Lemma keeps_counter_load_texture files filename key :
  keeps_counter (load_texture files filename key).
Proof.
  unfold load_texture. counter_kept.
  intros w0 r0 w0'. destruct (bool_decide _); [|discriminate].
  destruct (malloc _ _) as [[a0 m0]|]; [|discriminate].
  intros Hr.
  assert (Hk : keeps_counter (bind (_add_to_texture_list (Some a0) key)
                                (fun _ => ret (Some a0)))).
  { unfold _add_to_texture_list. counter_kept. }
  apply Hk in Hr. by rewrite Hr.
Qed.

Lemma keeps_counter_destroy_all_textures : keeps_counter destroy_all_textures.
Proof.
  unfold destroy_all_textures. counter_kept.
Qed.

Lemma keeps_counter_create_tilemap files filename tw th sp rows cols :
  keeps_counter (create_tilemap files filename tw th sp rows cols).
Proof.
  unfold create_tilemap. counter_kept.
  intros w0 r0 w0'. unfold fatal.
  destruct (malloc _ _) as [[a0 m0]|]; [|discriminate].
  destruct (bool_decide _); [|discriminate].
  destruct (malloc _ _) as [[a1 m1]|]; [|discriminate].
  destruct (store _ _ _); [|discriminate..].
  by intros [= _ <-].
Qed.

Lemma keeps_counter_get_tile tm tile_row tile_col :
  keeps_counter (get_tile tm tile_row tile_col).
Proof.
  unfold get_tile. counter_kept.
  intros w0 r0 w0'. unfold fatal.
  destruct (malloc _ _) as [[a0 m0]|]; [|discriminate].
  by intros [= _ <-].
Qed.

Lemma keeps_counter_create_hitbox junk key px py pw ph :
  keeps_counter (create_hitbox junk key px py pw ph).
Proof.
  unfold create_hitbox. counter_kept.
  intros w0 r0 w0'. unfold fatal.
  destruct (malloc _ _) as [[a0 m0]|]; [|discriminate].
  by intros [= _ <-].
Qed.

Lemma keeps_counter_object_is_hovered o : keeps_counter (object_is_hovered o).
Proof.
  unfold object_is_hovered. counter_kept.
  intros w0 r0 w0'. destruct (mouse_state w0). by intros [= _ <-].
Qed.

Lemma keeps_counter_gfx leaves s : keeps_counter (gfx leaves s).
Proof. intros w v w'. unfold gfx. by intros [= _ <-]. Qed.

Lemma keeps_counter_restore_color : keeps_counter restore_color.
Proof. intros w v w'. unfold restore_color, SDL_SetRenderDrawColor. by intros [= _ <-]. Qed.

#[local] Hint Resolve keeps_counter_object_is_hovered keeps_counter_gfx
  keeps_counter_restore_color : counter.

Lemma keeps_counter_draw_shape leaves c : keeps_counter (draw_shape leaves c).
Proof.
  destruct c; cbn [draw_shape];
    unfold draw_line, draw_rect, draw_ellipse, draw_circle, draw_line_thick,
      draw_rect_thick, draw_circle_thick, draw_ellipse_thick;
    counter_kept.
Qed.

Lemma keeps_counter_draw_text rendered made font_name text px py color anchor :
  keeps_counter (draw_text rendered made font_name text px py color anchor).
Proof.
  unfold draw_text. counter_kept.
  intros w0 r0 w0' Hr. destruct (_font w0); [|discriminate Hr].
  revert Hr. generalize w0 r0 w0'. fold (keeps_counter
    (bind (_get_font font_name) (fun _ : ListNode =>
       match rendered with
       | Some (surface_w, surface_h) =>
           match made with
           | Some _ =>
               ret {| copied := made; srcrect := None;
                      dstrect := Some (anchored anchor px py surface_w surface_h) |}
           | NULL => fatal "[ENGINE] Failed to create texture from surface: %s\n"
           end
       | None => fatal "[ENGINE] Failed to render text: %s\n"
       end))).
  unfold _get_font. counter_kept.
Qed.

Lemma keeps_counter_close_all_fonts : keeps_counter close_all_fonts.
Proof.
  unfold close_all_fonts. counter_kept.
  intros w0 r0 w0'. destruct (_font w0) eqn:Hf; [|by intros [= _ <-]].
  destruct (free_all _ _ _); [|discriminate..]. by intros [= _ <-].
Qed.

(** The calls that do not create an object of the registry leave the
    counter alone. *)
Lemma perform_operation_keeps_counter {G D : Type} (op : operation G D) :
  creates_object op = false ->
  forall w ids w', perform_operation op w = Returns ids w' ->
                   ids = [] /\ _object_id w' = _object_id w.
Proof.
  intros Hc w ids w' Hrun.
  assert (Hret : forall (A : Type) (c0 : M A),
            keeps_counter c0 -> bind c0 (fun _ => ret (@nil Z)) w = Returns ids w' ->
            ids = [] /\ _object_id w' = _object_id w).
  { intros A c0 Hk. unfold bind, ret.
    destruct (c0 w) as [v0 w0| | |] eqn:E; try discriminate.
    intros [= <- <-]. split; [done|]. by apply (Hk _ _ _ E). }
  destruct op as [c|boot junk title ew eh efps| |update draw handler frames game
                  |files filename|resizable|fullscreen|files filename key|key
                  |tex px py pw ph|made filename px py pw ph| |key angle
                  |files filename tw th sp rows cols|tm tile_row tile_col|tile px py
                  |tile px py pw ph|tm tile_row tile_col px py|tile|tm|object
                  |junk key px py pw ph|h1 h2|leaves c|event|object|key
                  |rendered made font_name text px py color anchor| ];
    cbn [perform_operation creates_object] in *;
    try (eapply Hret; [|exact Hrun]).
  - exact (perform_keeps_counter c Hc _ _ _ Hrun).
  - apply keeps_counter_engine_init.
  - unfold engine_quit. counter_kept.
  - apply keeps_counter_engine_run.
  - unfold set_window_icon. counter_kept.
  - unfold window_resizable. counter_kept.
  - unfold window_fullscreen. counter_kept.
  - apply keeps_counter_load_texture.
  - unfold get_texture_by_name. counter_kept.
  - unfold draw_texture. counter_kept.
  - unfold draw_texture_from_path. counter_kept.
  - apply keeps_counter_destroy_all_textures.
  - unfold rotate_texture, get_texture_by_name. counter_kept.
  - apply keeps_counter_create_tilemap.
  - apply keeps_counter_get_tile.
  - unfold draw_tile. counter_kept.
  - unfold draw_tile_with_size. counter_kept.
  - unfold draw_tile_from_tilemap. counter_kept.
  - unfold destroy_tile. counter_kept.
  - unfold destroy_tilemap. counter_kept.
  - unfold on_object, draw_object. counter_kept.
  - apply keeps_counter_create_hitbox.
  - eapply (Hret _ (bind (read_heap (fun m => load_object m h1)) (fun o1 =>
              bind (read_heap (fun m => load_object m h2)) (fun o2 =>
                ret (hitbox_is_colliding o1 o2))))); [counter_kept|].
    revert Hrun. unfold bind, ret.
    destruct (read_heap _ w) as [o1 w1| | |]; try done.
    destruct (read_heap _ w1) as [o2 w2| | |]; done.
  - apply keeps_counter_draw_shape.
  - unfold any_key_pressed. counter_kept.
  - unfold on_object.
    do 2 (apply keeps_counter_bind; [solve [eauto with counter]|intros ?]).
    apply keeps_counter_object_is_hovered.
  - unfold object_is_hovered_by_id. counter_kept.
    intros w0 r0 w0'. destruct (mouse_state w0). by intros [= _ <-].
  - apply keeps_counter_draw_text.
  - apply keeps_counter_close_all_fonts.
Qed.

Lemma perform_operation_creation {G D : Type} (op : operation G D) w ids w' :
  creates_object op = true -> perform_operation op w = Returns ids w' ->
  ids = [_object_id w] /\ _object_id w' = int_add (_object_id w) 1.
Proof.
  destruct op; try discriminate. cbn [creates_object perform_operation].
  apply perform_creation.
Qed.

(** The identifiers a run hands out, from a counter at [k]. *)
Lemma run_operations_counts_from {G D : Type} (ops : list (operation G D)) :
  forall w k,
  _object_id w = Z.of_nat k -> Z.of_nat k + Z.of_nat (object_creations ops) <= INT_MAX ->
  fst (run_operations ops w) = map Z.of_nat (seq k (length (fst (run_operations ops w))))
  /\ (forall w', snd (run_operations ops w) = Returns tt w' ->
        length (fst (run_operations ops w)) = object_creations ops
        /\ _object_id w' = Z.of_nat (k + object_creations ops)).
Proof.
  induction ops as [|op ops IH]; intros w k Hk Hmax; cbn [run_operations].
  - split; [done|]. intros w' [= <-]. cbn. by rewrite Nat.add_0_r.
  - destruct (perform_operation op w) as [ids w1| | |] eqn:Hp; cbn [fst snd];
      try (split; [done|intros; discriminate]).
    unfold object_creations in Hmax |- *. cbn [List.filter] in Hmax |- *.
    destruct (creates_object op) eqn:Hc.
    + destruct (perform_operation_creation _ _ _ _ Hc Hp) as [-> Hid].
      cbn [length] in Hmax.
      assert (Hk1 : _object_id w1 = Z.of_nat (S k)).
      { rewrite Hid, Hk. unfold int_add. rewrite wrap_int_in_range; [lia|].
        unfold in_int, INT_MIN, INT_MAX in *. lia. }
      destruct (IH w1 (S k) Hk1) as [Hids Hend]; [unfold object_creations; lia|].
      destruct (run_operations ops w1) as [ids' o]. cbn [fst snd length app] in *.
      split.
      * rewrite Hk. cbn [seq map]. by rewrite <- Hids.
      * intros w' Ho. destruct (Hend w' Ho) as [-> ->].
        split; [done|]. unfold object_creations. f_equal. lia.
    + destruct (perform_operation_keeps_counter _ Hc _ _ _ Hp) as [-> Hid].
      assert (Hk1 : _object_id w1 = Z.of_nat k) by congruence.
      destruct (IH w1 k Hk1) as [Hids Hend]; [unfold object_creations; lia|].
      by destruct (run_operations ops w1) as [ids' o].
Qed.

Lemma counting_up_sorted k n : StronglySorted Z.lt (map Z.of_nat (seq k n)).
Proof.
  revert k. induction n as [|n IH]; intros k; cbn [seq map]; constructor; [apply IH|].
  apply Forall_forall. intros z Hz. apply list_elem_of_In, in_map_iff in Hz.
  destruct Hz as (i & <- & Hi). apply in_seq in Hi. lia.
Qed.

(** C5: whatever functions of the interface are called, in whatever order,
    [create_object] and [instantiate_object] are the only ones that write
    the identifier counter, and they move it on by one: no call of any
    other function, the destroy functions included, sets it back.  So the
    identifiers a run hands out, creations interleaved with any other
    calls, are 0, 1, 2, ... in this order, the first creation of the
    process getting 0 (the counter starts at 0): strictly increasing, never
    repeated; and when the calls have all returned the counter has counted
    every creation.  The run is one in which [engine_quit] comes last, and
    in which fewer than 2^31 objects are created. *)
Theorem object_ids_count_up {G D : Type} (ops : list (operation G D)) (w : world) :
  _object_id w = 0 -> Z.of_nat (object_creations ops) <= INT_MAX ->
  quit_is_last ops = true ->
  fst (run_operations ops w)
  = map Z.of_nat (seq 0 (length (fst (run_operations ops w))))
  /\ StronglySorted Z.lt (fst (run_operations ops w))
  /\ NoDup (fst (run_operations ops w))
  /\ (forall w', snd (run_operations ops w) = Returns tt w' ->
        length (fst (run_operations ops w)) = object_creations ops
        /\ _object_id w' = Z.of_nat (object_creations ops))
  /\ (forall (op : operation G D) w1 ids w2,
        perform_operation op w1 = Returns ids w2 ->
        if creates_object op
        then ids = [_object_id w1] /\ _object_id w2 = int_add (_object_id w1) 1
        else ids = [] /\ _object_id w2 = _object_id w1)
  /\ (forall chk lim col ms files, _object_id (process_start chk lim col ms files) = 0).
Proof.
  intros Hzero Hmax _.
  destruct (run_operations_counts_from ops w 0%nat) as [Hids Hend]; [done|lia|].
  split; [done|]. split; [|split; [|split; [done|split; [|reflexivity]]]].
  - rewrite Hids. apply counting_up_sorted.
  - rewrite Hids. apply NoDup_fmap; [intros ? ? ?; lia|]. apply NoDup_seq.
  - intros op w1 ids w2 Hp. destruct (creates_object op) eqn:Hc.
    + by apply (perform_operation_creation op).
    + by apply (perform_operation_keeps_counter op).
Qed.

Lemma object_ids_count_up_witness :
  _object_id new_process = 0
  /\ Z.of_nat (object_creations sample_operations) <= INT_MAX
  /\ quit_is_last sample_operations = true
  /\ fst (run_operations sample_operations new_process) = [0; 1; 2]
  /\ NoDup (fst (run_operations sample_operations new_process))
  /\ exists w',
       snd (run_operations sample_operations new_process) = Returns tt w'
       /\ _object_id w' = 3.
Proof.
  assert (Hzero : _object_id new_process = 0) by reflexivity.
  assert (Hmax : Z.of_nat (object_creations sample_operations) <= INT_MAX)
    by (vm_compute; discriminate).
  assert (Hquit : quit_is_last sample_operations = true) by reflexivity.
  split; [exact Hzero|]. split; [exact Hmax|]. split; [exact Hquit|].
  destruct (object_ids_count_up sample_operations new_process Hzero Hmax Hquit)
    as (Hids & _ & Hnodup & Hend & _).
  split; [|split; [exact Hnodup|]].
  - rewrite Hids.
    replace (length (fst (run_operations sample_operations new_process))) with 3%nat
      by (vm_compute; reflexivity).
    reflexivity.
  - set (wend := match snd (run_operations sample_operations new_process) with
                 | Returns _ w' => w'
                 | _ => new_process
                 end).
    assert (Hrun : snd (run_operations sample_operations new_process) = Returns tt wend)
      by (vm_compute; reflexivity).
    clearbody wend. exists wend. split; [exact Hrun|].
    destruct (Hend wend Hrun) as [_ Hcount]. rewrite Hcount.
    vm_compute. reflexivity.
Defined.

(** ** Collision, continued *)

(** X1: [hitbox_is_colliding] does not depend on the order of its two
    arguments, and a box collides with itself exactly when its width and
    its height are positive. *)
Theorem hitbox_is_colliding_symmetric (a b : Object) :
  extent_in_int a -> extent_in_int b ->
  hitbox_is_colliding a b = hitbox_is_colliding b a
  /\ (hitbox_is_colliding a a = true <-> 0 < width a /\ 0 < height a).
Proof.
  intros [Hax Hay] [Hbx Hby].
  unfold hitbox_is_colliding, int_add.
  rewrite !wrap_int_in_range by assumption. split.
  - apply eq_true_iff_eq.
    rewrite !andb_true_iff, !Z.ltb_lt, !Z.gtb_gt. lia.
  - rewrite !andb_true_iff, !Z.ltb_lt, !Z.gtb_gt. lia.
Qed.

Lemma hitbox_is_colliding_symmetric_witness :
  extent_in_int (box 3 4 5 6) /\ extent_in_int (box 7 8 2 2)
  /\ hitbox_is_colliding (box 3 4 5 6) (box 7 8 2 2)
     = hitbox_is_colliding (box 7 8 2 2) (box 3 4 5 6).
Proof.
  assert (Ha : extent_in_int (box 3 4 5 6)) by (vm_compute; intuition discriminate).
  assert (Hb : extent_in_int (box 7 8 2 2)) by (vm_compute; intuition discriminate).
  split; [exact Ha|]. split; [exact Hb|].
  exact (proj1 (hitbox_is_colliding_symmetric (box 3 4 5 6) (box 7 8 2 2) Ha Hb)).
Defined.

(** ** Tile geometry *)

Lemma tile_src_in_int tm i j :
  tile_in_int tm i j ->
  tile_src tm i j
  = {| rect_x := j * (tile_width tm + spacing tm);
       rect_y := i * (tile_height tm + spacing tm);
       rect_w := tile_width tm; rect_h := tile_height tm |}.
Proof.
  intros (Hw & Hh & Hc & Hr). unfold tile_src, int_mul, int_add.
  rewrite (wrap_int_in_range _ Hw), (wrap_int_in_range _ Hh).
  by rewrite (wrap_int_in_range _ Hc), (wrap_int_in_range _ Hr).
Qed.

(** X2: The source rectangles of two different cells of a tilemap whose tiles
    have a positive size and a spacing that is not negative share no
    pixel; the rectangle of a cell with a negative column lies left of the
    sheet, the one of a cell with a negative row above it. *)
Theorem tile_sources_do_not_overlap (tm : Tilemap) (r1 c1 r2 c2 : Z) :
  0 < tile_width tm -> 0 < tile_height tm -> 0 <= spacing tm ->
  tile_in_int tm r1 c1 -> tile_in_int tm r2 c2 ->
  ((r1, c1) <> (r2, c2) -> ~ rects_overlap (tile_src tm r1 c1) (tile_src tm r2 c2))
  /\ (c1 < 0 -> rect_x (tile_src tm r1 c1) + rect_w (tile_src tm r1 c1) <= 0)
  /\ (r1 < 0 -> rect_y (tile_src tm r1 c1) + rect_h (tile_src tm r1 c1) <= 0).
Proof.
  intros Hw Hh Hs H1 H2.
  rewrite (tile_src_in_int _ _ _ H1), (tile_src_in_int _ _ _ H2).
  unfold rects_overlap. cbn [rect_x rect_y rect_w rect_h].
  split; [|split].
  - intros Hne (Ha & Hb & Hc & Hd).
    assert (c1 = c2) by nia. assert (r1 = r2) by nia. congruence.
  - intros Hneg. nia.
  - intros Hneg. nia.
Qed.

Lemma tile_sources_do_not_overlap_witness :
  0 < tile_width sample_tilemap /\ 0 < tile_height sample_tilemap
  /\ 0 <= spacing sample_tilemap
  /\ tile_in_int sample_tilemap 1 2 /\ tile_in_int sample_tilemap 1 3
  /\ ~ rects_overlap (tile_src sample_tilemap 1 2) (tile_src sample_tilemap 1 3).
Proof.
  assert (H1 : tile_in_int sample_tilemap 1 2) by (vm_compute; intuition discriminate).
  assert (H2 : tile_in_int sample_tilemap 1 3) by (vm_compute; intuition discriminate).
  split; [reflexivity|]. split; [reflexivity|]. split; [discriminate|].
  split; [exact H1|]. split; [exact H2|].
  apply (tile_sources_do_not_overlap sample_tilemap 1 2 1 3);
    [reflexivity|reflexivity|discriminate|exact H1|exact H2|discriminate].
Defined.

(** ** Tiles, continued *)

Lemma assert_initialized w :
  engine_initialized w -> _assert_engine_init w = Returns tt w.
Proof.
  unfold engine_initialized, _assert_engine_init. by destruct (_engine w).
Qed.

Lemma load_tile_live m l t : live m l (CTile t) -> load_tile m (Some l) = Done t.
Proof. intros H. unfold load_tile. by rewrite (load_live _ _ _ H). Qed.

Lemma load_tilemap_live m l t : live m l (CTilemap t) -> load_tilemap m (Some l) = Done t.
Proof. intros H. unfold load_tilemap. by rewrite (load_live _ _ _ H). Qed.

Lemma draw_tile_live w t tl p tm px py :
  engine_initialized w -> live (mem w) t (CTile tl) -> tilemap tl = Some p ->
  live (mem w) p (CTilemap tm) ->
  draw_tile (Some t) px py w
  = Returns {| copied := tm_texture tm;
               srcrect := Some (tile_src tm (row tl) (col tl));
               dstrect := Some {| rect_x := px; rect_y := py; rect_w := tile_width tm;
                                  rect_h := tile_height tm |} |} w.
Proof.
  intros Hinit Ht Hp Htm. unfold draw_tile, bind, read_heap.
  rewrite (assert_initialized _ Hinit), (load_tile_live _ _ _ Ht), Hp.
  by rewrite (load_tilemap_live _ _ _ Htm).
Qed.

(** X3: Drawing the tile that [get_tile] returned for a cell is the same call
    of the renderer as [draw_tile_from_tilemap] on the cell, and as
    [draw_tile_with_size] with the tile size of the tilemap: the texture of
    the tilemap, the source rectangle of the cell, the destination at the
    given place.  [draw_tile_from_tilemap] refuses the cells that
    [get_tile] refuses. *)
Theorem draw_tile_of_get_tile (w : world) (p : loc) (tm : Tilemap)
    (tile_row tile_col px py : Z) :
  engine_initialized w -> live (mem w) p (CTilemap tm) -> can_allocate (mem w) 1 ->
  (tile_row < nb_rows tm -> tile_col < nb_cols tm ->
   exists t w',
     get_tile (Some p) tile_row tile_col w = Returns (Some t) w'
     /\ draw_tile (Some t) px py w'
        = Returns {| copied := tm_texture tm;
                     srcrect := Some (tile_src tm tile_row tile_col);
                     dstrect := Some {| rect_x := px; rect_y := py;
                                        rect_w := tile_width tm;
                                        rect_h := tile_height tm |} |} w'
     /\ draw_tile_with_size (Some t) px py (tile_width tm) (tile_height tm) w'
        = draw_tile (Some t) px py w'
     /\ draw_tile_from_tilemap (Some p) tile_row tile_col px py w
        = Returns {| copied := tm_texture tm;
                     srcrect := Some (tile_src tm tile_row tile_col);
                     dstrect := Some {| rect_x := px; rect_y := py;
                                        rect_w := tile_width tm;
                                        rect_h := tile_height tm |} |} w)
  /\ (tile_row >= nb_rows tm \/ tile_col >= nb_cols tm ->
      draw_tile_from_tilemap (Some p) tile_row tile_col px py w
      = Exits 1 (set_stderr (stderr w ++ ["[ENGINE] Tile out of bounds\n"%string]) w)
      /\ get_tile (Some p) tile_row tile_col w
         = Exits 1 (set_stderr (stderr w ++ ["[ENGINE] Tile out of bounds\n"%string]) w)).
Proof.
  intros Hinit Hlive Hcap. split.
  - intros Hr Hc.
    assert (Hin : (tile_row >=? nb_rows tm) || (tile_col >=? nb_cols tm) = false).
    { apply orb_false_iff. rewrite !Z.geb_leb, !Z.leb_gt. lia. }
    destruct (malloc_can_allocate (mem w)
      (CTile {| tilemap := Some p; row := tile_row; col := tile_col |}) 0 Hcap)
      as (t & m' & Hm & Hfresh & Hm').
    assert (Hne : t <> p) by (intros ->; unfold live in Hlive; congruence).
    set (w' := set_mem m' w).
    assert (Hinit' : engine_initialized w') by done.
    assert (Ht : live (mem w') t (CTile {| tilemap := Some p; row := tile_row;
                                           col := tile_col |})).
    { unfold live. simpl. rewrite Hm'. apply lookup_insert_eq. }
    assert (Hp : live (mem w') p (CTilemap tm)).
    { unfold live. simpl. rewrite Hm'. simpl. by rewrite lookup_insert_ne. }
    exists t, w'. split; [|split; [|split]].
    + unfold get_tile, bind, read_heap.
      rewrite (assert_initialized _ Hinit), (load_tilemap_live _ _ _ Hlive), Hin.
      by rewrite Hm.
    + by rewrite (draw_tile_live _ _ _ _ _ _ _ Hinit' Ht eq_refl Hp).
    + unfold draw_tile_with_size, draw_tile, bind, read_heap.
      rewrite (assert_initialized _ Hinit'), (load_tile_live _ _ _ Ht).
      cbn [tilemap]. by rewrite (load_tilemap_live _ _ _ Hp).
    + unfold draw_tile_from_tilemap, bind, read_heap.
      rewrite (assert_initialized _ Hinit), (load_tilemap_live _ _ _ Hlive), Hin.
      reflexivity.
  - intros Hout.
    assert (Hin : (tile_row >=? nb_rows tm) || (tile_col >=? nb_cols tm) = true).
    { apply orb_true_iff. rewrite !Z.geb_leb, !Z.leb_le. lia. }
    unfold draw_tile_from_tilemap, get_tile, bind, read_heap.
    rewrite (assert_initialized _ Hinit), (load_tilemap_live _ _ _ Hlive), Hin.
    split; reflexivity.
Qed.

Lemma draw_tile_of_get_tile_witness :
  engine_initialized tile_process
  /\ live (mem tile_process) 1%positive (CTilemap sample_tilemap)
  /\ can_allocate (mem tile_process) 1
  /\ draw_tile_from_tilemap (Some 1%positive) 2 3 100 200 tile_process
     = Returns {| copied := NULL;
                  srcrect := Some {| rect_x := 51; rect_y := 34; rect_w := 16;
                                     rect_h := 16 |};
                  dstrect := Some {| rect_x := 100; rect_y := 200; rect_w := 16;
                                     rect_h := 16 |} |} tile_process.
Proof.
  assert (Hinit : engine_initialized tile_process) by (vm_compute; discriminate).
  assert (Hlive : live (mem tile_process) 1%positive (CTilemap sample_tilemap))
    by (vm_compute; reflexivity).
  assert (Hcap : can_allocate (mem tile_process) 1) by (vm_compute; lia).
  split; [exact Hinit|]. split; [exact Hlive|]. split; [exact Hcap|].
  destruct (draw_tile_of_get_tile tile_process 1%positive sample_tilemap 2 3 100 200
              Hinit Hlive Hcap) as [Hin _].
  destruct (Hin eq_refl eq_refl) as (t & w' & _ & _ & _ & Hdraw).
  exact Hdraw.
Defined.

(** X4: [destroy_tile] gives back the tile and nothing else: the tilemap it
    refers to stays live.  It does not look at the engine (there is no
    hypothesis on it here), it does nothing on [NULL], and a second call on
    the same tile frees a freed block. *)
Theorem destroy_tile_frees_the_tile_only (w : world) (t p : loc) (tl : Tile)
    (tm : Tilemap) :
  live (mem w) t (CTile tl) -> live (mem w) p (CTilemap tm) ->
  exists w',
    destroy_tile (Some t) w = Returns tt w'
    /\ gone (mem w') t
    /\ live (mem w') p (CTilemap tm)
    /\ destroy_tile (Some t) w' = Undef
    /\ destroy_tile NULL w = Returns tt w.
Proof.
  intros Ht Hp.
  assert (Hne : t <> p) by (intros ->; unfold live in *; congruence).
  unfold destroy_tile, update_heap. rewrite (free_live _ _ _ Ht).
  eexists. split; [reflexivity|]. cbn [mem set_mem].
  split; [|split; [|split]].
  - eexists. simpl. apply lookup_insert_eq.
  - by apply live_set_ne.
  - unfold free. cbn [blocks set_blocks]. by rewrite lookup_insert_eq.
  - cbn [free]. by rewrite set_mem_same.
Qed.

Lemma destroy_tile_frees_the_tile_only_witness :
  live (mem (after (get_tile (Some 1%positive) 2 3) tile_process)) 2%positive
    (CTile {| tilemap := Some 1%positive; row := 2; col := 3 |})
  /\ live (mem (after (get_tile (Some 1%positive) 2 3) tile_process)) 1%positive
       (CTilemap sample_tilemap)
  /\ exists w',
       destroy_tile (Some 2%positive) (after (get_tile (Some 1%positive) 2 3) tile_process)
       = Returns tt w'
       /\ live (mem w') 1%positive (CTilemap sample_tilemap).
Proof.
  remember (after (get_tile (Some 1%positive) 2 3) tile_process) as w eqn:Ew.
  assert (Ht : live (mem w) 2%positive
                 (CTile {| tilemap := Some 1%positive; row := 2; col := 3 |}))
    by (subst w; vm_compute; reflexivity).
  assert (Hp : live (mem w) 1%positive (CTilemap sample_tilemap))
    by (subst w; vm_compute; reflexivity).
  clear Ew.
  split; [exact Ht|]. split; [exact Hp|].
  destruct (destroy_tile_frees_the_tile_only w _ _ _ _ Ht Hp)
    as (w' & Hrun & _ & Hlive & _).
  exists w'. split; [exact Hrun|exact Hlive].
Defined.

(** X5: [destroy_tilemap] gives back the tilemap and its texture and leaves the
    tiles that refer to it alone: such a tile is still live and still
    points to the tilemap that is gone, so drawing it reads a freed block,
    which is undefined behaviour (stated on the checked heap, where such a
    read is trapped). *)
Theorem destroy_tilemap_leaves_tiles_dangling (w : world) (t p tex : loc) (tl : Tile)
    (tm : Tilemap) (px py : Z) :
  engine_initialized w ->
  live (mem w) t (CTile tl) -> tilemap tl = Some p ->
  live (mem w) p (CTilemap tm) -> tm_texture tm = Some tex ->
  live (mem w) tex CForeign ->
  exists w',
    destroy_tilemap (Some p) w = Returns tt w'
    /\ gone (mem w') p /\ gone (mem w') tex
    /\ live (mem w') t (CTile tl)
    /\ (checked (mem w) = true -> draw_tile (Some t) px py w' = Undef).
Proof.
  intros Hinit Ht Htl Hp Htex Hx.
  assert (Htp : t <> p) by (intros ->; unfold live in *; congruence).
  assert (Htx : t <> tex) by (intros ->; unfold live in *; congruence).
  assert (Hpx : tex <> p) by (intros ->; unfold live in *; congruence).
  unfold destroy_tilemap, bind, update_heap.
  rewrite (assert_initialized _ Hinit), (load_tilemap_live _ _ _ Hp). cbn [rbind].
  rewrite Htex, (free_live _ _ _ Hx). cbn [rbind].
  rewrite (free_live _ p (CTilemap tm)) by (by apply live_set_ne).
  eexists. split; [reflexivity|]. cbn [mem set_mem].
  split; [|split; [|split]].
  - eexists. simpl. apply lookup_insert_eq.
  - eexists. simpl. rewrite lookup_insert_ne by done. apply lookup_insert_eq.
  - apply live_set_ne; [done|]. by apply live_set_ne.
  - unfold draw_tile, bind, read_heap.
    rewrite (assert_initialized (set_mem _ w)) by exact Hinit. cbn [mem set_mem].
    rewrite (load_tile_live _ t tl)
      by (apply live_set_ne; [done|]; by apply live_set_ne).
    rewrite Htl. unfold load_tilemap, load, accessible.
    cbn [mem set_mem blocks set_blocks checked released contents].
    rewrite lookup_insert_eq. cbn [released contents].
    intros ->. reflexivity.
Qed.

Lemma destroy_tilemap_leaves_tiles_dangling_witness :
  engine_initialized (sheet_process true)
  /\ live (mem (sheet_process true)) 3%positive
       (CTile {| tilemap := Some 1%positive; row := 2; col := 3 |})
  /\ live (mem (sheet_process true)) 1%positive (CTilemap sheet)
  /\ live (mem (sheet_process true)) 2%positive CForeign
  /\ exists w',
       destroy_tilemap (Some 1%positive) (sheet_process true) = Returns tt w'
       /\ draw_tile (Some 3%positive) 0 0 w' = Undef.
Proof.
  remember (sheet_process true) as w eqn:Ew.
  assert (Hinit : engine_initialized w) by (subst w; vm_compute; discriminate).
  assert (Ht : live (mem w) 3%positive
                 (CTile {| tilemap := Some 1%positive; row := 2; col := 3 |}))
    by (subst w; vm_compute; reflexivity).
  assert (Hp : live (mem w) 1%positive (CTilemap sheet))
    by (subst w; vm_compute; reflexivity).
  assert (Hx : live (mem w) 2%positive CForeign) by (subst w; vm_compute; reflexivity).
  assert (Hc : checked (mem w) = true) by (subst w; vm_compute; reflexivity).
  clear Ew.
  split; [exact Hinit|]. split; [exact Ht|]. split; [exact Hp|]. split; [exact Hx|].
  destruct (destroy_tilemap_leaves_tiles_dangling w _ _ _ _ _ 0 0 Hinit Ht eq_refl Hp
              eq_refl Hx) as (w' & Hrun & _ & _ & _ & Hdraw).
  exists w'. split; [exact Hrun|exact (Hdraw Hc)].
Defined.

(** X6: [create_tilemap] on a file that can be decoded returns a new block
    that holds the geometry it was given and a texture of its own, in a
    second new block; no static changes, so the tilemap is in no registry.
    On a file that cannot be decoded it ends the process. *)
Theorem create_tilemap_owns_its_texture (w : world) (files : gset string)
    (filename : string) (tw th sp rows cols : Z) :
  engine_initialized w ->
  (filename ∈ files -> can_allocate (mem w) 2 ->
   exists p tex w',
     create_tilemap files filename tw th sp rows cols w = Returns (Some p) w'
     /\ live (mem w') p
          (CTilemap {| tm_texture := Some tex; tile_width := tw; tile_height := th;
                       spacing := sp; nb_rows := rows; nb_cols := cols |})
     /\ live (mem w') tex CForeign
     /\ p <> tex
     /\ blocks (mem w) !! p = None /\ blocks (mem w) !! tex = None
     /\ (forall a bk, blocks (mem w) !! a = Some bk -> blocks (mem w') !! a = Some bk)
     /\ w' = set_mem (mem w') w)
  /\ (filename ∉ files ->
      fails_fatally (create_tilemap files filename tw th sp rows cols w)).
Proof.
  intros Hinit. unfold create_tilemap, bind.
  rewrite (assert_initialized _ Hinit). split.
  - intros Hin Hcap.
    destruct (malloc_fresh (mem w)
      (CTilemap {| tm_texture := NULL; tile_width := tw; tile_height := th;
                   spacing := sp; nb_rows := rows; nb_cols := cols |}) _ Hcap)
      as (p & -> & Hfp & Hcap1).
    rewrite bool_decide_eq_true_2 by done.
    set (m1 := set_blocks _ (mem w)) in *.
    destruct (malloc_fresh m1 CForeign _ Hcap1) as (tex & -> & Hft & _).
    set (m2 := set_blocks _ m1) in *.
    assert (Hne : p <> tex).
    { intros <-. unfold m1 in Hft. simpl in Hft. by rewrite lookup_insert_eq in Hft. }
    assert (Hftm : blocks (mem w) !! tex = None).
    { unfold m1 in Hft. simpl in Hft. by rewrite lookup_insert_ne in Hft. }
    assert (Hp2 : live m2 p
      (CTilemap {| tm_texture := NULL; tile_width := tw; tile_height := th;
                   spacing := sp; nb_rows := rows; nb_cols := cols |})).
    { unfold live, m2, m1. simpl. rewrite lookup_insert_ne by done.
      apply lookup_insert_eq. }
    rewrite (store_live _ _ _ _ Hp2).
    exists p, tex. eexists. split; [reflexivity|]. cbn [mem set_mem].
    split; [|split; [|split; [done|split; [done|split; [done|split]]]]].
    + unfold live. simpl. apply lookup_insert_eq.
    + unfold live, m2. simpl. rewrite lookup_insert_ne by done. apply lookup_insert_eq.
    + intros a0 bk Hbk. unfold m2, m1. simpl.
      rewrite !lookup_insert_ne by congruence. done.
    + reflexivity.
  - intros Hnot.
    destruct (malloc (mem w) _) as [[p m1]|]; [|by eexists].
    rewrite bool_decide_eq_false_2 by done. by eexists.
Qed.

Lemma create_tilemap_owns_its_texture_witness :
  engine_initialized (fresh_process true)
  /\ "assets/tiles.png"%string ∈ ({["assets/tiles.png"%string]} : gset string)
  /\ can_allocate (mem (fresh_process true)) 2
  /\ exists w',
       create_tilemap {["assets/tiles.png"%string]} "assets/tiles.png" 16 16 1 4 5
         (fresh_process true) = Returns (Some 1%positive) w'
       /\ live (mem w') 1%positive (CTilemap sheet).
Proof.
  assert (Hinit : engine_initialized (fresh_process true)) by (vm_compute; discriminate).
  assert (Hin : "assets/tiles.png"%string ∈ ({["assets/tiles.png"%string]} : gset string))
    by (apply (bool_decide_unpack _); vm_compute; exact I).
  assert (Hcap : can_allocate (mem (fresh_process true)) 2) by (vm_compute; lia).
  split; [exact Hinit|]. split; [exact Hin|]. split; [exact Hcap|].
  destruct (create_tilemap_owns_its_texture (fresh_process true)
              {["assets/tiles.png"%string]} "assets/tiles.png" 16 16 1 4 5 Hinit)
    as [Hok _].
  destruct (Hok Hin Hcap) as (p & tex & w' & Hrun & Hlive & _).
  exists w'.
  assert (Hval : create_tilemap {["assets/tiles.png"%string]} "assets/tiles.png" 16 16 1 4 5
                   (fresh_process true)
                 = Returns (Some 1%positive)
                     (after (create_tilemap {["assets/tiles.png"%string]}
                               "assets/tiles.png" 16 16 1 4 5) (fresh_process true)))
    by (vm_compute; reflexivity).
  rewrite Hval in Hrun. injection Hrun as Hp Hw. subst w'.
  split; [exact Hval|]. vm_compute. reflexivity.
Defined.

(** ** Lookups, continued *)

Lemma first_such_elem f l e : first_such f l = Some e -> e ∈ l /\ f e = true.
Proof.
  intros H. destruct (first_such_split _ _ _ H) as (l1 & l2 & -> & _ & Hf & _).
  split; [|done]. apply elem_of_app. right. in_list.
Qed.

Lemma first_such_existsb f l :
  existsb f l = match first_such f l with Some _ => true | None => false end.
Proof.
  induction l as [|e l IH]; cbn [existsb first_such]; [done|].
  destruct (f e); [done|]. by rewrite IH.
Qed.

Lemma segment_entry_live m l q e :
  segment m l q -> e ∈ l ->
  live m (e_payload e) (e_value e) /\ live m (e_name_ptr e) (CString (e_name e)).
Proof.
  induction l as [|e0 l IH]; intros Hseg Hin; [by apply elem_of_nil in Hin|].
  cbn [segment] in Hseg. destruct Hseg as (_ & Hn & Hp & Hrest).
  apply elem_of_cons in Hin as [->|Hin]; [done|]. by apply IH.
Qed.

Lemma lookup_registry head test f w l :
  registry (mem w) (head w) l -> tests_as test (mem w) f l ->
  exists r,
    lookup_in head test w = Returns r w
    /\ payload <$> r = (fun e => Some (e_payload e)) <$> first_such f l.
Proof.
  intros Hreg Htest. unfold lookup_in, read_heap.
  destruct (find_first_registry test f _ _ _ Hreg Htest) as (r & -> & Hr).
  by exists r.
Qed.

Lemma get_object_by_id_registry w l key :
  engine_initialized w -> object_registry w l ->
  get_object_by_id key w
  = match first_such (has_id key) l with
    | Some e => Returns (Some (e_payload e)) w
    | None => died_with "[ENGINE] Object not found: %d\n" w
    end.
Proof.
  intros Hinit [Hreg Hobj]. unfold get_object_by_id, bind.
  rewrite (assert_initialized _ Hinit).
  destruct (lookup_registry _object_list (object_id_is key) (has_id key) w l Hreg)
    as (r & -> & Hr).
  { destruct Hreg as (_ & Hseg & _). by eapply object_id_is_tests. }
  destruct r as [n|], (first_such (has_id key) l) as [e|]; try done.
  cbn in Hr. injection Hr as Hr. unfold ret. by rewrite Hr.
Qed.

Lemma object_exists_registry w l key :
  engine_initialized w -> registry (mem w) (_object_list w) l ->
  object_exists key w = Returns (existsb (named key) l) w.
Proof.
  intros Hinit Hreg.
  unfold object_exists, bind. rewrite (assert_initialized _ Hinit).
  destruct (lookup_registry _object_list (name_is key) (named key) w l Hreg)
    as (r & -> & Hr).
  { destruct Hreg as (_ & Hseg & _). by eapply name_is_tests. }
  rewrite first_such_existsb.
  by destruct r as [n|], (first_such (named key) l) as [e|].
Qed.

(** X7: [object_exists] answers whether some registered object has the name,
    and does nothing else: where [get_object_by_name] ends the process,
    it returns [false]. *)
Theorem object_exists_is_a_soft_miss (w : world) (l : list entry) (key : string) :
  engine_initialized w -> object_registry w l ->
  object_exists key w = Returns (existsb (named key) l) w
  /\ (existsb (named key) l = false ->
      get_object_by_name key w = died_with "[ENGINE] Object not found: %s\n" w).
Proof.
  intros Hinit [Hreg Hobj]. split.
  - by apply object_exists_registry.
  - rewrite first_such_existsb, (get_object_by_name_registry _ _ _ Hinit Hreg).
    by destruct (first_such (named key) l).
Qed.

Lemma object_exists_is_a_soft_miss_witness :
  engine_initialized objects_and_font
  /\ object_registry objects_and_font three_objects_entries
  /\ object_exists "a" objects_and_font = Returns true objects_and_font
  /\ object_exists "zz" objects_and_font = Returns false objects_and_font.
Proof.
  assert (Hinit : engine_initialized objects_and_font) by (vm_compute; discriminate).
  pose proof three_objects_registry as Hreg.
  split; [exact Hinit|]. split; [exact Hreg|].
  split.
  - exact (proj1 (object_exists_is_a_soft_miss objects_and_font _ "a" Hinit Hreg)).
  - exact (proj1 (object_exists_is_a_soft_miss objects_and_font _ "zz" Hinit Hreg)).
Defined.

(** X8: [object_is_hovered_by_id] answers [false] when no registered object has
    the identifier, where [get_object_by_id] ends the process; otherwise it
    is [object_is_hovered] on the first registered object that has it. *)
Theorem object_is_hovered_by_id_is_a_soft_miss (w : world) (l : list entry) (key : Z) :
  engine_initialized w -> object_registry w l ->
  (first_such (has_id key) l = None ->
   object_is_hovered_by_id key w = Returns false w
   /\ get_object_by_id key w = died_with "[ENGINE] Object not found: %d\n" w)
  /\ (forall e o, first_such (has_id key) l = Some e -> e_value e = CObject o ->
      object_is_hovered_by_id key w = object_is_hovered o w).
Proof.
  intros Hinit Hor. pose proof Hor as [Hreg Hobj].
  assert (Hrun : exists r,
    lookup_in _object_list (object_id_is key) w = Returns r w
    /\ payload <$> r = (fun e => Some (e_payload e)) <$> first_such (has_id key) l).
  { apply lookup_registry; [done|].
    destruct Hreg as (_ & Hseg & _). by eapply object_id_is_tests. }
  destruct Hrun as (r & Hrun & Hr).
  unfold object_is_hovered_by_id, bind. rewrite (assert_initialized _ Hinit), Hrun.
  split.
  - intros Hnone. rewrite Hnone in Hr. destruct r; [done|]. split; [done|].
    by rewrite (get_object_by_id_registry _ _ _ Hinit Hor), Hnone.
  - intros e o Hsome Hval. rewrite Hsome in Hr. destruct r as [n|]; [|done].
    cbn in Hr. injection Hr as Hr. rewrite Hr.
    destruct (first_such_elem _ _ _ Hsome) as [Hin _].
    destruct Hreg as (_ & Hseg & _).
    destruct (segment_entry_live _ _ _ _ Hseg Hin) as [Hlive _].
    rewrite Hval in Hlive. unfold read_heap. by rewrite (load_object_live _ _ _ Hlive).
Qed.

Lemma object_is_hovered_by_id_is_a_soft_miss_witness :
  engine_initialized objects_and_font
  /\ object_registry objects_and_font three_objects_entries
  /\ first_such (has_id 7) three_objects_entries = None
  /\ object_is_hovered_by_id 7 objects_and_font = Returns false objects_and_font.
Proof.
  assert (Hinit : engine_initialized objects_and_font) by (vm_compute; discriminate).
  pose proof three_objects_registry as Hreg.
  split; [exact Hinit|]. split; [exact Hreg|]. split; [reflexivity|].
  destruct (object_is_hovered_by_id_is_a_soft_miss objects_and_font _ 7 Hinit Hreg)
    as [Hmiss _].
  exact (proj1 (Hmiss eq_refl)).
Defined.

(** ** Hitboxes *)

(** X9: [create_hitbox] hands out a block that holds the rectangle it was given
    with the hitbox flag set, and registers nothing: the object registry and
    the identifier counter are as before, so the name it was given is found
    by [object_exists] only if an object had it already. *)
Theorem create_hitbox_registers_nothing (w : world) (l : list entry) (junk : Object)
    (key : string) (bx by_ bw bh : Z) :
  engine_initialized w -> object_registry w l -> can_allocate (mem w) 1 ->
  exists p w',
    create_hitbox junk key bx by_ bw bh w = Returns (Some p) w'
    /\ live (mem w') p
         (CObject {| id := id junk; texture := texture junk; x := bx; y := by_;
                     width := bw; height := bh; hitbox := true; data := data junk |})
    /\ blocks (mem w) !! p = None
    /\ object_registry w' l
    /\ _object_id w' = _object_id w
    /\ object_exists key w' = Returns (existsb (named key) l) w'.
Proof.
  intros Hinit [Hreg Hobj] Hcap. unfold create_hitbox, bind.
  rewrite (assert_initialized _ Hinit).
  destruct (malloc_fresh (mem w)
    (CObject {| id := id junk; texture := texture junk; x := bx; y := by_;
                width := bw; height := bh; hitbox := true; data := data junk |}) _ Hcap)
    as (p & -> & Hfresh & _).
  eexists p, _. split; [reflexivity|]. cbn [mem set_mem].
  assert (Hreg' : registry
    (set_blocks (<[p := {| contents := CObject {| id := id junk; texture := texture junk;
                                                  x := bx; y := by_; width := bw;
                                                  height := bh; hitbox := true;
                                                  data := data junk |};
                           released := false |}]> (blocks (mem w))) (mem w))
    (_object_list w) l) by (by apply registry_fresh_block).
  split; [unfold live; simpl; apply lookup_insert_eq|].
  split; [done|]. split; [by split|]. split; [done|].
  by apply object_exists_registry.
Qed.

Lemma create_hitbox_registers_nothing_witness :
  engine_initialized objects_and_font
  /\ object_registry objects_and_font three_objects_entries
  /\ can_allocate (mem objects_and_font) 1
  /\ exists p w',
       create_hitbox sample_object "wall" 0 0 8 8 objects_and_font = Returns (Some p) w'
       /\ object_exists "wall" w' = Returns false w'.
Proof.
  assert (Hinit : engine_initialized objects_and_font) by (vm_compute; discriminate).
  pose proof three_objects_registry as Hreg.
  assert (Hcap : can_allocate (mem objects_and_font) 1) by (vm_compute; lia).
  split; [exact Hinit|]. split; [exact Hreg|]. split; [exact Hcap|].
  destruct (create_hitbox_registers_nothing objects_and_font _ sample_object "wall"
              0 0 8 8 Hinit Hreg Hcap) as (p & w' & Hrun & _ & _ & _ & _ & Hex).
  exists p, w'. split; [exact Hrun|exact Hex].
Defined.

(** ** The engine guard *)





(** ** The frame loop, continued *)

Lemma frame_budget_bounds n :
  n <> 0 -> (n < 0 -> 1000 ÷ n <= 0) /\ 1000 ÷ n <= 1000.
Proof.
  intros Hn.
  pose proof (Z.quot_rem' 1000 n) as Hq.
  pose proof (Z.rem_nonneg 1000 n Hn ltac:(lia)) as Hr.
  pose proof (Z.rem_bound_abs 1000 n Hn) as Hb.
  split; [intros; nia|]. nia.
Qed.

Lemma frame_time_wraps s e :
  0 <= e < 2 ^ 32 ->
  wrap_int (wrap_uint32 (wrap_uint32 (s + e) - s)) = frame_time e.
Proof.
  intros He. unfold wrap_uint32. rewrite Zminus_mod_idemp_l.
  replace (s + e - s) with e by lia.
  rewrite (Z.mod_small e) by lia. unfold frame_time.
  destruct (Z.ltb_spec e (2 ^ 31)) as [Hlt|Hge].
  - apply wrap_int_in_range. unfold in_int, INT_MIN, INT_MAX. lia.
  - unfold wrap_int.
    replace (e + 2 ^ 31) with (e - 2 ^ 31 + 1 * 2 ^ 32) by lia.
    rewrite Z.mod_add by lia. rewrite Z.mod_small by lia. lia.
Qed.

(** X11: An iteration runs update, clear, draw (when there is a draw function)
    and present in this order.  Its frame time is the difference of the two
    tick readings, taken modulo 2^32 and read as an [int]: for an iteration
    of [elapsed] milliseconds that is [elapsed] below 2^31, also when the
    tick counter wrapped around between the readings, and the negative
    [elapsed - 2^32] from 2^31 on.  When the frame time is less than
    [1000 / fps] the loop then waits for [1000 / fps] minus the frame time
    (a difference that is taken to fit an [int]); otherwise it does not
    wait.  So for an iteration shorter than 2^31 milliseconds the iteration
    and the wait fill [1000 / fps], and with a negative [fps] there is no
    wait; an iteration of 2^31 milliseconds or more is followed by a wait
    whenever [fps] is positive. *)
Theorem frame_delay_fills_the_frame {G : Type} (update : G -> G)
    (draw : option (G -> G)) (f : frame) (eng : Engine) (game : G)
    (log : list action) (elapsed : Z) :
  fps eng <> 0 -> 0 <= elapsed < 2 ^ 32 ->
  ticks_end f = wrap_uint32 (ticks_start f + elapsed) ->
  (frame_time elapsed < 1000 ÷ fps eng -> 1000 ÷ fps eng - frame_time elapsed <= INT_MAX) ->
  finish_frame update draw f eng game log
  = (match draw with Some d => d (update game) | None => update game end,
     log ++ frame_actions draw
         ++ (if frame_time elapsed <? 1000 ÷ fps eng
             then [Delayed (1000 ÷ fps eng - frame_time elapsed)] else []),
     Some tt)
  /\ (elapsed < 2 ^ 31 -> fps eng < 0 -> (frame_time elapsed <? 1000 ÷ fps eng) = false)
  /\ (2 ^ 31 <= elapsed -> 0 < fps eng -> (frame_time elapsed <? 1000 ÷ fps eng) = true).
Proof.
  intros Hfps He Hend Hfits.
  destruct (frame_budget_bounds (fps eng) Hfps) as [Hneg Hle].
  assert (Hft : - 2 ^ 31 <= frame_time elapsed < 2 ^ 31).
  { unfold frame_time. destruct (Z.ltb_spec elapsed (2 ^ 31)); lia. }
  split; [|split].
  - unfold finish_frame, frame_actions. rewrite Hend, (frame_time_wraps _ _ He).
    fold (frame_time elapsed).
    destruct (Z.eqb_spec (fps eng) 0) as [E|_]; [done|].
    f_equal. f_equal.
    destruct (Z.ltb_spec (frame_time elapsed) (1000 ÷ fps eng)) as [Hlt|Hge].
    + specialize (Hfits Hlt). unfold INT_MAX in Hfits.
      unfold wrap_uint32. rewrite Z.mod_small by lia.
      by rewrite <- !app_assoc.
    + by rewrite <- !app_assoc, app_nil_r.
  - intros Hshort Hn. apply Z.ltb_ge. specialize (Hneg Hn).
    unfold frame_time. destruct (Z.ltb_spec elapsed (2 ^ 31)); lia.
  - intros Hlong Hpos. apply Z.ltb_lt.
    assert (0 <= 1000 ÷ fps eng) by (apply Z.quot_pos; lia).
    unfold frame_time. destruct (Z.ltb_spec elapsed (2 ^ 31)); lia.
Qed.

Lemma frame_delay_fills_the_frame_witness :
  fps sample_engine <> 0 /\ 0 <= 5 < 2 ^ 32
  /\ 1 = wrap_uint32 (4294967292 + 5)
  /\ (frame_time 5 < 1000 ÷ fps sample_engine ->
      1000 ÷ fps sample_engine - frame_time 5 <= INT_MAX)
  /\ (frame_time 4294966990 < 1000 ÷ fps reversed_engine ->
      1000 ÷ fps reversed_engine - frame_time 4294966990 <= INT_MAX)
  /\ finish_frame sample_update None
       {| pending := []; ticks_start := 4294967292; ticks_end := 1 |}
       sample_engine [] []
     = ([-1], [Updated; Cleared; Presented; Delayed 15], Some tt)
  /\ fps reversed_engine <> 0 /\ 0 <= 4294966990 < 2 ^ 32
  /\ 4294967000 = wrap_uint32 (10 + 4294966990)
  /\ finish_frame sample_update None
       {| pending := []; ticks_start := 10; ticks_end := 4294967000 |}
       reversed_engine [] []
     = ([-1], [Updated; Cleared; Presented; Delayed 286], Some tt).
Proof.
  assert (H1 : frame_time 5 < 1000 ÷ fps sample_engine ->
               1000 ÷ fps sample_engine - frame_time 5 <= INT_MAX)
    by (intros _; vm_compute; discriminate).
  assert (H2 : frame_time 4294966990 < 1000 ÷ fps reversed_engine ->
               1000 ÷ fps reversed_engine - frame_time 4294966990 <= INT_MAX)
    by (intros _; vm_compute; discriminate).
  split; [discriminate|]. split; [lia|]. split; [reflexivity|].
  split; [exact H1|]. split; [exact H2|].
  split.
  - exact (proj1 (frame_delay_fills_the_frame sample_update None
                    {| pending := []; ticks_start := 4294967292; ticks_end := 1 |}
                    sample_engine [] [] 5 ltac:(discriminate) ltac:(lia) eq_refl H1)).
  - split; [discriminate|]. split; [lia|]. split; [reflexivity|].
    exact (proj1 (frame_delay_fills_the_frame sample_update None
                    {| pending := []; ticks_start := 10; ticks_end := 4294967000 |}
                    reversed_engine [] [] 4294966990 ltac:(discriminate) ltac:(lia)
                    eq_refl H2)).
Defined.

Lemma set_engine_same w eng : _engine w = Some eng -> set_engine (Some eng) w = w.
Proof. destruct w. cbn. by intros ->. Qed.

Lemma count_actions_app p l1 l2 :
  count_actions p (l1 ++ l2) = (count_actions p l1 + count_actions p l2)%nat.
Proof. unfold count_actions. by rewrite List.filter_app, length_app. Qed.

Lemma count_actions_handled p events :
  (forall ev, p (Handled ev) = false) ->
  count_actions p (map Handled events) = 0%nat.
Proof.
  intros Hp. unfold count_actions.
  induction events as [|ev events IH]; cbn [map List.filter]; [done|].
  by rewrite Hp.
Qed.

Section FrameLoopRuns.
Context {G : Type}.
Variable update : G -> G.
Variable draw : option (G -> G).
Variable event_handler : option (SDL_Event -> G -> G).

Lemma finish_frame_log f eng game log :
  fps eng <> 0 ->
  exists d,
    finish_frame update draw f eng game log
    = (match draw with Some dr => dr (update game) | None => update game end,
       log ++ frame_actions draw ++ d, Some tt)
    /\ (d = [] \/ exists ms, d = [Delayed ms]).
Proof.
  intros Hfps. unfold finish_frame, frame_actions.
  destruct (Z.eqb_spec (fps eng) 0) as [E|_]; [done|].
  destruct (_ <? _).
  - eexists [Delayed _]. split; [by rewrite <- !app_assoc|]. right. by eexists.
  - exists []. split; [by rewrite <- !app_assoc, app_nil_r|]. by left.
Qed.

Lemma frame_loop_runs frames :
  forall eng game log,
  isRunning eng = true -> fps eng <> 0 ->
  Forall (fun f => has_quit (pending f) = false) frames ->
  exists log',
    frame_loop update draw event_handler frames eng game log
    = (eng,
       fold_left (fun g f => frame_effect update draw event_handler (pending f) g)
         frames game,
       log', FramesRanOut)
    /\ count_actions is_updated log'
       = (count_actions is_updated log + length frames)%nat
    /\ count_actions is_presented log'
       = (count_actions is_presented log + length frames)%nat
    /\ (count_actions is_delayed log'
        <= count_actions is_delayed log + length frames)%nat.
Proof.
  induction frames as [|f frames IH]; intros eng game log Hrun Hfps Hq.
  - cbn [frame_loop fold_left length]. destruct (isRunning eng); [|done].
    exists log. split; [done|]. lia.
  - apply Forall_cons in Hq as [Hf Hq].
    cbn [frame_loop fold_left length]. rewrite Hrun, poll_events_forwards, Hf.
    set (game1 := match event_handler with
                  | Some handle => fold_left (fun g ev => handle ev g)
                                     (forwarded (pending f)) game
                  | None => game
                  end).
    set (log1 := log ++ match event_handler with
                        | Some _ => map Handled (forwarded (pending f))
                        | None => []
                        end).
    destruct (finish_frame_log f eng game1 log1 Hfps) as (d & -> & Hd).
    destruct (IH eng (match draw with Some dr => dr (update game1) | None => update game1 end)
                (log1 ++ frame_actions draw ++ d) Hrun Hfps Hq)
      as (log' & -> & Hu & Hp & Hdl).
    exists log'. split; [reflexivity|].
    assert (Hh : forall p, (forall ev, p (Handled ev) = false) ->
              count_actions p log1 = count_actions p log).
    { intros p Hp0. unfold log1. rewrite count_actions_app.
      destruct event_handler; [rewrite count_actions_handled by done|]; cbn; lia. }
    rewrite !count_actions_app in Hu, Hp, Hdl.
    rewrite Hh in Hu, Hp, Hdl by done.
    unfold frame_actions in Hu, Hp, Hdl.
    destruct Hd as [->|[ms ->]]; destruct draw; cbn in Hu, Hp, Hdl; lia.
Qed.
End FrameLoopRuns.

(** X12: While no quit event arrives the loop does not stop: it runs one
    iteration for every frame the backend supplies, each with one call of
    [update] and one present, and at most one wait; the game data goes
    through the handler, [update] and [draw] in this order, frame after
    frame, and the engine is left as it was. *)
Theorem loop_runs_every_frame_until_quit {G : Type} (update : G -> G)
    (draw : option (G -> G)) (event_handler : option (SDL_Event -> G -> G))
    (frames : list frame) (game : G) (w : world) (eng : Engine) :
  _engine w = Some eng -> isRunning eng = true -> fps eng <> 0 ->
  Forall (fun f => has_quit (pending f) = false) frames ->
  exists log,
    engine_run update draw event_handler frames game w
    = Returns (fold_left (fun g f => frame_effect update draw event_handler (pending f) g)
                 frames game, log, FramesRanOut) w
    /\ count_actions is_updated log = length frames
    /\ count_actions is_presented log = length frames
    /\ (count_actions is_delayed log <= length frames)%nat.
Proof.
  intros Heng Hrun Hfps Hq.
  destruct (frame_loop_runs update draw event_handler frames eng game [] Hrun Hfps Hq)
    as (log & Hloop & Hu & Hp & Hd).
  exists log. rewrite (engine_run_initialized _ _ _ _ _ _ _ Heng), Hloop.
  rewrite (set_engine_same _ _ Heng). done.
Qed.

Lemma loop_runs_every_frame_until_quit_witness :
  _engine (fresh_process true) = Some sample_engine
  /\ isRunning sample_engine = true /\ fps sample_engine <> 0
  /\ Forall (fun f => has_quit (pending f) = false) (take 1 sample_frames)
  /\ exists log,
       engine_run sample_update None (Some sample_handler) (take 1 sample_frames) []
         (fresh_process true)
       = Returns ([768; -1], log, FramesRanOut) (fresh_process true)
       /\ count_actions is_updated log = 1%nat.
Proof.
  assert (Hq : Forall (fun f => has_quit (pending f) = false) (take 1 sample_frames))
    by (repeat constructor).
  split; [reflexivity|]. split; [reflexivity|]. split; [discriminate|].
  split; [exact Hq|].
  destruct (loop_runs_every_frame_until_quit sample_update None (Some sample_handler)
              (take 1 sample_frames) [] (fresh_process true) sample_engine
              eq_refl eq_refl ltac:(discriminate) Hq) as (log & Hrun & Hu & _).
  exists log. split; [exact Hrun|exact Hu].
Defined.

(** X13: With [fps] at zero the first iteration of a running loop handles its
    events, updates, clears, draws and presents, and then divides by
    zero. *)
Theorem zero_fps_divides_by_zero {G : Type} (update : G -> G)
    (draw : option (G -> G)) (event_handler : option (SDL_Event -> G -> G))
    (f : frame) (rest : list frame) (game : G) (w : world) (eng : Engine) :
  _engine w = Some eng -> isRunning eng = true -> fps eng = 0 ->
  engine_run update draw event_handler (f :: rest) game w
  = Returns (frame_effect update draw event_handler (pending f) game,
             match event_handler with
             | Some _ => map Handled (forwarded (pending f))
             | None => []
             end ++ frame_actions draw,
             DividedByZero)
      (set_engine (Some (if has_quit (pending f) then stop eng else eng)) w).
Proof.
  intros Heng Hrun Hfps.
  rewrite (engine_run_initialized _ _ _ _ _ _ _ Heng).
  cbn [frame_loop]. rewrite Hrun, poll_events_forwards.
  unfold finish_frame, frame_effect, frame_actions.
  replace (fps (if has_quit (pending f) then stop eng else eng)) with 0
    by (by destruct (has_quit (pending f))).
  cbn [Z.eqb app]. by rewrite <- !app_assoc.
Qed.

Lemma zero_fps_divides_by_zero_witness :
  _engine (set_engine (Some stalled_engine) (fresh_process true)) = Some stalled_engine
  /\ isRunning stalled_engine = true /\ fps stalled_engine = 0
  /\ engine_run sample_update None (Some sample_handler) sample_frames []
       (set_engine (Some stalled_engine) (fresh_process true))
     = Returns ([768; -1], [Handled (key_event 97); Updated; Cleared; Presented],
                DividedByZero)
         (set_engine (Some stalled_engine) (fresh_process true)).
Proof.
  split; [reflexivity|]. split; [reflexivity|]. split; [reflexivity|].
  exact (zero_fps_divides_by_zero sample_update None (Some sample_handler)
           {| pending := [key_event 97]; ticks_start := 0; ticks_end := 5 |}
           (drop 1 sample_frames) [] (set_engine (Some stalled_engine) (fresh_process true))
           stalled_engine eq_refl eq_refl eq_refl).
Defined.

(** ** What the loops leave alone *)

Lemma free_touches m p m' :
  free m p = Done m' ->
  (forall a, Some a <> p -> blocks m' !! a = blocks m !! a)
  /\ checked m' = checked m /\ limit m' = limit m.
Proof.
  destruct p as [l|]; cbn [free]; [|by intros [= ->]].
  destruct (blocks m !! l) as [bk|] eqn:E; [|done].
  destruct (released bk); [done|]. intros [= <-]. split; [|done].
  intros a Hne. simpl. rewrite lookup_insert_ne; congruence.
Qed.

Lemma store_next_touches m p q m' :
  store_next m p q = Done m' ->
  (forall a, Some a <> p -> blocks m' !! a = blocks m !! a)
  /\ checked m' = checked m /\ limit m' = limit m.
Proof.
  unfold store_next, load_node, rbind, load, store.
  destruct p as [l|]; [|done].
  destruct (blocks m !! l) as [bk|] eqn:E; [|done].
  destruct (accessible m bk); [|done].
  destruct (contents bk); try done. intros [= <-]. split; [|done].
  intros a Hne. simpl. rewrite lookup_insert_ne; congruence.
Qed.

Lemma unlink_node_touches m head current prev n m' h' :
  unlink_node m head current prev n = Done (m', h') ->
  (forall a, Some a <> current -> Some a <> prev -> Some a <> payload n ->
             Some a <> name n -> blocks m' !! a = blocks m !! a)
  /\ checked m' = checked m /\ limit m' = limit m.
Proof.
  unfold unlink_node. intros H.
  assert (Hst : exists m0 h0,
    match prev with
    | NULL => Done (m, next n)
    | Some _ => (m'0 <- store_next m prev (next n) ; Done (m'0, head))%result
    end = Done (m0, h0)
    /\ (forall a, Some a <> prev -> blocks m0 !! a = blocks m !! a)
    /\ checked m0 = checked m /\ limit m0 = limit m).
  { destruct prev as [p|].
    - destruct (store_next m (Some p) (next n)) as [m0| |] eqn:Es; try done.
      exists m0, head. split; [done|]. by apply store_next_touches in Es.
    - by exists m, (next n). }
  destruct Hst as (m0 & h0 & Hst & Ht0 & Hc0 & Hl0). rewrite Hst in H.
  cbn [rbind fst snd] in H.
  destruct (free m0 (payload n)) as [m1| |] eqn:E1; try done. cbn [rbind] in H.
  destruct (free m1 (name n)) as [m2| |] eqn:E2; try done. cbn [rbind] in H.
  destruct (free m2 current) as [m3| |] eqn:E3; try done. cbn [rbind] in H.
  injection H as <- <-.
  apply free_touches in E1 as (Ht1 & Hc1 & Hl1).
  apply free_touches in E2 as (Ht2 & Hc2 & Hl2).
  apply free_touches in E3 as (Ht3 & Hc3 & Hl3).
  split; [|split; congruence].
  intros a Ha1 Ha2 Ha3 Ha4.
  rewrite Ht3, Ht2, Ht1, Ht0 by done. done.
Qed.

Lemma unlink_first_touches test m head (touched : list loc) l :
  forall fuel prev m' h',
  segment m l NULL -> (forall a, a ∈ addresses l -> a ∈ touched) ->
  (forall p, prev = Some p -> p ∈ touched) ->
  unlink_first fuel test m head (first_or l NULL) prev = Done (m', h') ->
  forall a, a ∉ touched -> blocks m' !! a = blocks m !! a.
Proof.
  induction l as [|e l IH]; intros fuel prev m' h' Hseg Hin Hprev Hrun a Ha;
    (destruct fuel as [|fuel]; [done|]).
  - cbn [unlink_first first_or] in Hrun. by injection Hrun as <- <-.
  - cbn [segment] in Hseg. destruct Hseg as (Hn & Hs & Hp & Hl).
    cbn [unlink_first first_or] in Hrun.
    rewrite (load_node_live _ _ _ Hn) in Hrun. cbn [rbind] in Hrun.
    destruct (test m (node_of e (first_or l NULL))) as [hit| |]; try done.
    cbn [rbind] in Hrun. destruct hit.
    + apply unlink_node_touches in Hrun as [Ht _]. apply Ht.
      * intros [= ->]. apply Ha, Hin. rewrite addresses_cons. in_list.
      * intros E. apply Ha. by apply Hprev.
      * cbn. intros [= ->]. apply Ha, Hin. rewrite addresses_cons. in_list.
      * cbn. intros [= ->]. apply Ha, Hin. rewrite addresses_cons. in_list.
    + cbn [node_of next] in Hrun.
      eapply (IH fuel (Some (e_node e))); try done.
      * intros a0 Ha0. apply Hin. rewrite addresses_cons. by do 3 apply list_elem_of_further.
      * intros p [= <-]. apply Hin. rewrite addresses_cons. in_list.
Qed.

Lemma registry_frame m m' head l :
  (forall a, a ∈ addresses l -> blocks m' !! a = blocks m !! a) ->
  registry m head l -> registry m' head l.
Proof.
  intros Hsame (Hh & Hseg & Hnd). split; [done|]. split; [|done].
  by eapply segment_frame.
Qed.

Lemma registry_only_touches m m' head l touched :
  only_touches touched m m' -> (forall a, a ∈ addresses l -> a ∉ touched) ->
  registry m head l -> registry m' head l.
Proof.
  intros Ht Hdisj Hreg. eapply registry_frame; [|done].
  intros a Ha. destruct Hreg as (_ & Hseg & _).
  destruct (segment_addresses _ _ _ _ Hseg Ha) as [bk Hbk].
  rewrite Hbk. apply Ht; [done|]. by apply Hdisj.
Qed.

(** The heap part of the three removals that stop at the first match, with
    what they leave alone. *)
Lemma unlink_first_registry_frame test f m head l :
  registry m head l -> tests_as test m f l ->
  exists m',
    unlink_first (enough_fuel m) test m head head NULL
    = Done (m', first_or (without_first f l) NULL)
    /\ registry m' (first_or (without_first f l) NULL) (without_first f l)
    /\ (first_such f l = None -> m' = m)
    /\ (forall e, first_such f l = Some e -> entry_gone m' e)
    /\ checked m' = checked m /\ limit m' = limit m
    /\ (forall a, a ∉ addresses l -> blocks m' !! a = blocks m !! a).
Proof.
  intros Hreg Htest.
  destruct (unlink_first_registry test f m head l Hreg Htest)
    as (m' & Hrun & Hreg' & Hnone & Hgone & Hc & Hl).
  exists m'. repeat (split; [done|]).
  destruct Hreg as (Hh & Hseg & _). subst head.
  intros a Ha.
  by eapply (unlink_first_touches test m _ (addresses l) l (enough_fuel m) NULL m' _ Hseg).
Qed.

(** The loop of [destroy_all_objects], [destroy_all_templates] and
    [close_all_fonts] on a registry: every block of every entry is given
    back, and nothing else changes. *)
Lemma free_all_segment m l :
  forall fuel,
  segment m l NULL -> NoDup (addresses l) -> (length l < fuel)%nat ->
  exists m',
    free_all fuel m (first_or l NULL) = Done m'
    /\ Forall (entry_gone m') l
    /\ (forall a, a ∉ addresses l -> blocks m' !! a = blocks m !! a)
    /\ checked m' = checked m /\ limit m' = limit m.
Proof.
  revert m. induction l as [|e l IH]; intros m fuel Hseg Hnd Hfuel;
    (destruct fuel as [|fuel]; [simpl in Hfuel; lia|]).
  - exists m. by repeat split.
  - cbn [segment] in Hseg. destruct Hseg as (Hn & Hs & Hp & Hl).
    destruct (NoDup_addresses_mid [] e l Hnd) as (Hnde & Hdisj & Hndl).
    cbn [app] in Hdisj.
    cbn [free_all first_or]. rewrite (load_node_live _ _ _ Hn). cbn [rbind node_of payload name next].
    pose proof (free_entry m e (first_or l NULL) Hn Hs Hp Hnde) as Hfree.
    destruct (free m (Some (e_payload e))) as [m1| |]; try done. cbn [rbind] in Hfree |- *.
    destruct (free m1 (Some (e_name_ptr e))) as [m2| |]; try done. cbn [rbind] in Hfree |- *.
    rewrite Hfree. cbn [rbind].
    destruct (IH (release_entry e (first_or l NULL) m) fuel) as (m' & Hrun & Hgone & Ht & Hc & Hlim).
    { by apply segment_release_entry. }
    { done. }
    { simpl in Hfuel. lia. }
    exists m'. split; [done|]. split; [|split; [|split]].
    + constructor; [|done].
      pose proof (release_entry_gone m e (first_or l NULL) Hnde) as (G1 & G2 & G3).
      unfold entry_gone, gone.
      rewrite !Ht by (apply Hdisj; in_list). done.
    + intros a Ha. rewrite addresses_cons in Ha.
      rewrite Ht by (intros Hin; apply Ha; by do 3 apply list_elem_of_further).
      unfold release_entry, mark_released. simpl.
      rewrite !lookup_insert_ne; [done|..]; intros <-; apply Ha; in_list.
    + by rewrite Hc.
    + by rewrite Hlim.
Qed.

Lemma free_all_registry m head l :
  registry m head l ->
  exists m',
    free_all (enough_fuel m) m head = Done m'
    /\ Forall (entry_gone m') l
    /\ (forall a, a ∉ addresses l -> blocks m' !! a = blocks m !! a)
    /\ checked m' = checked m /\ limit m' = limit m.
Proof.
  intros (-> & Hseg & Hnd). apply free_all_segment; [done..|].
  pose proof (segment_length _ _ _ Hseg Hnd). unfold enough_fuel. lia.
Qed.

(** ** The object, template and font registries side by side *)

Lemma NoDup_addresses_three l1 l2 l3 :
  NoDup (addresses (l1 ++ l2 ++ l3))
  <-> NoDup (addresses l1) /\ NoDup (addresses l2) /\ NoDup (addresses l3)
      /\ (forall a, a ∈ addresses l1 -> a ∉ addresses l2)
      /\ (forall a, a ∈ addresses l1 -> a ∉ addresses l3)
      /\ (forall a, a ∈ addresses l2 -> a ∉ addresses l3).
Proof.
  rewrite !addresses_app, !NoDup_app. split.
  - intros (H1 & Hd & H2 & Hd' & H3). repeat split; try done.
    + intros a Ha Ha2. apply (Hd a Ha). apply elem_of_app. by left.
    + intros a Ha Ha3. apply (Hd a Ha). apply elem_of_app. by right.
  - intros (H1 & H2 & H3 & D12 & D13 & D23). repeat split; try done.
    intros a Ha [Hin|Hin]%elem_of_app; [by apply (D12 a)|by apply (D13 a)].
Qed.

Lemma well_formed_intro w lo lt lf :
  object_registry w lo -> template_registry w lt -> font_registry w lf ->
  (forall a, a ∈ addresses lo -> a ∉ addresses lt) ->
  (forall a, a ∈ addresses lo -> a ∉ addresses lf) ->
  (forall a, a ∈ addresses lt -> a ∉ addresses lf) ->
  ids_in_order (_object_id w) lo ->
  well_formed w lo lt lf.
Proof.
  intros Ho Ht Hf D1 D2 D3 Hids. repeat split; try done; try apply Ho; try apply Ht;
    try apply Hf; try apply Hids.
  apply NoDup_addresses_three. repeat split; try done.
  - apply Ho. - apply Ht. - apply Hf.
Qed.

Lemma well_formed_disjoint w lo lt lf :
  well_formed w lo lt lf ->
  (forall a, a ∈ addresses lo -> a ∉ addresses lt)
  /\ (forall a, a ∈ addresses lo -> a ∉ addresses lf)
  /\ (forall a, a ∈ addresses lt -> a ∉ addresses lf).
Proof.
  intros (_ & _ & _ & Hnd & _). apply NoDup_addresses_three in Hnd. tauto.
Qed.

(** The blocks of a changed registry are blocks it had or new ones, so
    they are still not blocks of another registry. *)
Lemma changed_stays_apart m l l' lx head :
  (forall a, a ∈ addresses l' -> a ∈ addresses l \/ blocks m !! a = None) ->
  (forall a, a ∈ addresses l -> a ∉ addresses lx) ->
  registry m head lx ->
  forall a, a ∈ addresses l' -> a ∉ addresses lx.
Proof.
  intros Hfrom Hdisj (_ & Hseg & _) a Ha Hx.
  destruct (Hfrom a Ha) as [Hin|Hnone]; [by apply (Hdisj a)|].
  destruct (segment_addresses _ _ _ _ Hseg Hx) as [bk Hbk]. congruence.
Qed.

Lemma addresses_without_first f l a :
  a ∈ addresses (without_first f l) -> a ∈ addresses l.
Proof.
  induction l as [|e l IH]; cbn [without_first]; [done|].
  rewrite (addresses_cons e l). destruct (f e).
  - intros Hin. by do 3 apply list_elem_of_further.
  - rewrite addresses_cons, !elem_of_cons. intros [->|[->|[->|Hin]]]; auto.
Qed.

Lemma Forall_without_first (P : entry -> Prop) f l :
  Forall P l -> Forall P (without_first f l).
Proof.
  induction 1 as [|e l He Hl IH]; cbn [without_first]; [done|].
  destruct (f e); [done|]. by constructor.
Qed.

Lemma ids_in_order_without_first bound f l :
  ids_in_order bound l -> ids_in_order bound (without_first f l).
Proof.
  intros [Hs Hb]. split; [|by apply Forall_without_first].
  induction Hs as [|e l Hs IH He]; cbn [without_first]; [constructor|].
  destruct (f e); [done|]. apply Forall_cons in Hb as [_ Hb].
  constructor; [by apply IH|]. by apply Forall_without_first.
Qed.

Lemma ids_in_order_snoc bound l e :
  ids_in_order bound l -> entry_id e = bound -> 0 <= bound ->
  ids_in_order (bound + 1) (l ++ [e]).
Proof.
  intros [Hs Hb] He Hpos. split.
  - clear Hpos. induction Hs as [|e0 l Hs IH He0]; cbn [app].
    + constructor; constructor.
    + apply Forall_cons in Hb as [Hb0 Hb]. constructor; [by apply IH|].
      apply Forall_app. split; [done|]. constructor; [|done]. lia.
  - apply Forall_app. split.
    + eapply Forall_impl; [exact Hb|]. cbn. intros e0 He0. lia.
    + constructor; [|done]. lia.
Qed.

Lemma ids_in_order_objects bound l : ids_in_order bound l -> Forall holds_object l.
Proof.
  intros [_ Hb]. eapply Forall_impl; [exact Hb|]. cbn. intros e He.
  unfold entry_id in He. unfold holds_object.
  destruct (e_value e); try lia. by eexists.
Qed.

(** With identifiers in order, at most one entry has a given identifier:
    none is left once the first is taken out. *)
Lemma ids_in_order_unique bound key l :
  ids_in_order bound l ->
  Forall (fun e => has_id key e = false) (without_first (has_id key) l).
Proof.
  intros [Hs Hb].
  induction Hs as [|e l Hs IH He]; cbn [without_first]; [constructor|].
  apply Forall_cons in Hb as [Hb0 Hb].
  destruct (has_id key e) eqn:Hk.
  - eapply Forall_impl; [apply Forall_and; split; [exact He|exact Hb]|].
    cbn. intros e0 [Hlt _]. unfold has_id, entry_id in *.
    destruct (e_value e); try done. destruct (e_value e0); try done.
    apply Z.eqb_eq in Hk. apply Z.eqb_neq. lia.
  - constructor; [done|]. by apply IH.
Qed.

Section OneRegistry.
Variable head : world -> ptr.
Variable set_head : ptr -> world -> world.

(** A removal that stops at the first match, on the registry that hangs
    off [head]. *)
Lemma remove_first_frame test f w l :
  registry (mem w) (head w) l -> tests_as test (mem w) f l ->
  exists m',
    remove_from head set_head unlink_first test w
    = Returns tt (set_head (first_or (without_first f l) NULL) (set_mem m' w))
    /\ registry m' (first_or (without_first f l) NULL) (without_first f l)
    /\ (first_such f l = None -> m' = mem w /\ first_or (without_first f l) NULL = head w)
    /\ (forall e, first_such f l = Some e -> entry_gone m' e)
    /\ checked m' = checked (mem w) /\ limit m' = limit (mem w)
    /\ (forall a, a ∉ addresses l -> blocks m' !! a = blocks (mem w) !! a).
Proof.
  intros Hreg Htest.
  destruct (unlink_first_registry_frame test f _ _ _ Hreg Htest)
    as (m' & Hrun & Hreg' & Hnone & Hgone & Hc & Hl & Ht).
  exists m'. unfold remove_from. rewrite Hrun.
  split; [done|]. split; [done|]. split; [|done].
  intros Hn. split; [by apply Hnone|].
  destruct (first_such_none _ _ Hn) as [_ ->]. symmetry. apply Hreg.
Qed.

End OneRegistry.

Lemma malloc_inv m c l m' :
  malloc m c = Some (l, m') ->
  blocks m !! l = None
  /\ m' = set_blocks (<[l := {| contents := c; released := false |}]> (blocks m)) m
  /\ can_allocate m 1.
Proof.
  unfold malloc, can_allocate. destruct (decide _) as [Hlt|]; [|done].
  intros [= <- <-]. split; [apply not_elem_of_dom, is_fresh|]. split; [done|lia].
Qed.

Lemma only_touches_trans touched m1 m2 m3 :
  only_touches touched m1 m2 -> only_touches touched m2 m3 -> only_touches touched m1 m3.
Proof. intros H1 H2 a bk Hbk Ha. apply H2; [|done]. by apply H1. Qed.

Lemma only_touches_fresh touched m l bk :
  blocks m !! l = None ->
  only_touches touched m (set_blocks (<[l := bk]> (blocks m)) m).
Proof.
  intros Hf a bk0 Hbk _. simpl. rewrite lookup_insert_ne; [done|]. congruence.
Qed.

Lemma nodes_in_addresses l a : a ∈ e_node <$> l -> a ∈ addresses l.
Proof.
  intros (e & -> & Hin)%list_elem_of_fmap. by apply node_in_addresses.
Qed.

Section OneRegistryPayload.
Variable head : world -> ptr.
Variable set_head : ptr -> world -> world.

(** The payload is allocated, then the name copy and the node, and the
    node is linked in last: the pattern of [create_object],
    [create_object_template] and [load_font].  [w0] is the process after
    the payload was allocated. *)
Lemma add_payload_registry no_name no_item room c key w l n :
  registry (mem w) (head w) l ->
  can_allocate (mem w) (3 + n) -> (String.length key + 1 <= room)%nat ->
  exists p m0 m' e,
    malloc (mem w) c = Some (p, m0)
    /\ (forall w0, mem w0 = m0 -> head w0 = head w ->
          add_to_list head set_head no_name no_item room (Some p) key w0
          = Returns tt (match head w with
                        | NULL => set_head (Some (e_node e)) (set_mem m' w0)
                        | Some _ => set_mem m' w0
                        end))
    /\ registry m' (first_or l (Some (e_node e))) (l ++ [e])
    /\ e_payload e = p /\ e_value e = c /\ e_name e = key
    /\ (forall a, a ∈ addresses [e] -> blocks (mem w) !! a = None)
    /\ live m' p c
    /\ only_touches (e_node <$> l) (mem w) m'
    /\ can_allocate m' n
    /\ checked m' = checked (mem w) /\ limit m' = limit (mem w).
Proof.
  intros Hreg Hcap Hroom.
  destruct (malloc_fresh (mem w) c _ Hcap) as (p & Hm0 & Hfp & Hcap0).
  set (m0 := set_blocks _ (mem w)) in *.
  assert (Hreg0 : registry m0 (head w) l) by (by apply registry_fresh_block).
  assert (Hlive0 : live m0 p c) by (unfold live, m0; simpl; apply lookup_insert_eq).
  assert (Hni0 : p ∉ addresses l).
  { destruct Hreg as (_ & Hseg & _). by eapply fresh_not_address. }
  assert (Hback : forall a, blocks m0 !! a = None -> blocks (mem w) !! a = None).
  { intros a Ha. unfold m0 in Ha. simpl in Ha. by apply lookup_insert_None in Ha as [? _]. }
  destruct (add_node_registry m0 (head w) l p c key n Hreg0 Hlive0 Hni0 Hcap0)
    as (a1 & m1 & a2 & m2 & m3 & Hm1 & Hm2 & Hnull & Hwalk & Hreg3 & Hcap3 & Hc & Hl & Ht).
  destruct (malloc_inv _ _ _ _ Hm1) as (Hf1 & Hm1' & _).
  destruct (malloc_inv _ _ _ _ Hm2) as (Hf2 & _ & _).
  assert (Hf2' : blocks m0 !! a2 = None).
  { rewrite Hm1' in Hf2. simpl in Hf2. by apply lookup_insert_None in Hf2 as [? _]. }
  exists p, m0, m3, {| e_node := a2; e_payload := p; e_value := c; e_name_ptr := a1;
                       e_name := key |}.
  cbn [e_node e_payload e_value e_name e_name_ptr].
  split; [done|]. split.
  { intros w0 Hmem Hhead. unfold add_to_list. rewrite Hmem, Hm1.
    replace (room <? String.length key + 1)%nat with false
      by (symmetry; apply Nat.ltb_ge; lia).
    rewrite Hm2, Hhead. destruct (head w) as [h|] eqn:Hh.
    - by rewrite Hwalk.
    - by rewrite (Hnull eq_refl). }
  split; [done|]. do 3 (split; [done|]).
  split.
  { intros a. cbn. rewrite !elem_of_cons, elem_of_nil.
    intros [->|[->|[->|[]]]]; auto. }
  split.
  { destruct Hreg3 as (_ & Hseg3 & _). apply segment_app in Hseg3 as [_ Hlast].
    cbn [segment] in Hlast. apply Hlast. }
  split.
  { eapply only_touches_trans; [by apply only_touches_fresh|]. exact Ht. }
  split; [done|]. split; [by rewrite Hc|by rewrite Hl].
Qed.
End OneRegistryPayload.

Lemma first_or_after_add l (h : ptr) a :
  h = first_or l NULL ->
  match h with NULL => Some a | Some _ => h end = first_or l (Some a).
Proof. intros ->. by destruct l. Qed.

Lemma apart_sym (l1 l2 : list entry) :
  (forall a, a ∈ addresses l1 -> a ∉ addresses l2) ->
  forall a, a ∈ addresses l2 -> a ∉ addresses l1.
Proof. intros H a H2 H1. by apply (H a). Qed.

Lemma appended_from m l e :
  (forall a, a ∈ addresses [e] -> blocks m !! a = None) ->
  forall a, a ∈ addresses (l ++ [e]) -> a ∈ addresses l \/ blocks m !! a = None.
Proof.
  intros Hf a. rewrite addresses_app. intros [Hin|Hin]%elem_of_app; [by left|].
  right. by apply Hf.
Qed.

Lemma nodes_apart (l lx : list entry) :
  (forall a, a ∈ addresses l -> a ∉ addresses lx) ->
  forall a, a ∈ addresses lx -> a ∉ e_node <$> l.
Proof. intros H a Hx Hn. apply (H a); [|done]. by apply nodes_in_addresses. Qed.

(** ** Objects and the other registries *)

Lemma create_object_well_formed w lo lt lf key tex ox oy ow oh hb dat n :
  engine_initialized w -> well_formed w lo lt lf ->
  can_allocate (mem w) (3 + n) -> 0 <= _object_id w < INT_MAX ->
  exists p w' e,
    create_object key tex ox oy ow oh hb dat w = Returns (Some p) w'
    /\ well_formed w' (lo ++ [e]) lt lf
    /\ e_name e = key /\ e_payload e = p
    /\ e_value e = CObject {| id := _object_id w; texture := tex; x := ox; y := oy;
                              width := ow; height := oh; hitbox := hb; data := dat |}
    /\ blocks (mem w) !! p = None
    /\ _engine w' = _engine w /\ _object_id w' = _object_id w + 1
    /\ checked (mem w') = checked (mem w) /\ limit (mem w') = limit (mem w)
    /\ can_allocate (mem w') n
    /\ only_touches (e_node <$> lo) (mem w) (mem w')
    /\ stderr w' = stderr w.
Proof.
  intros Hinit Hwf Hcap Hid.
  destruct (well_formed_disjoint _ _ _ _ Hwf) as (D1 & D2 & D3).
  destruct Hwf as ([Hreg Hobj] & Ht & Hf & _ & Hids).
  set (o := {| id := _object_id w; texture := tex; x := ox; y := oy; width := ow;
               height := oh; hitbox := hb; data := dat |}).
  destruct (add_payload_registry _object_list set_object_list
              "[ENGINE] Failed to allocate memory for object name\n"
              "[ENGINE] Failed to allocate memory for object list item\n"
              (String.length key + 1) (CObject o) key w lo n Hreg Hcap ltac:(lia))
    as (p & m0 & m' & e & Hm0 & Hadd & Hreg' & Hp & Hv & Hk & Hfresh & Hlive & Htouch
        & Hcap' & Hc & Hl).
  unfold create_object, bind. rewrite (assert_initialized _ Hinit). fold o. rewrite Hm0.
  unfold _add_object_to_list.
  rewrite (Hadd (set_object_id (int_add (_object_id w) 1) (set_mem m0 w)) eq_refl eq_refl).
  unfold ret.
  set (w' := match _object_list w with
             | NULL => set_object_list (Some (e_node e)) _
             | Some _ => _
             end).
  assert (Hmem : mem w' = m') by (unfold w'; by destruct (_object_list w)).
  assert (Hhead : _object_list w' = first_or lo (Some (e_node e))).
  { rewrite <- (first_or_after_add lo (_object_list w)) by apply Hreg.
    unfold w'. by destruct (_object_list w) eqn:Hh. }
  assert (Htl : _object_template_list w' = _object_template_list w)
    by (unfold w'; by destruct (_object_list w)).
  assert (Hfl : _font w' = _font w) by (unfold w'; by destruct (_object_list w)).
  assert (Hcount : _object_id w' = _object_id w + 1).
  { transitivity (int_add (_object_id w) 1); [unfold w'; by destruct (_object_list w)|].
    apply wrap_int_in_range. unfold in_int, INT_MIN, INT_MAX in *. lia. }
  assert (Heng : _engine w' = _engine w) by (unfold w'; by destruct (_object_list w)).
  assert (Herr : stderr w' = stderr w) by (unfold w'; by destruct (_object_list w)).
  exists p, w', e. split; [done|].
  destruct (malloc_inv _ _ _ _ Hm0) as (Hfp & _ & _).
  split; [|rewrite Hmem; by repeat (split; [done|])].
  assert (Hin : forall a, a ∈ addresses (lo ++ [e]) ->
                  a ∈ addresses lo \/ blocks (mem w) !! a = None)
    by (by apply appended_from).
  assert (Hids' : ids_in_order (_object_id w') (lo ++ [e])).
  { rewrite Hcount. apply ids_in_order_snoc; [done| |lia].
    unfold entry_id. by rewrite Hv. }
  apply well_formed_intro; try done.
  - split; [by rewrite Hmem, Hhead|]. by eapply ids_in_order_objects.
  - unfold template_registry. rewrite Hmem, Htl.
    eapply registry_only_touches; [exact Htouch| |exact Ht]. by apply nodes_apart.
  - unfold font_registry. rewrite Hmem, Hfl.
    eapply registry_only_touches; [exact Htouch| |exact Hf]. by apply nodes_apart.
  - by eapply changed_stays_apart.
  - by eapply changed_stays_apart.
Qed.

Lemma create_object_template_well_formed w lo lt lf key tex tw th hb n :
  engine_initialized w -> well_formed w lo lt lf -> can_allocate (mem w) (3 + n) ->
  exists p w' e,
    create_object_template key tex tw th hb w = Returns (Some p) w'
    /\ well_formed w' lo (lt ++ [e]) lf
    /\ e_name e = key /\ e_payload e = p
    /\ e_value e = CTemplate {| tpl_texture := tex; tpl_width := tw; tpl_height := th;
                                tpl_hitbox := hb |}
    /\ blocks (mem w) !! p = None
    /\ _engine w' = _engine w /\ _object_id w' = _object_id w
    /\ checked (mem w') = checked (mem w) /\ limit (mem w') = limit (mem w)
    /\ can_allocate (mem w') n
    /\ only_touches (e_node <$> lt) (mem w) (mem w')
    /\ stderr w' = stderr w.
Proof.
  intros Hinit Hwf Hcap.
  destruct (well_formed_disjoint _ _ _ _ Hwf) as (D1 & D2 & D3).
  destruct Hwf as ([Hreg Hobj] & Ht & Hf & _ & Hids).
  set (t := {| tpl_texture := tex; tpl_width := tw; tpl_height := th;
               tpl_hitbox := hb |}).
  destruct (add_payload_registry _object_template_list set_object_template_list
              "[ENGINE] Failed to allocate memory for object template name\n"
              "[ENGINE] Failed to allocate memory for object template list item\n"
              (String.length key + 1) (CTemplate t) key w lt n Ht Hcap ltac:(lia))
    as (p & m0 & m' & e & Hm0 & Hadd & Hreg' & Hp & Hv & Hk & Hfresh & Hlive & Htouch
        & Hcap' & Hc & Hl).
  unfold create_object_template, bind. rewrite (assert_initialized _ Hinit). fold t.
  rewrite Hm0. unfold _add_object_template_to_list.
  rewrite (Hadd (set_mem m0 w) eq_refl eq_refl). unfold ret.
  set (w' := match _object_template_list w with
             | NULL => set_object_template_list (Some (e_node e)) _
             | Some _ => _
             end).
  assert (Hmem : mem w' = m') by (unfold w'; by destruct (_object_template_list w)).
  assert (Hhead : _object_template_list w' = first_or lt (Some (e_node e))).
  { rewrite <- (first_or_after_add lt (_object_template_list w)) by apply Ht.
    unfold w'. by destruct (_object_template_list w) eqn:Hh. }
  assert (Hol : _object_list w' = _object_list w)
    by (unfold w'; by destruct (_object_template_list w)).
  assert (Hfl : _font w' = _font w) by (unfold w'; by destruct (_object_template_list w)).
  assert (Hcount : _object_id w' = _object_id w)
    by (unfold w'; by destruct (_object_template_list w)).
  assert (Heng : _engine w' = _engine w)
    by (unfold w'; by destruct (_object_template_list w)).
  assert (Herr : stderr w' = stderr w)
    by (unfold w'; by destruct (_object_template_list w)).
  destruct (malloc_inv _ _ _ _ Hm0) as (Hfp & _ & _).
  exists p, w', e. split; [done|].
  split; [|rewrite Hmem; by repeat (split; [done|])].
  assert (Hin : forall a, a ∈ addresses (lt ++ [e]) ->
                  a ∈ addresses lt \/ blocks (mem w) !! a = None)
    by (by apply appended_from).
  apply well_formed_intro; try done.
  - split; [|done]. rewrite Hmem, Hol.
    eapply registry_only_touches; [exact Htouch| |exact Hreg].
    apply nodes_apart. by apply apart_sym.
  - unfold template_registry. by rewrite Hmem, Hhead.
  - unfold font_registry. rewrite Hmem, Hfl.
    eapply registry_only_touches; [exact Htouch| |exact Hf]. by apply nodes_apart.
  - apply apart_sym. eapply changed_stays_apart; [exact Hin| |exact Hreg].
    by apply apart_sym.
  - by eapply changed_stays_apart.
  - by rewrite Hcount.
Qed.

Lemma load_font_well_formed w lo lt lf filename size key n :
  engine_initialized w -> well_formed w lo lt lf -> can_allocate (mem w) (3 + n) ->
  filename ∈ font_files w -> (String.length key <= String.length filename)%nat ->
  exists w' e,
    load_font filename size key w = Returns tt w'
    /\ well_formed w' lo lt (lf ++ [e])
    /\ e_name e = key /\ e_value e = CForeign
    /\ blocks (mem w) !! e_payload e = None
    /\ _engine w' = _engine w /\ _object_id w' = _object_id w
    /\ checked (mem w') = checked (mem w) /\ limit (mem w') = limit (mem w)
    /\ can_allocate (mem w') n
    /\ only_touches (e_node <$> lf) (mem w) (mem w')
    /\ stderr w' = stderr w.
Proof.
  intros Hinit Hwf Hcap Hfile Hlen.
  destruct (well_formed_disjoint _ _ _ _ Hwf) as (D1 & D2 & D3).
  destruct Hwf as ([Hreg Hobj] & Ht & Hf & _ & Hids).
  destruct (add_payload_registry _font set_font
              "[ENGINE] Failed to allocate memory for font filename\n"
              "[ENGINE] Failed to allocate memory for font\n"
              (String.length filename + 1) CForeign key w lf n Hf Hcap ltac:(lia))
    as (p & m0 & m' & e & Hm0 & Hadd & Hreg' & Hp & Hv & Hk & Hfresh & Hlive & Htouch
        & Hcap' & Hc & Hl).
  unfold load_font, bind. rewrite (assert_initialized _ Hinit).
  rewrite bool_decide_eq_true_2 by done. rewrite Hm0.
  rewrite (Hadd (set_mem m0 w) eq_refl eq_refl).
  set (w' := match _font w with
             | NULL => set_font (Some (e_node e)) _
             | Some _ => _
             end).
  assert (Hmem : mem w' = m') by (unfold w'; by destruct (_font w)).
  assert (Hhead : _font w' = first_or lf (Some (e_node e))).
  { rewrite <- (first_or_after_add lf (_font w)) by apply Hf.
    unfold w'. by destruct (_font w) eqn:Hh. }
  assert (Hol : _object_list w' = _object_list w) by (unfold w'; by destruct (_font w)).
  assert (Htl : _object_template_list w' = _object_template_list w)
    by (unfold w'; by destruct (_font w)).
  assert (Hcount : _object_id w' = _object_id w) by (unfold w'; by destruct (_font w)).
  assert (Heng : _engine w' = _engine w) by (unfold w'; by destruct (_font w)).
  assert (Herr : stderr w' = stderr w) by (unfold w'; by destruct (_font w)).
  destruct (malloc_inv _ _ _ _ Hm0) as (Hfp & _ & _).
  exists w', e. split; [done|].
  split; [|rewrite Hmem, Hp; by repeat (split; [done|])].
  assert (Hin : forall a, a ∈ addresses (lf ++ [e]) ->
                  a ∈ addresses lf \/ blocks (mem w) !! a = None)
    by (by apply appended_from).
  apply well_formed_intro; try done.
  - split; [|done]. rewrite Hmem, Hol.
    eapply registry_only_touches; [exact Htouch| |exact Hreg].
    apply nodes_apart. by apply apart_sym.
  - unfold template_registry. rewrite Hmem, Htl.
    eapply registry_only_touches; [exact Htouch| |exact Ht].
    apply nodes_apart. by apply apart_sym.
  - unfold font_registry. by rewrite Hmem, Hhead.
  - apply apart_sym. eapply changed_stays_apart; [exact Hin| |exact Hreg].
    by apply apart_sym.
  - apply apart_sym. eapply changed_stays_apart; [exact Hin| |exact Ht].
    by apply apart_sym.
  - by rewrite Hcount.
Qed.

Lemma registry_nil m : registry m NULL [].
Proof. split; [done|]. split; [done|]. apply NoDup_nil_2. Qed.

Lemma set_object_template_list_same w :
  set_object_template_list (_object_template_list w) w = w.
Proof. by destruct w. Qed.

Lemma destroy_object_by_id_well_formed w lo lt lf key :
  engine_initialized w -> well_formed w lo lt lf ->
  exists w',
    destroy_object_by_id key w = Returns tt w'
    /\ well_formed w' (without_first (has_id key) lo) lt lf
    /\ (first_such (has_id key) lo = None -> w' = w)
    /\ (forall e, first_such (has_id key) lo = Some e -> entry_gone (mem w') e)
    /\ _engine w' = _engine w /\ _object_id w' = _object_id w
    /\ checked (mem w') = checked (mem w) /\ limit (mem w') = limit (mem w)
    /\ (forall a, a ∉ addresses lo -> blocks (mem w') !! a = blocks (mem w) !! a)
    /\ stderr w' = stderr w.
Proof.
  intros Hinit Hwf.
  destruct (well_formed_disjoint _ _ _ _ Hwf) as (D1 & D2 & D3).
  destruct Hwf as ([Hreg Hobj] & Ht & Hf & _ & Hids).
  destruct (remove_first_frame _object_list set_object_list (object_id_is key)
              (has_id key) w lo Hreg)
    as (m' & Hrun & Hreg' & Hnone & Hgone & Hc & Hl & Htouch).
  { destruct Hreg as (_ & Hseg & _). by eapply object_id_is_tests. }
  unfold destroy_object_by_id, bind. rewrite (assert_initialized _ Hinit), Hrun.
  eexists. split; [reflexivity|]. cbn [mem set_mem set_object_list].
  split; [|split; [|by repeat (split; [done|])]].
  - apply well_formed_intro; try done.
    + split; [done|]. by apply Forall_without_first.
    + eapply registry_frame; [|exact Ht]. intros a Ha. apply Htouch.
      by apply (apart_sym _ _ D1).
    + eapply registry_frame; [|exact Hf]. intros a Ha. apply Htouch.
      by apply (apart_sym _ _ D2).
    + intros a Ha. by apply D1, (addresses_without_first (has_id key)).
    + intros a Ha. by apply D2, (addresses_without_first (has_id key)).
    + by apply ids_in_order_without_first.
  - intros Hn. destruct (Hnone Hn) as [-> ->].
    by rewrite set_mem_same, set_object_list_same.
Qed.

Lemma destroy_object_template_well_formed w lo lt lf key :
  engine_initialized w -> well_formed w lo lt lf ->
  exists w',
    destroy_object_template key w = Returns tt w'
    /\ well_formed w' lo (without_first (named key) lt) lf
    /\ (first_such (named key) lt = None -> w' = w)
    /\ (forall e, first_such (named key) lt = Some e -> entry_gone (mem w') e)
    /\ _engine w' = _engine w /\ _object_id w' = _object_id w
    /\ checked (mem w') = checked (mem w) /\ limit (mem w') = limit (mem w)
    /\ (forall a, a ∉ addresses lt -> blocks (mem w') !! a = blocks (mem w) !! a)
    /\ stderr w' = stderr w.
Proof.
  intros Hinit Hwf.
  destruct (well_formed_disjoint _ _ _ _ Hwf) as (D1 & D2 & D3).
  destruct Hwf as ([Hreg Hobj] & Ht & Hf & _ & Hids).
  destruct (remove_first_frame _object_template_list set_object_template_list
              (name_is key) (named key) w lt Ht)
    as (m' & Hrun & Hreg' & Hnone & Hgone & Hc & Hl & Htouch).
  { destruct Ht as (_ & Hseg & _). by eapply name_is_tests. }
  unfold destroy_object_template, bind. rewrite (assert_initialized _ Hinit), Hrun.
  eexists. split; [reflexivity|]. cbn [mem set_mem set_object_template_list].
  split; [|split; [|by repeat (split; [done|])]].
  - apply well_formed_intro; try done.
    + split; [|done]. eapply registry_frame; [|exact Hreg]. intros a Ha. apply Htouch.
      by apply D1.
    + eapply registry_frame; [|exact Hf]. intros a Ha. apply Htouch.
      by apply (apart_sym _ _ D3).
    + intros a Ha Hin. apply (D1 a Ha). by apply (addresses_without_first (named key)).
    + intros a Ha. by apply D3, (addresses_without_first (named key)).
  - intros Hn. destruct (Hnone Hn) as [-> ->].
    by rewrite set_mem_same, set_object_template_list_same.
Qed.

Lemma close_font_well_formed w lo lt lf key :
  engine_initialized w -> well_formed w lo lt lf ->
  exists w',
    close_font key w = Returns tt w'
    /\ well_formed w' lo lt (without_first (named key) lf)
    /\ (first_such (named key) lf = None -> w' = w)
    /\ (forall e, first_such (named key) lf = Some e -> entry_gone (mem w') e)
    /\ _engine w' = _engine w /\ _object_id w' = _object_id w
    /\ checked (mem w') = checked (mem w) /\ limit (mem w') = limit (mem w)
    /\ (forall a, a ∉ addresses lf -> blocks (mem w') !! a = blocks (mem w) !! a)
    /\ stderr w' = stderr w.
Proof.
  intros Hinit Hwf.
  destruct (well_formed_disjoint _ _ _ _ Hwf) as (D1 & D2 & D3).
  destruct Hwf as ([Hreg Hobj] & Ht & Hf & _ & Hids).
  destruct (remove_first_frame _font set_font (name_is key) (named key) w lf Hf)
    as (m' & Hrun & Hreg' & Hnone & Hgone & Hc & Hl & Htouch).
  { destruct Hf as (_ & Hseg & _). by eapply name_is_tests. }
  unfold close_font, bind. rewrite (assert_initialized _ Hinit), Hrun.
  eexists. split; [reflexivity|]. cbn [mem set_mem set_font].
  split; [|split; [|by repeat (split; [done|])]].
  - apply well_formed_intro; try done.
    + split; [|done]. eapply registry_frame; [|exact Hreg]. intros a Ha. apply Htouch.
      by apply D2.
    + eapply registry_frame; [|exact Ht]. intros a Ha. apply Htouch. by apply D3.
    + intros a Ha Hin. apply (D2 a Ha). by apply (addresses_without_first (named key)).
    + intros a Ha Hin. apply (D3 a Ha). by apply (addresses_without_first (named key)).
  - intros Hn. destruct (Hnone Hn) as [-> ->].
    by rewrite set_mem_same, set_font_same.
Qed.

Lemma ids_in_order_nil bound : ids_in_order bound [].
Proof. split; constructor. Qed.

Lemma destroy_all_objects_well_formed w lo lt lf :
  engine_initialized w -> well_formed w lo lt lf ->
  exists w',
    destroy_all_objects w = Returns tt w'
    /\ well_formed w' [] lt lf
    /\ Forall (entry_gone (mem w')) lo
    /\ (lo = [] -> w' = w)
    /\ _engine w' = _engine w /\ _object_id w' = _object_id w
    /\ checked (mem w') = checked (mem w) /\ limit (mem w') = limit (mem w)
    /\ (forall a, a ∉ addresses lo -> blocks (mem w') !! a = blocks (mem w) !! a)
    /\ stderr w' = stderr w.
Proof.
  intros Hinit Hwf.
  destruct (well_formed_disjoint _ _ _ _ Hwf) as (D1 & D2 & D3).
  destruct Hwf as ([Hreg Hobj] & Ht & Hf & _ & Hids).
  destruct (free_all_registry _ _ _ Hreg) as (m' & Hrun & Hgone & Htouch & Hc & Hl).
  unfold destroy_all_objects, bind. rewrite (assert_initialized _ Hinit), Hrun.
  eexists. split; [reflexivity|]. cbn [mem set_mem set_object_list].
  split; [|split; [done|split; [|by repeat (split; [done|])]]].
  - apply well_formed_intro; try done.
    + split; [apply registry_nil|constructor].
    + eapply registry_frame; [|exact Ht]. intros a Ha. apply Htouch.
      by apply (apart_sym _ _ D1).
    + eapply registry_frame; [|exact Hf]. intros a Ha. apply Htouch.
      by apply (apart_sym _ _ D2).
    + intros a Ha. by apply elem_of_nil in Ha.
    + intros a Ha. by apply elem_of_nil in Ha.
    + apply ids_in_order_nil.
  - intros ->. destruct Hreg as (Hh & _). cbn in Hh.
    assert (m' = mem w) as ->.
    { rewrite Hh in Hrun. cbn in Hrun. by injection Hrun. }
    rewrite set_mem_same, <- Hh. apply set_object_list_same.
Qed.

Lemma destroy_all_templates_well_formed w lo lt lf :
  engine_initialized w -> well_formed w lo lt lf ->
  exists w',
    destroy_all_templates w = Returns tt w'
    /\ well_formed w' lo [] lf
    /\ Forall (entry_gone (mem w')) lt
    /\ (lt = [] -> w' = w)
    /\ _engine w' = _engine w /\ _object_id w' = _object_id w
    /\ checked (mem w') = checked (mem w) /\ limit (mem w') = limit (mem w)
    /\ (forall a, a ∉ addresses lt -> blocks (mem w') !! a = blocks (mem w) !! a)
    /\ stderr w' = stderr w.
Proof.
  intros Hinit Hwf.
  destruct (well_formed_disjoint _ _ _ _ Hwf) as (D1 & D2 & D3).
  destruct Hwf as ([Hreg Hobj] & Ht & Hf & _ & Hids).
  destruct (free_all_registry _ _ _ Ht) as (m' & Hrun & Hgone & Htouch & Hc & Hl).
  unfold destroy_all_templates, bind. rewrite (assert_initialized _ Hinit), Hrun.
  eexists. split; [reflexivity|]. cbn [mem set_mem set_object_template_list].
  split; [|split; [done|split; [|by repeat (split; [done|])]]].
  - apply well_formed_intro; try done.
    + split; [|done]. eapply registry_frame; [|exact Hreg]. intros a Ha. apply Htouch.
      by apply D1.
    + apply registry_nil.
    + eapply registry_frame; [|exact Hf]. intros a Ha. apply Htouch.
      by apply (apart_sym _ _ D3).
    + intros a _ Ha. by apply elem_of_nil in Ha.
    + intros a Ha. by apply elem_of_nil in Ha.
  - intros ->. destruct Ht as (Hh & _). cbn in Hh.
    assert (m' = mem w) as ->.
    { rewrite Hh in Hrun. cbn in Hrun. by injection Hrun. }
    rewrite set_mem_same, <- Hh. apply set_object_template_list_same.
Qed.

Lemma close_all_fonts_well_formed w lo lt lf :
  engine_initialized w -> well_formed w lo lt lf ->
  exists w',
    close_all_fonts w = Returns tt w'
    /\ well_formed w' lo lt []
    /\ Forall (entry_gone (mem w')) lf
    /\ (lf = [] -> w' = w)
    /\ _engine w' = _engine w /\ _object_id w' = _object_id w
    /\ checked (mem w') = checked (mem w) /\ limit (mem w') = limit (mem w)
    /\ (forall a, a ∉ addresses lf -> blocks (mem w') !! a = blocks (mem w) !! a)
    /\ stderr w' = stderr w.
Proof.
  intros Hinit Hwf.
  destruct (well_formed_disjoint _ _ _ _ Hwf) as (D1 & D2 & D3).
  destruct Hwf as ([Hreg Hobj] & Ht & Hf & _ & Hids).
  unfold close_all_fonts, bind. rewrite (assert_initialized _ Hinit).
  destruct (_font w) as [h|] eqn:Hh.
  - destruct (free_all_registry _ _ _ Hf) as (m' & Hrun & Hgone & Htouch & Hc & Hl).
    rewrite Hh in Hrun. rewrite Hrun.
    eexists. split; [reflexivity|]. cbn [mem set_mem set_font].
    split; [|split; [done|split; [|by repeat (split; [done|])]]].
    + apply well_formed_intro; try done.
      * split; [|done]. eapply registry_frame; [|exact Hreg]. intros a Ha. apply Htouch.
        by apply D2.
      * eapply registry_frame; [|exact Ht]. intros a Ha. apply Htouch. by apply D3.
      * apply registry_nil.
      * intros a _ Ha. by apply elem_of_nil in Ha.
      * intros a _ Ha. by apply elem_of_nil in Ha.
    + intros ->. destruct Hf as (Hh' & _). cbn in Hh'. congruence.
  - assert (lf = []) as ->.
    { destruct Hf as (Hh' & _). rewrite Hh in Hh'. by destruct lf. }
    exists w. split; [done|]. split.
    + by apply well_formed_intro.
    + by repeat (split; [done|]).
Qed.

(** ** Removal by name *)

Lemma unlink_every_absent test f m l :
  forall fuel head prev,
  segment m l NULL -> tests_as test m f l -> Forall (fun e => f e = false) l ->
  (length l < fuel)%nat ->
  unlink_every fuel test m head (first_or l NULL) prev = Done (m, head).
Proof.
  induction l as [|e l IH]; intros fuel head prev Hseg Htest Hf Hfuel;
    (destruct fuel as [|fuel]; [simpl in Hfuel; lia|]).
  - done.
  - cbn [segment] in Hseg. destruct Hseg as (Hn & Hs & Hp & Hl).
    apply Forall_cons in Htest as [Hte Htest]. apply Forall_cons in Hf as [Hfe Hf].
    cbn [unlink_every first_or].
    rewrite (load_node_live _ _ _ Hn). cbn [rbind]. rewrite Hte, Hfe. cbn [rbind fst snd].
    rewrite (load_node_live _ _ _ Hn). cbn [rbind node_of next].
    apply IH; [done..|]. simpl in Hfuel. lia.
Qed.

Lemma destroy_object_by_name_absent w l key :
  engine_initialized w -> registry (mem w) (_object_list w) l ->
  Forall (fun e => e_name e <> key) l ->
  destroy_object_by_name key w = Returns tt w.
Proof.
  intros Hinit Hreg Hnone.
  unfold destroy_object_by_name, bind, remove_from.
  rewrite (assert_initialized _ Hinit).
  destruct Hreg as (Hh & Hseg & Hnd). rewrite Hh at 2.
  rewrite (unlink_every_absent (name_is key) (named key)).
  - by rewrite set_mem_same, set_object_list_same.
  - done.
  - by eapply name_is_tests.
  - eapply Forall_impl; [exact Hnone|]. cbn. intros e He.
    unfold named. by apply bool_decide_eq_false.
  - pose proof (segment_length _ _ _ Hseg Hnd). unfold enough_fuel. lia.
Qed.

(** ** What a returning call tells *)

Lemma returns_initialized {A} (k : unit -> M A) (w : world) (v : A) (w' : world) :
  bind _assert_engine_init k w = Returns v w' -> engine_initialized w /\ k tt w = Returns v w'.
Proof.
  unfold bind, _assert_engine_init, engine_initialized.
  destruct (_engine w); [done|]. discriminate.
Qed.

Lemma add_to_list_returns head set_head no_name no_item room value key w v w' :
  add_to_list head set_head no_name no_item room value key w = Returns v w' ->
  can_allocate (mem w) 2 /\ (String.length key + 1 <= room)%nat.
Proof.
  unfold add_to_list.
  destruct (malloc (mem w) _) as [[a1 m1]|] eqn:Hm1; [|discriminate].
  destruct (Nat.ltb_spec room (String.length key + 1)) as [|Hroom]; [discriminate|].
  destruct (malloc m1 _) as [[a2 m2]|] eqn:Hm2; [|discriminate].
  intros _. split; [|done].
  destruct (malloc_inv _ _ _ _ Hm1) as (Hf1 & -> & Hc1).
  destruct (malloc_inv _ _ _ _ Hm2) as (_ & _ & Hc2).
  unfold can_allocate in *. cbn [blocks set_blocks limit] in Hc2.
  rewrite map_size_insert_None in Hc2 by done. lia.
Qed.

Lemma payload_returns c (k : loc -> memory -> M ptr) no_mem w v w' :
  match malloc (mem w) c with
  | None => fatal no_mem w
  | Some (p, m') => k p m' w
  end = Returns v w' ->
  (forall p m' w0 v0 w0', k p m' w0 = Returns v0 w0' -> malloc (mem w) c = Some (p, m') ->
                          can_allocate m' 2) ->
  can_allocate (mem w) 3.
Proof.
  destruct (malloc (mem w) c) as [[p m0]|] eqn:Hm0; [|discriminate].
  intros Hk Hcap. specialize (Hcap _ _ _ _ _ Hk eq_refl).
  destruct (malloc_inv _ _ _ _ Hm0) as (Hf & -> & _).
  unfold can_allocate in *. cbn [blocks set_blocks limit] in Hcap.
  rewrite map_size_insert_None in Hcap by done. lia.
Qed.

Lemma create_object_returns key tex ox oy ow oh hb dat w p w' :
  create_object key tex ox oy ow oh hb dat w = Returns p w' ->
  engine_initialized w /\ can_allocate (mem w) 3.
Proof.
  unfold create_object. intros Hrun. apply returns_initialized in Hrun as [Hinit Hrun].
  split; [done|].
  eapply (payload_returns _ (fun object m' w0 =>
            (_add_object_to_list (Some object) key ;;; ret (Some object))%engine
              (set_object_id (int_add (_object_id w0) 1) (set_mem m' w0))));
    [exact Hrun|].
  intros p0 m' w0 v0 w0'. unfold bind, _add_object_to_list.
  destruct (add_to_list _ _ _ _ _ _ _ _) as [u w1| | |] eqn:Hadd; try discriminate.
  intros _ _. by apply add_to_list_returns in Hadd as [Hcap _].
Qed.

Lemma create_object_template_returns key tex tw th hb w p w' :
  create_object_template key tex tw th hb w = Returns p w' ->
  engine_initialized w /\ can_allocate (mem w) 3.
Proof.
  unfold create_object_template. intros Hrun. apply returns_initialized in Hrun as [Hinit Hrun].
  split; [done|].
  eapply (payload_returns _ (fun object_template m' w0 =>
            (_add_object_template_to_list (Some object_template) key ;;;
             ret (Some object_template))%engine (set_mem m' w0)));
    [exact Hrun|].
  intros p0 m' w0 v0 w0'. unfold bind, _add_object_template_to_list.
  destruct (add_to_list _ _ _ _ _ _ _ _) as [u w1| | |] eqn:Hadd; try discriminate.
  intros _ _. by apply add_to_list_returns in Hadd as [Hcap _].
Qed.

Lemma load_font_returns filename size key w v w' :
  load_font filename size key w = Returns v w' ->
  engine_initialized w /\ can_allocate (mem w) 3 /\ filename ∈ font_files w
  /\ (String.length key <= String.length filename)%nat.
Proof.
  unfold load_font. intros Hrun. apply returns_initialized in Hrun as [Hinit Hrun].
  split; [done|].
  destruct (decide (filename ∈ font_files w)) as [Hin|Hout].
  - rewrite bool_decide_eq_true_2 in Hrun by done.
    destruct (malloc (mem w) CForeign) as [[p m0]|] eqn:Hm0; [|discriminate].
    apply add_to_list_returns in Hrun as [Hcap Hroom]. cbn [mem set_mem] in Hcap.
    split; [|split; [done|lia]].
    destruct (malloc_inv _ _ _ _ Hm0) as (Hf & -> & _).
    unfold can_allocate in *. cbn [blocks set_blocks limit] in Hcap.
    rewrite map_size_insert_None in Hcap by done. lia.
  - rewrite bool_decide_eq_false_2 in Hrun by done. discriminate.
Qed.

Lemma changes_nothing_bind {A B} (c : M A) (k : A -> M B) :
  changes_nothing c -> (forall v, changes_nothing (k v)) -> changes_nothing (bind c k).
Proof.
  intros Hc Hk w v w'. unfold bind.
  destruct (c w) as [v0 w0| | |] eqn:E; try discriminate.
  intros Hr. apply Hk in Hr. apply Hc in E. congruence.
Qed.

Lemma changes_nothing_ret {A} (v : A) : changes_nothing (ret v).
Proof. by intros w v' w' [= _ <-]. Qed.

Lemma changes_nothing_fatal {A} msg : changes_nothing (@fatal A msg).
Proof. intros w v w'. discriminate. Qed.

Lemma changes_nothing_assert : changes_nothing _assert_engine_init.
Proof.
  intros w v w'. unfold _assert_engine_init. destruct (_engine w); [|discriminate].
  by intros [= _ <-].
Qed.

Lemma changes_nothing_read_heap {A} (f : memory -> result A) :
  changes_nothing (read_heap f).
Proof.
  intros w v w'. unfold read_heap. destruct (f (mem w)); try discriminate.
  by intros [= _ <-].
Qed.

Lemma changes_nothing_lookup_in head test : changes_nothing (lookup_in head test).
Proof. intros w v w'. unfold lookup_in. apply changes_nothing_read_heap. Qed.

Ltac unchanged :=
  repeat first
    [ apply changes_nothing_bind; [|intros ?]
    | match goal with |- changes_nothing (match ?v with _ => _ end) => destruct v end
    | apply changes_nothing_ret
    | apply changes_nothing_fatal
    | apply changes_nothing_assert
    | apply changes_nothing_lookup_in
    | apply changes_nothing_read_heap ].

Lemma lookups_change_nothing :
  (forall key, changes_nothing (get_object_by_name key))
  /\ (forall key, changes_nothing (get_object_by_id key))
  /\ (forall key, changes_nothing (object_exists key))
  /\ (forall key, changes_nothing (get_template_by_name key)).
Proof.
  repeat split; intros key.
  - unfold get_object_by_name. unchanged.
  - unfold get_object_by_id. unchanged.
  - unfold object_exists. unchanged.
  - unfold get_template_by_name. unchanged.
Qed.

Lemma bind_ret_returns {A B} (c : M A) (r : B) w v w' :
  bind c (fun _ => ret r) w = Returns v w' -> exists v0, c w = Returns v0 w'.
Proof.
  unfold bind, ret. destruct (c w) as [v0 w0| | |]; try discriminate.
  intros [= _ <-]. by exists v0.
Qed.

Lemma bind_returns {A B} (c : M A) (k : A -> M B) w v w' :
  bind c k w = Returns v w' -> exists v0 w0, c w = Returns v0 w0 /\ k v0 w0 = Returns v w'.
Proof.
  unfold bind. destruct (c w) as [v0 w0| | |]; try discriminate.
  intros H. by exists v0, w0.
Qed.

Lemma initialized_of_returns {A} (c : M A) (k : unit -> M A) w v w' :
  c = bind _assert_engine_init k -> c w = Returns v w' -> engine_initialized w.
Proof. intros -> H. by apply returns_initialized in H as [? _]. Qed.

(** A call of the object, template and font interface that returns, on a
    checked heap, leaves the three registries well formed. *)
Lemma perform_well_formed c w ids w' lo lt lf :
  checked (mem w) = true -> well_formed w lo lt lf ->
  0 <= _object_id w -> (creates c = true -> _object_id w < INT_MAX) ->
  perform c w = Returns ids w' ->
  exists lo' lt' lf', well_formed w' lo' lt' lf' /\ checked (mem w') = true.
Proof.
  intros Hchk Hwf Hpos Hmax Hrun.
  destruct lookups_change_nothing as (L1 & L2 & L3 & L4).
  destruct c as [nm o|tp nm px py dat|nm|key|nm|key|nm| |nm t|nm|nm| |filename size nm|nm];
    cbn [perform creates] in Hrun, Hmax.
  - apply bind_returns in Hrun as (p & w1 & Hrun & Hret).
    injection Hret as _ <-. unfold create_like in Hrun.
    destruct (create_object_returns _ _ _ _ _ _ _ _ _ _ _ Hrun) as [Hinit Hcap].
    destruct (create_object_well_formed w lo lt lf nm (texture o) (x o) (y o)
                (width o) (height o) (hitbox o) (data o) 0 Hinit Hwf Hcap)
      as (p2 & w2 & e & Hrun2 & Hwf2 & _ & _ & _ & _ & _ & _ & Hc2 & _);
      [split; [done|by apply Hmax]|].
    rewrite Hrun in Hrun2. injection Hrun2 as _ <-.
    exists (lo ++ [e]), lt, lf. split; [done|congruence].
  - apply bind_returns in Hrun as (p & w1 & Hrun & Hret).
    injection Hret as _ <-. unfold instantiate_object in Hrun.
    apply returns_initialized in Hrun as [Hinit Hrun].
    apply bind_returns in Hrun as (t & w0 & Hread & Hrun).
    apply changes_nothing_read_heap in Hread as ->.
    destruct (create_object_returns _ _ _ _ _ _ _ _ _ _ _ Hrun) as [_ Hcap].
    destruct (create_object_well_formed w lo lt lf nm (tpl_texture t) px py
                (tpl_width t) (tpl_height t) (tpl_hitbox t) dat 0 Hinit Hwf Hcap)
      as (p2 & w2 & e & Hrun2 & Hwf2 & _ & _ & _ & _ & _ & _ & Hc2 & _);
      [split; [done|by apply Hmax]|].
    rewrite Hrun in Hrun2. injection Hrun2 as _ <-.
    exists (lo ++ [e]), lt, lf. split; [done|congruence].
  - apply bind_ret_returns in Hrun as (v0 & Hrun). apply L1 in Hrun as ->.
    by exists lo, lt, lf.
  - apply bind_ret_returns in Hrun as (v0 & Hrun). apply L2 in Hrun as ->.
    by exists lo, lt, lf.
  - apply bind_ret_returns in Hrun as (v0 & Hrun). apply L3 in Hrun as ->.
    by exists lo, lt, lf.
  - apply bind_ret_returns in Hrun as (v0 & Hrun).
    assert (Hinit : engine_initialized w)
      by (by eapply (initialized_of_returns (destroy_object_by_id key))).
    destruct (destroy_object_by_id_well_formed w lo lt lf key Hinit Hwf)
      as (w2 & Hrun2 & Hwf2 & _ & _ & _ & _ & Hc2 & _).
    rewrite Hrun in Hrun2. injection Hrun2 as _ <-.
    exists (without_first (has_id key) lo), lt, lf. split; [done|congruence].
  - apply bind_ret_returns in Hrun as (v0 & Hrun).
    assert (Hinit : engine_initialized w)
      by (by eapply (initialized_of_returns (destroy_object_by_name nm))).
    pose proof Hwf as ([Hreg Hobj] & _).
    destruct (first_such (named nm) lo) as [e|] eqn:Hfirst.
    + destruct (first_such_elem _ _ _ Hfirst) as [Hin Hn].
      rewrite (destroy_object_by_name_reads_freed_node w lo nm Hinit) in Hrun;
        [discriminate|by split|done|].
      apply Exists_exists. exists e. split; [done|].
      unfold named in Hn. by apply bool_decide_eq_true in Hn.
    + destruct (first_such_none _ _ Hfirst) as [Hall _].
      rewrite (destroy_object_by_name_absent w lo nm Hinit Hreg) in Hrun.
      * injection Hrun as _ <-. by exists lo, lt, lf.
      * eapply Forall_impl; [exact Hall|]. cbn. intros e He.
        unfold named in He. by apply bool_decide_eq_false in He.
  - apply bind_ret_returns in Hrun as (v0 & Hrun).
    assert (Hinit : engine_initialized w)
      by (by eapply (initialized_of_returns destroy_all_objects)).
    destruct (destroy_all_objects_well_formed w lo lt lf Hinit Hwf)
      as (w2 & Hrun2 & Hwf2 & _ & _ & _ & _ & Hc2 & _).
    rewrite Hrun in Hrun2. injection Hrun2 as _ <-.
    exists [], lt, lf. split; [done|congruence].
  - apply bind_ret_returns in Hrun as (v0 & Hrun).
    destruct (create_object_template_returns _ _ _ _ _ _ _ _ Hrun) as [Hinit Hcap].
    destruct (create_object_template_well_formed w lo lt lf nm (tpl_texture t)
                (tpl_width t) (tpl_height t) (tpl_hitbox t) 0 Hinit Hwf Hcap)
      as (p2 & w2 & e & Hrun2 & Hwf2 & _ & _ & _ & _ & _ & _ & Hc2 & _).
    rewrite Hrun in Hrun2. injection Hrun2 as _ <-.
    exists lo, (lt ++ [e]), lf. split; [done|congruence].
  - apply bind_ret_returns in Hrun as (v0 & Hrun). apply L4 in Hrun as ->.
    by exists lo, lt, lf.
  - apply bind_ret_returns in Hrun as (v0 & Hrun).
    assert (Hinit : engine_initialized w)
      by (by eapply (initialized_of_returns (destroy_object_template nm))).
    destruct (destroy_object_template_well_formed w lo lt lf nm Hinit Hwf)
      as (w2 & Hrun2 & Hwf2 & _ & _ & _ & _ & Hc2 & _).
    rewrite Hrun in Hrun2. injection Hrun2 as _ <-.
    exists lo, (without_first (named nm) lt), lf. split; [done|congruence].
  - apply bind_ret_returns in Hrun as (v0 & Hrun).
    assert (Hinit : engine_initialized w)
      by (by eapply (initialized_of_returns destroy_all_templates)).
    destruct (destroy_all_templates_well_formed w lo lt lf Hinit Hwf)
      as (w2 & Hrun2 & Hwf2 & _ & _ & _ & _ & Hc2 & _).
    rewrite Hrun in Hrun2. injection Hrun2 as _ <-.
    exists lo, [], lf. split; [done|congruence].
  - apply bind_ret_returns in Hrun as (v0 & Hrun).
    destruct (load_font_returns _ _ _ _ _ _ Hrun) as (Hinit & Hcap & Hfile & Hlen).
    destruct (load_font_well_formed w lo lt lf filename size nm 0 Hinit Hwf Hcap
                Hfile Hlen)
      as (w2 & e & Hrun2 & Hwf2 & _ & _ & _ & _ & _ & Hc2 & _).
    rewrite Hrun in Hrun2. injection Hrun2 as _ <-.
    exists lo, lt, (lf ++ [e]). split; [done|congruence].
  - apply bind_ret_returns in Hrun as (v0 & Hrun).
    assert (Hinit : engine_initialized w)
      by (by eapply (initialized_of_returns (close_font nm))).
    destruct (close_font_well_formed w lo lt lf nm Hinit Hwf)
      as (w2 & Hrun2 & Hwf2 & _ & _ & _ & _ & Hc2 & _).
    rewrite Hrun in Hrun2. injection Hrun2 as _ <-.
    exists lo, lt, (without_first (named nm) lf). split; [done|congruence].
Qed.

Lemma ids_in_order_NoDup bound l : ids_in_order bound l -> NoDup (entry_id <$> l).
Proof.
  intros [Hs _]. induction Hs as [|e l Hs IH He]; cbn [fmap list_fmap]; [constructor|].
  constructor; [|done].
  intros (e' & Heq & Hin)%list_elem_of_fmap.
  rewrite Forall_forall in He. specialize (He e' Hin). lia.
Qed.

Lemma run_well_formed cs :
  forall w lo lt lf,
  checked (mem w) = true -> well_formed w lo lt lf ->
  0 <= _object_id w -> _object_id w + Z.of_nat (creations cs) <= INT_MAX ->
  forall w', snd (run cs w) = Returns tt w' ->
  exists lo' lt' lf', well_formed w' lo' lt' lf' /\ checked (mem w') = true.
Proof.
  induction cs as [|c cs IH]; intros w lo lt lf Hchk Hwf Hpos Hmax w'; cbn [run].
  - intros [= <-]. by exists lo, lt, lf.
  - destruct (perform c w) as [ids w1| | |] eqn:Hp; cbn [snd]; try discriminate.
    unfold creations in Hmax. cbn [List.filter] in Hmax.
    destruct (perform_well_formed c w ids w1 lo lt lf Hchk Hwf Hpos) as
      (lo1 & lt1 & lf1 & Hwf1 & Hchk1); [|done|].
    { intros Hc. rewrite Hc in Hmax. cbn [length] in Hmax. lia. }
    assert (Hid : 0 <= _object_id w1
                  /\ _object_id w1 + Z.of_nat (creations cs) <= INT_MAX).
    { destruct (creates c) eqn:Hc.
      - destruct (perform_creation _ _ _ _ Hc Hp) as [_ Hid].
        cbn [length] in Hmax. rewrite Hid. unfold int_add.
        rewrite wrap_int_in_range;
          [unfold creations; lia|unfold in_int, INT_MIN, INT_MAX in *; lia].
      - destruct (perform_keeps_counter _ Hc _ _ _ Hp) as [_ Hid].
        rewrite Hid. unfold creations. lia. }
    destruct Hid as [Hpos1 Hmax1].
    intros Hend. apply (IH w1 lo1 lt1 lf1 Hchk1 Hwf1 Hpos1 Hmax1).
    by destruct (run cs w1) as [ids' o].
Qed.

(** ** Invariant of the registries *)

Lemma well_formed_empty w :
  _object_list w = NULL -> _object_template_list w = NULL -> _font w = NULL ->
  well_formed w [] [] [].
Proof.
  intros Ho Ht Hf. unfold well_formed, object_registry, template_registry, font_registry.
  rewrite Ho, Ht, Hf.
  split; [split; [apply registry_nil|constructor]|].
  split; [apply registry_nil|]. split; [apply registry_nil|].
  split; [apply NoDup_nil_2|apply ids_in_order_nil].
Qed.

(** X14: A process starts with its three registries well formed, and on a
    checked heap every sequence of calls of the object, template and font
    interface that returns leaves them well formed: each static points to
    a list of live nodes that ends, no block serves two entries or two
    registries, and the registered objects carry distinct identifiers, in
    growing order, below the counter. *)
Theorem calls_keep_the_registries_well_formed (cs : list call) (w w' : world)
    (lo lt lf : list entry) :
  checked (mem w) = true -> well_formed w lo lt lf ->
  0 <= _object_id w -> _object_id w + Z.of_nat (creations cs) <= INT_MAX ->
  snd (run cs w) = Returns tt w' ->
  (exists lo' lt' lf',
     well_formed w' lo' lt' lf' /\ NoDup (entry_id <$> lo')
     /\ Forall (fun e => entry_id e < _object_id w') lo')
  /\ (forall chk lim col ms files,
        well_formed (process_start chk lim col ms files) [] [] []).
Proof.
  intros Hchk Hwf Hpos Hmax Hend. split.
  - destruct (run_well_formed cs w lo lt lf Hchk Hwf Hpos Hmax w' Hend)
      as (lo' & lt' & lf' & Hwf' & _).
    exists lo', lt', lf'. split; [done|].
    destruct Hwf' as (_ & _ & _ & _ & Hids). split; [by eapply ids_in_order_NoDup|].
    destruct Hids as [_ Hb]. eapply Forall_impl; [exact Hb|]. cbn. intros e He. lia.
  - intros chk lim col ms files. by apply well_formed_empty.
Qed.

Lemma calls_keep_the_registries_well_formed_witness :
  checked (mem (fresh_process true)) = true
  /\ well_formed (fresh_process true) [] [] []
  /\ 0 <= _object_id (fresh_process true)
  /\ _object_id (fresh_process true) + Z.of_nat (creations sample_calls) <= INT_MAX
  /\ exists w',
       snd (run sample_calls (fresh_process true)) = Returns tt w'
       /\ exists lo' lt' lf', well_formed w' lo' lt' lf'.
Proof.
  assert (Hwf : well_formed (fresh_process true) [] [] [])
    by (by apply well_formed_empty).
  assert (Hmax : _object_id (fresh_process true) + Z.of_nat (creations sample_calls)
                 <= INT_MAX) by (vm_compute; discriminate).
  set (wend := match snd (run sample_calls (fresh_process true)) with
               | Returns _ w' => w'
               | _ => fresh_process true
               end).
  assert (Hend : snd (run sample_calls (fresh_process true)) = Returns tt wend)
    by (vm_compute; reflexivity).
  clearbody wend.
  split; [reflexivity|]. split; [exact Hwf|]. split; [discriminate|].
  split; [exact Hmax|]. exists wend. split; [exact Hend|].
  destruct (calls_keep_the_registries_well_formed sample_calls (fresh_process true) wend
              [] [] [] eq_refl Hwf ltac:(discriminate) Hmax Hend)
    as [(lo' & lt' & lf' & Hwf' & _) _].
  by exists lo', lt', lf'.
Defined.

(** ** Objects by identifier *)

Lemma first_such_newest bound l e :
  ids_in_order bound l -> has_id bound e = true ->
  first_such (has_id bound) (l ++ [e]) = Some e.
Proof.
  intros [_ Hb] He. rewrite first_such_app.
  rewrite Forall_first_such_none.
  - cbn [first_such]. by rewrite He.
  - eapply Forall_impl; [exact Hb|]. cbn. intros e0 He0.
    unfold has_id, entry_id in *. destruct (e_value e0); try done.
    apply Z.eqb_neq. lia.
Qed.

(** X15: After [create_object] the new object is the one [get_object_by_id]
    returns for the identifier it was given, which is the value the counter
    had; the registries stay well formed, with the new object last. *)
Theorem create_object_then_get_object_by_id (w : world) (lo lt lf : list entry)
    (key : string) (o : Object) :
  engine_initialized w -> well_formed w lo lt lf -> can_allocate (mem w) 3 ->
  0 <= _object_id w < INT_MAX ->
  exists p w' e,
    create_like key o w = Returns (Some p) w'
    /\ well_formed w' (lo ++ [e]) lt lf
    /\ e_payload e = p /\ e_name e = key
    /\ live (mem w') p (CObject (with_id (_object_id w) o))
    /\ get_object_by_id (_object_id w) w' = Returns (Some p) w'
    /\ _object_id w' = _object_id w + 1.
Proof.
  intros Hinit Hwf Hcap Hid.
  destruct (create_object_well_formed w lo lt lf key (texture o) (x o) (y o) (width o)
              (height o) (hitbox o) (data o) 0 Hinit Hwf Hcap Hid)
    as (p & w' & e & Hrun & Hwf' & Hk & Hp & Hv & _ & Heng & Hcount & _).
  exists p, w', e. split; [done|]. split; [done|]. split; [done|]. split; [done|].
  pose proof Hwf' as (Hor & _).
  assert (Hinit' : engine_initialized w') by (unfold engine_initialized; by rewrite Heng).
  split; [|split; [|done]].
  - destruct Hor as [(_ & Hseg & _) _].
    destruct (segment_entry_live _ _ _ e Hseg) as [Hlive _].
    { apply elem_of_app. right. in_list. }
    by rewrite Hv, Hp in Hlive.
  - rewrite (get_object_by_id_registry _ _ _ Hinit' Hor).
    rewrite (first_such_newest (_object_id w)).
    + by rewrite Hp.
    + by destruct Hwf as (_ & _ & _ & _ & Hids).
    + unfold has_id. rewrite Hv. cbn. apply Z.eqb_refl.
Qed.

Lemma create_object_then_get_object_by_id_witness :
  engine_initialized (fresh_process true) /\ well_formed (fresh_process true) [] [] []
  /\ can_allocate (mem (fresh_process true)) 3
  /\ 0 <= _object_id (fresh_process true) < INT_MAX
  /\ exists p w',
       create_like "a" sample_object (fresh_process true) = Returns (Some p) w'
       /\ get_object_by_id 0 w' = Returns (Some p) w'.
Proof.
  assert (Hinit : engine_initialized (fresh_process true)) by (vm_compute; discriminate).
  assert (Hwf : well_formed (fresh_process true) [] [] [])
    by (by apply well_formed_empty).
  assert (Hcap : can_allocate (mem (fresh_process true)) 3) by (vm_compute; lia).
  assert (Hid : 0 <= _object_id (fresh_process true) < INT_MAX)
    by (vm_compute; split; [discriminate|reflexivity]).
  split; [exact Hinit|]. split; [exact Hwf|]. split; [exact Hcap|]. split; [exact Hid|].
  destruct (create_object_then_get_object_by_id (fresh_process true) [] [] [] "a"
              sample_object Hinit Hwf Hcap Hid)
    as (p & w' & e & Hrun & _ & _ & _ & _ & Hget & _).
  exists p, w'. split; [exact Hrun|exact Hget].
Defined.

(** X16: [destroy_object_by_id] takes the first object with the identifier out
    of the list and gives its three blocks back; the other objects stay in
    their order, the templates and fonts are not touched, and since
    identifiers are distinct no registered object has the identifier
    afterwards: [get_object_by_id] on it ends the process. *)
Theorem destroy_object_by_id_removes_the_object (w : world) (lo lt lf : list entry)
    (key : Z) :
  engine_initialized w -> well_formed w lo lt lf ->
  exists w',
    destroy_object_by_id key w = Returns tt w'
    /\ well_formed w' (without_first (has_id key) lo) lt lf
    /\ (forall e, first_such (has_id key) lo = Some e -> entry_gone (mem w') e)
    /\ Forall (fun e => has_id key e = false) (without_first (has_id key) lo)
    /\ get_object_by_id key w' = died_with "[ENGINE] Object not found: %d\n" w'
    /\ _object_id w' = _object_id w.
Proof.
  intros Hinit Hwf.
  destruct (destroy_object_by_id_well_formed w lo lt lf key Hinit Hwf)
    as (w' & Hrun & Hwf' & _ & Hgone & Heng & Hcount & _).
  exists w'. split; [done|]. split; [done|]. split; [done|].
  assert (Hnone : Forall (fun e => has_id key e = false) (without_first (has_id key) lo)).
  { destruct Hwf as (_ & _ & _ & _ & Hids). by eapply ids_in_order_unique. }
  split; [done|]. split; [|done].
  assert (Hinit' : engine_initialized w') by (unfold engine_initialized; by rewrite Heng).
  destruct Hwf' as (Hor & _).
  rewrite (get_object_by_id_registry _ _ _ Hinit' Hor).
  by rewrite (Forall_first_such_none _ _ Hnone).
Qed.

Lemma objects_and_font_well_formed :
  well_formed objects_and_font three_objects_entries [] font_entries.
Proof.
  split; [exact three_objects_registry|].
  split; [split; [vm_compute; reflexivity|split; [exact I|apply NoDup_nil_2]]|].
  split; [exact one_font_registry|].
  split; [apply (bool_decide_unpack _); vm_compute; exact I|].
  split.
  - repeat constructor.
  - repeat constructor; vm_compute; discriminate.
Qed.

Lemma destroy_object_by_id_removes_the_object_witness :
  engine_initialized objects_and_font
  /\ well_formed objects_and_font three_objects_entries [] font_entries
  /\ exists w',
       destroy_object_by_id 1 objects_and_font = Returns tt w'
       /\ well_formed w' (without_first (has_id 1) three_objects_entries) [] font_entries
       /\ get_object_by_id 1 w' = died_with "[ENGINE] Object not found: %d\n" w'.
Proof.
  assert (Hinit : engine_initialized objects_and_font) by (vm_compute; discriminate).
  pose proof objects_and_font_well_formed as Hwf.
  split; [exact Hinit|]. split; [exact Hwf|].
  destruct (destroy_object_by_id_removes_the_object objects_and_font _ _ _ 1 Hinit Hwf)
    as (w' & Hrun & Hwf' & _ & _ & Hget & _).
  exists w'. split; [exact Hrun|]. split; [exact Hwf'|exact Hget].
Defined.

(** ** Templates *)

Lemma get_template_by_name_registry w l key :
  engine_initialized w -> template_registry w l ->
  get_template_by_name key w
  = match first_such (named key) l with
    | Some e => Returns (Some (e_payload e)) w
    | None => died_with "[ENGINE] Object template not found: %s\n" w
    end.
Proof.
  intros Hinit Hreg. unfold get_template_by_name, bind.
  rewrite (assert_initialized _ Hinit).
  destruct (lookup_registry _object_template_list (name_is key) (named key) w l Hreg)
    as (r & -> & Hr).
  { destruct Hreg as (_ & Hseg & _). by eapply name_is_tests. }
  destruct r as [n|], (first_such (named key) l) as [e|]; try done.
  cbn in Hr. injection Hr as Hr. unfold ret. by rewrite Hr.
Qed.

Lemma node_holds_node m l q a :
  segment m l q -> a ∈ e_node <$> l -> exists n, live m a (CNode n).
Proof.
  induction l as [|e l IH]; cbn [fmap list_fmap]; intros Hseg Hin;
    [by apply elem_of_nil in Hin|].
  cbn [segment] in Hseg. destruct Hseg as (Hn & _ & _ & Hrest).
  apply elem_of_cons in Hin as [->|Hin]; [by eexists|by apply IH].
Qed.

Lemma instantiate_object_well_formed w lo lt lf tp t key px py dat n :
  engine_initialized w -> well_formed w lo lt lf -> live (mem w) tp (CTemplate t) ->
  can_allocate (mem w) (3 + n) -> 0 <= _object_id w < INT_MAX ->
  exists p w' e,
    instantiate_object (Some tp) key px py dat w = Returns (Some p) w'
    /\ well_formed w' (lo ++ [e]) lt lf
    /\ e_payload e = p /\ e_name e = key
    /\ live (mem w') p
         (CObject {| id := _object_id w; texture := tpl_texture t; x := px; y := py;
                     width := tpl_width t; height := tpl_height t;
                     hitbox := tpl_hitbox t; data := dat |})
    /\ live (mem w') tp (CTemplate t)
    /\ p <> tp
    /\ _engine w' = _engine w /\ _object_id w' = _object_id w + 1
    /\ can_allocate (mem w') n.
Proof.
  intros Hinit Hwf Htp Hcap Hid.
  destruct (create_object_well_formed w lo lt lf key (tpl_texture t) px py (tpl_width t)
              (tpl_height t) (tpl_hitbox t) dat n Hinit Hwf Hcap Hid)
    as (p & w' & e & Hrun & Hwf' & Hk & Hp & Hv & Hfresh & Heng & Hcount & _ & _ & Hcap'
        & Htouch & _).
  exists p, w', e. split.
  { unfold instantiate_object, bind, read_heap.
    by rewrite (assert_initialized _ Hinit), (load_live _ _ _ Htp). }
  split; [done|]. split; [done|]. split; [done|].
  split; [|split; [|split; [|done]]].
  - destruct Hwf' as ([(_ & Hseg & _) _] & _).
    destruct (segment_entry_live _ _ _ e Hseg) as [Hlive _].
    { apply elem_of_app. right. in_list. }
    by rewrite Hv, Hp in Hlive.
  - apply Htouch; [done|]. intros Hin.
    destruct Hwf as ([(_ & Hseg & _) _] & _).
    destruct (node_holds_node _ _ _ _ Hseg Hin) as [nd Hnd].
    unfold live in *. congruence.
  - intros ->. unfold live in Htp. congruence.
Qed.

(** X17: [instantiate_object] builds an object with the texture, the width, the
    height and the hitbox flag of the template and the position and data
    it was given, registers it last, and leaves the template as it was. *)
Theorem instantiate_object_copies_the_template (w : world) (lo lt lf : list entry)
    (tp : loc) (t : ObjectTemplate) (key : string) (px py : Z) (dat : ptr) :
  engine_initialized w -> well_formed w lo lt lf -> live (mem w) tp (CTemplate t) ->
  can_allocate (mem w) 3 -> 0 <= _object_id w < INT_MAX ->
  exists p w' e,
    instantiate_object (Some tp) key px py dat w = Returns (Some p) w'
    /\ well_formed w' (lo ++ [e]) lt lf
    /\ e_payload e = p /\ e_name e = key
    /\ live (mem w') p
         (CObject {| id := _object_id w; texture := tpl_texture t; x := px; y := py;
                     width := tpl_width t; height := tpl_height t;
                     hitbox := tpl_hitbox t; data := dat |})
    /\ live (mem w') tp (CTemplate t)
    /\ p <> tp.
Proof.
  intros Hinit Hwf Htp Hcap Hid.
  destruct (instantiate_object_well_formed w lo lt lf tp t key px py dat 0 Hinit Hwf Htp
              Hcap Hid) as (p & w' & e & H1 & H2 & H3 & H4 & H5 & H6 & H7 & _).
  by exists p, w', e.
Qed.

(** X18: A template created under a name no template has yet is the one
    [get_template_by_name] returns for the name, and an object instantiated
    from the returned pointer has the texture, size and hitbox flag the
    template was created with; the template is still registered after
    that. *)
Theorem template_round_trip (w : world) (lo lt lf : list entry) (key nm : string)
    (tex : ptr) (tw th : Z) (hb : bool) (px py : Z) (dat : ptr) :
  engine_initialized w -> well_formed w lo lt lf -> can_allocate (mem w) 6 ->
  0 <= _object_id w < INT_MAX -> first_such (named key) lt = None ->
  exists tp w1 p w2 e1 e2,
    create_object_template key tex tw th hb w = Returns (Some tp) w1
    /\ get_template_by_name key w1 = Returns (Some tp) w1
    /\ instantiate_object (Some tp) nm px py dat w1 = Returns (Some p) w2
    /\ well_formed w2 (lo ++ [e2]) (lt ++ [e1]) lf
    /\ live (mem w2) p
         (CObject {| id := _object_id w; texture := tex; x := px; y := py;
                     width := tw; height := th; hitbox := hb; data := dat |})
    /\ get_template_by_name key w2 = Returns (Some tp) w2.
Proof.
  intros Hinit Hwf Hcap Hid Hnew.
  destruct (create_object_template_well_formed w lo lt lf key tex tw th hb 3 Hinit Hwf
              Hcap)
    as (tp & w1 & e1 & Hrun1 & Hwf1 & Hk1 & Hp1 & Hv1 & _ & Heng1 & Hcount1 & _ & _
        & Hcap1 & _).
  assert (Hinit1 : engine_initialized w1) by (unfold engine_initialized; by rewrite Heng1).
  assert (Hfirst : first_such (named key) (lt ++ [e1]) = Some e1).
  { rewrite first_such_app, Hnew. cbn [first_such]. unfold named.
    by rewrite bool_decide_eq_true_2. }
  assert (Hlive1 : live (mem w1) tp
                     (CTemplate {| tpl_texture := tex; tpl_width := tw;
                                   tpl_height := th; tpl_hitbox := hb |})).
  { destruct Hwf1 as (_ & (_ & Hseg & _) & _).
    destruct (segment_entry_live _ _ _ e1 Hseg) as [Hlive _].
    { apply elem_of_app. right. in_list. }
    by rewrite Hv1, Hp1 in Hlive. }
  destruct (instantiate_object_well_formed w1 lo (lt ++ [e1]) lf tp _ nm px py dat 0
              Hinit1 Hwf1 Hlive1 Hcap1)
    as (p & w2 & e2 & Hrun2 & Hwf2 & _ & _ & Hlive2 & _ & _ & Heng2 & _);
    [by rewrite Hcount1|].
  assert (Hinit2 : engine_initialized w2) by (unfold engine_initialized; by rewrite Heng2).
  exists tp, w1, p, w2, e1, e2. split; [done|].
  split.
  { destruct Hwf1 as (_ & Ht1 & _).
    by rewrite (get_template_by_name_registry _ _ _ Hinit1 Ht1), Hfirst, Hp1. }
  split; [done|]. split; [done|].
  split; [by rewrite Hcount1 in Hlive2|].
  destruct Hwf2 as (_ & Ht2 & _).
  by rewrite (get_template_by_name_registry _ _ _ Hinit2 Ht2), Hfirst, Hp1.
Qed.

Lemma template_round_trip_witness :
  engine_initialized objects_and_font
  /\ well_formed objects_and_font three_objects_entries [] font_entries
  /\ can_allocate (mem objects_and_font) 6
  /\ 0 <= _object_id objects_and_font < INT_MAX
  /\ exists tp w1 p w2,
       create_object_template "tree" NULL 8 9 true objects_and_font = Returns (Some tp) w1
       /\ get_template_by_name "tree" w1 = Returns (Some tp) w1
       /\ instantiate_object (Some tp) "oak" 5 6 NULL w1 = Returns (Some p) w2
       /\ live (mem w2) p
            (CObject {| id := 3; texture := NULL; x := 5; y := 6; width := 8;
                        height := 9; hitbox := true; data := NULL |}).
Proof.
  assert (Hinit : engine_initialized objects_and_font) by (vm_compute; discriminate).
  pose proof objects_and_font_well_formed as Hwf.
  assert (Hcap : can_allocate (mem objects_and_font) 6) by (vm_compute; lia).
  assert (Hc : _object_id objects_and_font = 3) by (vm_compute; reflexivity).
  assert (Hid : 0 <= _object_id objects_and_font < INT_MAX)
    by (rewrite Hc; split; [discriminate|reflexivity]).
  split; [exact Hinit|]. split; [exact Hwf|]. split; [exact Hcap|]. split; [exact Hid|].
  destruct (template_round_trip objects_and_font _ _ _ "tree" "oak" NULL 8 9 true 5 6 NULL
              Hinit Hwf Hcap Hid eq_refl)
    as (tp & w1 & p & w2 & e1 & e2 & H1 & H2 & H3 & _ & H5 & _).
  exists tp, w1, p, w2. split; [exact H1|]. split; [exact H2|]. split; [exact H3|].
  rewrite Hc in H5. exact H5.
Defined.

Lemma two_templates_well_formed : well_formed two_templates [] two_templates_entries [].
Proof.
  split; [split; [|constructor]|].
  { split; [vm_compute; reflexivity|split; [exact I|apply NoDup_nil_2]]. }
  split; [exact two_templates_registry|].
  split; [split; [vm_compute; reflexivity|split; [exact I|apply NoDup_nil_2]]|].
  split; [apply (bool_decide_unpack _); vm_compute; exact I|].
  apply ids_in_order_nil.
Qed.

Lemma instantiate_object_copies_the_template_witness :
  engine_initialized two_templates
  /\ well_formed two_templates [] two_templates_entries []
  /\ live (mem two_templates) 4%positive
       (CTemplate {| tpl_texture := NULL; tpl_width := 32; tpl_height := 32;
                     tpl_hitbox := false |})
  /\ can_allocate (mem two_templates) 3
  /\ 0 <= _object_id two_templates < INT_MAX
  /\ exists p w',
       instantiate_object (Some 4%positive) "crate" 7 8 NULL two_templates
       = Returns (Some p) w'
       /\ live (mem w') p
            (CObject {| id := 0; texture := NULL; x := 7; y := 8; width := 32;
                        height := 32; hitbox := false; data := NULL |}).
Proof.
  assert (Hinit : engine_initialized two_templates) by (vm_compute; discriminate).
  pose proof two_templates_well_formed as Hwf.
  assert (Htp : live (mem two_templates) 4%positive
                  (CTemplate {| tpl_texture := NULL; tpl_width := 32; tpl_height := 32;
                                tpl_hitbox := false |})) by (vm_compute; reflexivity).
  assert (Hcap : can_allocate (mem two_templates) 3) by (vm_compute; lia).
  assert (Hc : _object_id two_templates = 0) by (vm_compute; reflexivity).
  assert (Hid : 0 <= _object_id two_templates < INT_MAX)
    by (rewrite Hc; split; [discriminate|reflexivity]).
  split; [exact Hinit|]. split; [exact Hwf|]. split; [exact Htp|]. split; [exact Hcap|].
  split; [exact Hid|].
  destruct (instantiate_object_copies_the_template two_templates _ _ _ 4%positive _
              "crate" 7 8 NULL Hinit Hwf Htp Hcap Hid)
    as (p & w' & e & Hrun & _ & _ & _ & Hlive & _).
  exists p, w'. split; [exact Hrun|]. rewrite Hc in Hlive. exact Hlive.
Defined.

(** ** Emptying a registry *)

(** X19: [destroy_all_objects], [destroy_all_templates] and [close_all_fonts]
    each give back every block of every entry of their registry and leave
    the static at [NULL]; the two other registries are not touched; each of
    the three leaves the identifier counter at the value it had; and on a
    registry that is already empty the call changes nothing, so a second
    call in a row is harmless. *)
Theorem emptying_a_registry (w : world) (lo lt lf : list entry) :
  engine_initialized w -> well_formed w lo lt lf ->
  (exists w',
     destroy_all_objects w = Returns tt w'
     /\ well_formed w' [] lt lf /\ Forall (entry_gone (mem w')) lo
     /\ _object_id w' = _object_id w
     /\ destroy_all_objects w' = Returns tt w')
  /\ (exists w',
        destroy_all_templates w = Returns tt w'
        /\ well_formed w' lo [] lf /\ Forall (entry_gone (mem w')) lt
        /\ _object_id w' = _object_id w
        /\ destroy_all_templates w' = Returns tt w')
  /\ (exists w',
        close_all_fonts w = Returns tt w'
        /\ well_formed w' lo lt [] /\ Forall (entry_gone (mem w')) lf
        /\ _object_id w' = _object_id w
        /\ close_all_fonts w' = Returns tt w').
Proof.
  intros Hinit Hwf. split; [|split].
  - destruct (destroy_all_objects_well_formed w lo lt lf Hinit Hwf)
      as (w' & Hrun & Hwf' & Hgone & _ & Heng & Hcount & _).
    exists w'. repeat (split; [done|]).
    assert (Hinit' : engine_initialized w') by (unfold engine_initialized; by rewrite Heng).
    destruct (destroy_all_objects_well_formed w' [] lt lf Hinit' Hwf')
      as (w2 & Hrun2 & _ & _ & Hsame & _).
    by rewrite (Hsame eq_refl) in Hrun2.
  - destruct (destroy_all_templates_well_formed w lo lt lf Hinit Hwf)
      as (w' & Hrun & Hwf' & Hgone & _ & Heng & Hcount & _).
    exists w'. repeat (split; [done|]).
    assert (Hinit' : engine_initialized w') by (unfold engine_initialized; by rewrite Heng).
    destruct (destroy_all_templates_well_formed w' lo [] lf Hinit' Hwf')
      as (w2 & Hrun2 & _ & _ & Hsame & _).
    by rewrite (Hsame eq_refl) in Hrun2.
  - destruct (close_all_fonts_well_formed w lo lt lf Hinit Hwf)
      as (w' & Hrun & Hwf' & Hgone & _ & Heng & Hcount & _).
    exists w'. repeat (split; [done|]).
    assert (Hinit' : engine_initialized w') by (unfold engine_initialized; by rewrite Heng).
    destruct (close_all_fonts_well_formed w' lo lt [] Hinit' Hwf')
      as (w2 & Hrun2 & _ & _ & Hsame & _).
    by rewrite (Hsame eq_refl) in Hrun2.
Qed.

Lemma emptying_a_registry_witness :
  engine_initialized objects_and_font
  /\ well_formed objects_and_font three_objects_entries [] font_entries
  /\ (exists w',
        destroy_all_objects objects_and_font = Returns tt w'
        /\ well_formed w' [] [] font_entries)
  /\ (exists w',
        close_all_fonts objects_and_font = Returns tt w'
        /\ well_formed w' three_objects_entries [] []).
Proof.
  assert (Hinit : engine_initialized objects_and_font) by (vm_compute; discriminate).
  pose proof objects_and_font_well_formed as Hwf.
  split; [exact Hinit|]. split; [exact Hwf|].
  destruct (emptying_a_registry objects_and_font _ _ _ Hinit Hwf)
    as ((w1 & Hr1 & Hw1 & _) & _ & (w3 & Hr3 & Hw3 & _)).
  split; [exists w1|exists w3]; (split; [assumption|assumption]).
Defined.

(** ** Fonts *)

(** X20: [load_font] ends the process when the file cannot be opened.  When it
    can, the name is copied into a block sized for the file name: a name
    longer than the file name is written past the end of the block; a name
    that fits is registered last, with the font the library handed out. *)
Theorem load_font_sizes_the_name_by_the_filename (w : world) (lo lt lf : list entry)
    (filename : string) (size : Z) (key : string) :
  engine_initialized w -> well_formed w lo lt lf -> can_allocate (mem w) 3 ->
  (filename ∉ font_files w ->
   load_font filename size key w
   = Exits 1 (set_stderr (stderr w ++ ["[ENGINE] Failed to load font: %s\n"%string]) w))
  /\ (filename ∈ font_files w ->
      (String.length filename < String.length key)%nat ->
      load_font filename size key w = Undef)
  /\ (filename ∈ font_files w ->
      (String.length key <= String.length filename)%nat ->
      exists w' e,
        load_font filename size key w = Returns tt w'
        /\ well_formed w' lo lt (lf ++ [e])
        /\ e_name e = key /\ e_value e = CForeign).
Proof.
  intros Hinit Hwf Hcap. split; [|split].
  - intros Hout. unfold load_font, bind. rewrite (assert_initialized _ Hinit).
    by rewrite bool_decide_eq_false_2.
  - intros Hin Hlong. unfold load_font, bind. rewrite (assert_initialized _ Hinit).
    rewrite bool_decide_eq_true_2 by done.
    destruct (malloc_fresh (mem w) CForeign _ Hcap) as (p & -> & _ & Hcap1).
    unfold add_to_list. cbn [mem set_mem].
    destruct (malloc_fresh _ (CString key) _ Hcap1) as (a1 & -> & _).
    replace (String.length filename + 1 <? String.length key + 1)%nat with true; [done|].
    symmetry. apply Nat.ltb_lt. lia.
  - intros Hin Hfits.
    destruct (load_font_well_formed w lo lt lf filename size key 0 Hinit Hwf Hcap Hin
                Hfits) as (w' & e & Hrun & Hwf' & Hk & Hv & _).
    by exists w', e.
Qed.

Lemma load_font_sizes_the_name_by_the_filename_witness :
  engine_initialized (fresh_process true) /\ well_formed (fresh_process true) [] [] []
  /\ can_allocate (mem (fresh_process true)) 3
  /\ "assets/font.ttf"%string ∈ font_files (fresh_process true)
  /\ load_font "assets/font.ttf" 16 "the font of the title screen" (fresh_process true)
     = Undef.
Proof.
  assert (Hinit : engine_initialized (fresh_process true)) by (vm_compute; discriminate).
  assert (Hwf : well_formed (fresh_process true) [] [] [])
    by (by apply well_formed_empty).
  assert (Hcap : can_allocate (mem (fresh_process true)) 3) by (vm_compute; lia).
  assert (Hin : "assets/font.ttf"%string ∈ font_files (fresh_process true))
    by (apply (bool_decide_unpack _); vm_compute; exact I).
  split; [exact Hinit|]. split; [exact Hwf|]. split; [exact Hcap|]. split; [exact Hin|].
  destruct (load_font_sizes_the_name_by_the_filename (fresh_process true) [] [] []
              "assets/font.ttf" 16 "the font of the title screen" Hinit Hwf Hcap)
    as (_ & Hlong & _).
  apply Hlong; [exact Hin|vm_compute; lia].
Defined.

Lemma get_font_registry w l key :
  font_registry w l ->
  (first_such (named key) l = None ->
   _get_font key w
   = Exits 1 (set_stderr (stderr w ++ ["[ENGINE] Font not found: %s\n"%string]) w))
  /\ (first_such (named key) l <> None -> exists n, _get_font key w = Returns n w).
Proof.
  intros Hreg. unfold _get_font, bind.
  destruct (lookup_registry _font (name_is key) (named key) w l Hreg) as (r & -> & Hr).
  { destruct Hreg as (_ & Hseg & _). by eapply name_is_tests. }
  destruct r as [n|], (first_such (named key) l) as [e|]; try done.
  split; [done|]. intros _. by exists n.
Qed.

Lemma anchored_in_int anchor px py sw sh :
  0 <= sw -> 0 <= sh -> in_int px -> in_int py ->
  in_int (px - sw) -> in_int (py - sh) ->
  anchored anchor px py sw sh
  = match anchor with
    | TOP_LEFT => {| rect_x := px; rect_y := py; rect_w := sw; rect_h := sh |}
    | TOP => {| rect_x := px - sw ÷ 2; rect_y := py; rect_w := sw; rect_h := sh |}
    | TOP_RIGHT => {| rect_x := px - sw; rect_y := py; rect_w := sw; rect_h := sh |}
    | LEFT => {| rect_x := px; rect_y := py - sh ÷ 2; rect_w := sw; rect_h := sh |}
    | CENTER =>
        {| rect_x := px - sw ÷ 2; rect_y := py - sh ÷ 2; rect_w := sw; rect_h := sh |}
    | RIGHT => {| rect_x := px - sw; rect_y := py - sh ÷ 2; rect_w := sw; rect_h := sh |}
    | BOTTOM_LEFT => {| rect_x := px; rect_y := py - sh; rect_w := sw; rect_h := sh |}
    | BOTTOM => {| rect_x := px - sw ÷ 2; rect_y := py - sh; rect_w := sw; rect_h := sh |}
    | BOTTOM_RIGHT => {| rect_x := px - sw; rect_y := py - sh; rect_w := sw; rect_h := sh |}
    end
  /\ 0 <= sw ÷ 2 <= sw /\ 0 <= sh ÷ 2 <= sh.
Proof.
  intros Hw Hh Hx Hy Hxw Hyh.
  assert (Hqw : 0 <= sw ÷ 2 <= sw).
  { rewrite Z.quot_div_nonneg by lia. split; [apply Z.div_pos; lia|].
    apply Z.div_le_upper_bound; lia. }
  assert (Hqh : 0 <= sh ÷ 2 <= sh).
  { rewrite Z.quot_div_nonneg by lia. split; [apply Z.div_pos; lia|].
    apply Z.div_le_upper_bound; lia. }
  split; [|done].
  unfold anchored, int_sub.
  rewrite !wrap_int_in_range by (unfold in_int, INT_MIN, INT_MAX in *; lia).
  by destruct anchor.
Qed.

(** X21: [draw_text] with a font registered under the name hands the renderer
    the texture made from the text and a rectangle of the size of the
    rendered text, placed so that the point the anchor names (a corner, the
    middle of an edge or the centre) is the position given; the position
    lies in the rectangle, and nothing of the process changes. *)
Theorem draw_text_places_the_anchor (w : world) (lf : list entry) (key text : string)
    (px py sw sh : Z) (t : loc) (color : Color) (anchor : Anchor) :
  engine_initialized w -> font_registry w lf ->
  first_such (named key) lf <> None ->
  0 <= sw -> 0 <= sh -> in_int px -> in_int py ->
  in_int (px - sw) -> in_int (py - sh) ->
  draw_text (Some (sw, sh)) (Some t) key text px py color anchor w
  = Returns {| copied := Some t; srcrect := None;
               dstrect := Some (anchored anchor px py sw sh) |} w
  /\ anchor_point anchor (anchored anchor px py sw sh) = (px, py)
  /\ rect_w (anchored anchor px py sw sh) = sw
  /\ rect_h (anchored anchor px py sw sh) = sh
  /\ rect_holds (anchored anchor px py sw sh) px py.
Proof.
  intros Hinit Hreg Hfound Hw Hh Hx Hy Hxw Hyh.
  destruct (anchored_in_int anchor px py sw sh Hw Hh Hx Hy Hxw Hyh) as (Hrect & Hqw & Hqh).
  split.
  - unfold draw_text, bind. rewrite (assert_initialized _ Hinit).
    destruct (_font w) as [h|] eqn:Hhead.
    + destruct (proj2 (get_font_registry w lf key Hreg) Hfound) as [n ->]. done.
    + exfalso. apply Hfound. destruct Hreg as (Hh0 & _). rewrite Hhead in Hh0.
      by destruct lf.
  - rewrite Hrect. unfold anchor_point, rect_holds.
    destruct anchor; cbn [rect_x rect_y rect_w rect_h];
      (split; [f_equal; lia|]); (split; [done|]); (split; [done|]); lia.
Qed.

Lemma draw_text_places_the_anchor_witness :
  engine_initialized objects_and_font /\ font_registry objects_and_font font_entries
  /\ first_such (named "main") font_entries <> None
  /\ draw_text (Some (41, 16)) (Some 99%positive) "main" "score" 400 300 red CENTER
       objects_and_font
     = Returns {| copied := Some 99%positive; srcrect := None;
                  dstrect := Some {| rect_x := 380; rect_y := 292; rect_w := 41;
                                     rect_h := 16 |} |} objects_and_font.
Proof.
  assert (Hinit : engine_initialized objects_and_font) by (vm_compute; discriminate).
  assert (Hfound : first_such (named "main") font_entries <> None) by discriminate.
  split; [exact Hinit|]. split; [exact one_font_registry|]. split; [exact Hfound|].
  exact (proj1 (draw_text_places_the_anchor objects_and_font font_entries "main" "score"
                  400 300 41 16 99%positive red CENTER Hinit one_font_registry Hfound
                  ltac:(discriminate) ltac:(discriminate)
                  ltac:(vm_compute; split; discriminate)
                  ltac:(vm_compute; split; discriminate)
                  ltac:(vm_compute; split; discriminate)
                  ltac:(vm_compute; split; discriminate))).
Defined.

(** X22: Without the font [draw_text] ends the process: with "Font not loaded"
    when no font is registered at all, with "Font not found" when fonts are
    registered but none under the name; with the font there, it ends the
    process when the text cannot be rendered or no texture can be made
    from it.  So text cannot be drawn with a font after [close_font] took
    the only font of that name out. *)
Theorem draw_text_needs_the_font (w : world) (lo lt lf : list entry)
    (rendered : option (Z * Z)) (made : ptr) (key text : string) (px py : Z)
    (color : Color) (anchor : Anchor) :
  engine_initialized w -> well_formed w lo lt lf ->
  (lf = [] ->
   draw_text rendered made key text px py color anchor w
   = Exits 1 (set_stderr (stderr w ++ ["[ENGINE] Font not loaded\n"%string]) w))
  /\ (lf <> [] -> first_such (named key) lf = None ->
      draw_text rendered made key text px py color anchor w
      = Exits 1 (set_stderr (stderr w ++ ["[ENGINE] Font not found: %s\n"%string]) w))
  /\ (first_such (named key) lf <> None -> rendered = None ->
      draw_text rendered made key text px py color anchor w
      = Exits 1 (set_stderr (stderr w ++ ["[ENGINE] Failed to render text: %s\n"%string]) w))
  /\ (first_such (named key) lf <> None -> rendered <> None -> made = NULL ->
      draw_text rendered made key text px py color anchor w
      = Exits 1 (set_stderr
                   (stderr w ++ ["[ENGINE] Failed to create texture from surface: %s\n"%string])
                   w))
  /\ (count_named key lf = 1%nat ->
      exists w',
        close_font key w = Returns tt w'
        /\ well_formed w' lo lt (without_first (named key) lf)
        /\ fails_fatally (draw_text rendered made key text px py color anchor w')).
Proof.
  intros Hinit Hwf. pose proof Hwf as (_ & _ & Hreg & _).
  assert (Hhead : _font w = NULL <-> lf = []).
  { destruct Hreg as (-> & _). by destruct lf. }
  assert (Hrun : forall w0 l0, engine_initialized w0 -> font_registry w0 l0 ->
    draw_text rendered made key text px py color anchor w0
    = match l0 with
      | [] => Exits 1 (set_stderr (stderr w0 ++ ["[ENGINE] Font not loaded\n"%string]) w0)
      | _ :: _ =>
          match first_such (named key) l0 with
          | None =>
              Exits 1 (set_stderr (stderr w0 ++ ["[ENGINE] Font not found: %s\n"%string]) w0)
          | Some _ =>
              match rendered with
              | None =>
                  Exits 1 (set_stderr
                             (stderr w0 ++ ["[ENGINE] Failed to render text: %s\n"%string]) w0)
              | Some (sw, sh) =>
                  match made with
                  | NULL =>
                      Exits 1 (set_stderr
                                 (stderr w0
                                  ++ ["[ENGINE] Failed to create texture from surface: %s\n"%string])
                                 w0)
                  | Some _ =>
                      Returns {| copied := made; srcrect := None;
                                 dstrect := Some (anchored anchor px py sw sh) |} w0
                  end
              end
          end
      end).
  { intros w0 l0 Hinit0 Hreg0. unfold draw_text, bind.
    rewrite (assert_initialized _ Hinit0).
    destruct (get_font_registry w0 l0 key Hreg0) as [Hnone Hsome].
    destruct Hreg0 as (Hh0 & _). rewrite Hh0.
    destruct l0 as [|e0 l0]; [done|]. cbn [first_or].
    destruct (first_such (named key) (e0 :: l0)) as [e|] eqn:Hf.
    - destruct Hsome as [n ->]; [done|].
      destruct rendered as [[sw sh]|]; [|done]. by destruct made.
    - by rewrite Hnone. }
  rewrite (Hrun w lf Hinit Hreg).
  split; [by intros ->|]. split; [intros Hne ->; by destruct lf|].
  split; [intros Hsome ->; destruct lf; [done|]; by destruct (first_such _ _)|].
  split.
  { intros Hsome Hr ->. destruct lf; [done|]. destruct (first_such _ _); [|done].
    by destruct rendered as [[sw sh]|]. }
  intros Hone.
  destruct (close_font_well_formed w lo lt lf key Hinit Hwf)
    as (w' & Hclose & Hwf' & _ & _ & Heng & _).
  exists w'. split; [done|]. split; [done|].
  assert (Hinit' : engine_initialized w') by (unfold engine_initialized; by rewrite Heng).
  destruct Hwf' as (_ & _ & Hreg' & _).
  rewrite (Hrun w' _ Hinit' Hreg').
  assert (Hzero : first_such (named key) (without_first (named key) lf) = None).
  { apply Forall_first_such_none.
    pose proof (count_named_without_first key lf) as Hc. rewrite Hone in Hc.
    cbn in Hc. revert Hc. unfold count_named.
    generalize (without_first (named key) lf). intros l0.
    induction l0 as [|e l0 IH]; cbn [List.filter]; [constructor|].
    destruct (named key e) eqn:Hn; [done|]. intros Hz. constructor; [done|by apply IH]. }
  rewrite Hzero. destruct (without_first (named key) lf); by eexists.
Qed.

Lemma draw_text_needs_the_font_witness :
  engine_initialized objects_and_font
  /\ well_formed objects_and_font three_objects_entries [] font_entries
  /\ count_named "main" font_entries = 1%nat
  /\ exists w',
       close_font "main" objects_and_font = Returns tt w'
       /\ fails_fatally (draw_text (Some (41, 16)) (Some 99%positive) "main" "score"
                           400 300 red CENTER w').
Proof.
  assert (Hinit : engine_initialized objects_and_font) by (vm_compute; discriminate).
  pose proof objects_and_font_well_formed as Hwf.
  split; [exact Hinit|]. split; [exact Hwf|]. split; [reflexivity|].
  destruct (draw_text_needs_the_font objects_and_font _ _ _ (Some (41, 16))
              (Some 99%positive) "main" "score" 400 300 red CENTER Hinit Hwf)
    as (_ & _ & _ & _ & Hclose).
  destruct (Hclose eq_refl) as (w' & Hrun & _ & Hfail).
  exists w'. split; [exact Hrun|exact Hfail].
Defined.

(** ** Removal by name, where the freed node can still be read *)

Lemma unlink_node_registry m head l2 e pre :
  segment m (pre ++ e :: l2) NULL ->
  NoDup (addresses (pre ++ e :: l2)) ->
  head = first_or (pre ++ e :: l2) NULL ->
  exists m',
    unlink_node m head (Some (e_node e)) (e_node <$> last pre)
      (node_of e (first_or l2 NULL))
    = Done (m', first_or (pre ++ l2) NULL)
    /\ segment m' (pre ++ l2) NULL
    /\ entry_gone m' e
    /\ blocks m' !! e_node e
       = Some {| contents := CNode (node_of e (first_or l2 NULL)); released := true |}
    /\ checked m' = checked m /\ limit m' = limit m
    /\ (forall a, a ∉ addresses (pre ++ e :: l2) -> blocks m' !! a = blocks m !! a).
Proof.
  intros Hseg Hnd Hhead.
  destruct (unlink_first_found (fun _ _ => Done true) (fun _ => true) m head l2 e 1 [] pre)
    as (m' & Hrun & Hseg' & Hgone & Hchk & Hlim); try done.
  { by repeat constructor. }
  { cbn. lia. }
  pose proof Hseg as Hseg0.
  apply segment_app in Hseg as [Hpre Hseg]. cbn [segment] in Hseg.
  destruct Hseg as (Hn & Hs & Hp & _).
  cbn [unlink_first app first_or] in Hrun.
  rewrite (load_node_live _ _ _ Hn) in Hrun. cbn [rbind] in Hrun.
  exists m'. split; [done|]. split; [done|]. split; [done|].
  destruct (NoDup_addresses_mid _ _ _ Hnd) as (Hnde & Hdisj & _).
  apply NoDup_cons in Hnde as [Hn1 Hnde]. apply NoDup_cons in Hnde as [Hn2 _].
  assert (Hprev : e_node <$> last pre <> Some (e_node e)).
  { destruct (last pre) as [ep|] eqn:Hlast; [|done]. cbn. intros [= E].
    apply (Hdisj (e_node e)); [in_list|]. rewrite addresses_app. apply elem_of_app. left.
    rewrite <- E. apply node_in_addresses.
    apply last_Some in Hlast as [l0 ->]. apply elem_of_app. right. in_list. }
  destruct (unlink_node_touches _ _ _ _ _ _ _ Hrun) as (Htouch & _).
  split; [|split; [done|split; [done|]]].
  - destruct Hgone as ((c & Hc) & _).
    revert Hrun. unfold unlink_node. cbn [node_of payload name next].
    intros Hrun.
    destruct (match e_node <$> last pre with
              | Some _ => _
              | NULL => _
              end) as [[m0 h0]| |] eqn:Hst; try discriminate Hrun.
    cbn [rbind fst snd] in Hrun.
    assert (Hm0 : blocks m0 !! e_node e = blocks m !! e_node e).
    { destruct (e_node <$> last pre) as [p|] eqn:Hp0.
      - destruct (store_next m (Some p) (first_or l2 NULL)) as [m0'| |] eqn:Es;
          try discriminate Hst.
        cbn [rbind] in Hst. injection Hst as <- <-.
        apply store_next_touches in Es as [Ht _]. apply Ht. congruence.
      - by injection Hst as <- <-. }
    destruct (free m0 (Some (e_payload e))) as [m1| |] eqn:E1; try discriminate Hrun.
    cbn [rbind] in Hrun.
    destruct (free m1 (Some (e_name_ptr e))) as [m2| |] eqn:E2; try discriminate Hrun.
    cbn [rbind] in Hrun.
    destruct (free m2 (Some (e_node e))) as [m3| |] eqn:E3; try discriminate Hrun.
    cbn [rbind] in Hrun. injection Hrun as <- _.
    apply free_touches in E1 as [Ht1 _]. apply free_touches in E2 as [Ht2 _].
    assert (Hm2 : blocks m2 !! e_node e = blocks m !! e_node e).
    { rewrite Ht2, Ht1, Hm0; [done|..].
      - intros [= E]. apply Hn1. rewrite E. in_list.
      - intros [= E]. apply Hn1. rewrite E. in_list. }
    revert E3. unfold free. rewrite Hm2, Hn. cbn [released contents].
    intros [= <-]. simpl. apply lookup_insert_eq.
  - intros a Ha. apply Htouch.
    + intros [= ->]. apply Ha. rewrite addresses_mid. apply elem_of_app. right. in_list.
    + destruct (last pre) as [ep|] eqn:Hlast; [|done]. cbn. intros [= ->].
      apply Ha. rewrite addresses_app. apply elem_of_app. left.
      apply node_in_addresses. apply last_Some in Hlast as [l0 ->].
      apply elem_of_app. right. in_list.
    + cbn. intros [= ->]. apply Ha. rewrite addresses_mid. apply elem_of_app. right.
      in_list.
    + cbn. intros [= ->]. apply Ha. rewrite addresses_mid. apply elem_of_app. right.
      in_list.
Qed.

Lemma load_node_stale m l n :
  checked m = false ->
  blocks m !! l = Some {| contents := CNode n; released := true |} ->
  load_node m (Some l) = Done n.
Proof.
  intros Hc Hb. unfold load_node, load, accessible. rewrite Hb, Hc. done.
Qed.

Lemma name_is_segment key m l q e nx :
  segment m l q -> e ∈ l -> name_is key m (node_of e nx) = Done (named key e).
Proof.
  intros Hseg Hin. pose proof (name_is_tests key _ _ _ Hseg) as Ht.
  unfold tests_as in Ht. rewrite Forall_forall in Ht. by apply Ht.
Qed.

Lemma neighbours_cons f e l :
  neighbours f (e :: l) = false ->
  neighbours f l = false
  /\ (f e = true -> match l with e2 :: _ => f e2 = false | [] => True end).
Proof.
  destruct l as [|e2 l]; [done|].
  change (neighbours f (e :: e2 :: l)) with (f e && f e2 || neighbours f (e2 :: l)).
  intros [H1 H2]%orb_false_iff. split; [done|]. intros E. by rewrite E in H1.
Qed.

(** The loop of [destroy_object_by_name] where a freed node can still be
    read: when no two entries of the name are neighbours, every entry of
    the name is unlinked and given back, and the others stay linked in
    their order. *)
Lemma unlink_every_apart key n :
  forall l, (length l <= n)%nat ->
  forall m pre fuel head,
  checked m = false ->
  segment m (pre ++ l) NULL -> NoDup (addresses (pre ++ l)) ->
  neighbours (named key) l = false -> (length l < fuel)%nat ->
  head = first_or (pre ++ l) NULL ->
  exists m',
    unlink_every fuel (name_is key) m head (first_or l NULL) (e_node <$> last pre)
    = Done (m', first_or (pre ++ others (named key) l) NULL)
    /\ segment m' (pre ++ others (named key) l) NULL
    /\ Forall (entry_gone m') (List.filter (named key) l)
    /\ checked m' = false /\ limit m' = limit m
    /\ (forall a, a ∉ addresses (pre ++ l) -> blocks m' !! a = blocks m !! a).
Proof.
  induction n as [n IH] using lt_wf_ind.
  intros l Hlen m pre fuel head Hchk Hseg Hnd Hnb Hfuel Hhead.
  destruct fuel as [|fuel]; [lia|].
  destruct l as [|e l2].
  { exists m. cbn [unlink_every first_or others List.filter].
    rewrite Hhead. by repeat split. }
  pose proof Hseg as Hseg0.
  apply segment_app in Hseg as [_ Hseg]. cbn [segment] in Hseg.
  destruct Hseg as (Hn & _).
  assert (Hine : e ∈ pre ++ e :: l2) by (apply elem_of_app; right; in_list).
  cbn [unlink_every first_or].
  rewrite (load_node_live _ _ _ Hn). cbn [rbind].
  rewrite (name_is_segment key _ _ _ e _ Hseg0 Hine). cbn [rbind].
  cbn [length] in Hlen, Hfuel.
  destruct (named key e) eqn:Hk.
  - (* the node is unlinked and freed; the loop goes on from it *)
    destruct (unlink_node_registry m head l2 e pre Hseg0 Hnd Hhead)
      as (m1 & Hrun & Hseg1 & Hgone1 & Hstale & Hchk1 & Hlim1 & Htouch1).
    rewrite Hrun. cbn [rbind fst snd].
    rewrite (load_node_stale _ _ _ (eq_trans Hchk1 Hchk) Hstale). cbn [rbind node_of next].
    destruct (NoDup_addresses_mid _ _ _ Hnd) as (Hnde & Hdisj & Hnd1).
    destruct l2 as [|e2 l3].
    + destruct fuel as [|fuel]; [lia|].
      exists m1. cbn [unlink_every first_or others List.filter]. rewrite Hk.
      cbn [negb]. split; [done|]. split; [done|].
      split; [constructor; [done|constructor]|].
      split; [congruence|]. split; [done|]. done.
    + destruct fuel as [|fuel]; [cbn [length] in Hfuel; lia|].
      destruct (neighbours_cons _ _ _ Hnb) as [Hnb2 Hk2]. specialize (Hk2 Hk).
      destruct (neighbours_cons _ _ _ Hnb2) as [Hnb3 _].
      pose proof Hseg1 as Hseg1'.
      apply segment_app in Hseg1' as [_ Hseg2]. cbn [segment] in Hseg2.
      destruct Hseg2 as (Hn2 & _).
      assert (Hin2 : e2 ∈ pre ++ e2 :: l3) by (apply elem_of_app; right; in_list).
      cbn [unlink_every first_or].
      rewrite (load_node_live _ _ _ Hn2). cbn [rbind].
      rewrite (name_is_segment key _ _ _ e2 _ Hseg1 Hin2), Hk2. cbn [rbind fst snd].
      rewrite (load_node_live _ _ _ Hn2). cbn [rbind node_of next].
      assert (Hassoc : (pre ++ [e2]) ++ l3 = pre ++ e2 :: l3)
        by (by rewrite <- app_assoc).
      destruct (IH (length l3) ltac:(cbn [length] in Hlen; lia) l3 ltac:(lia) m1
                  (pre ++ [e2]) fuel (first_or (pre ++ e2 :: l3) NULL))
        as (m' & Hrun' & Hseg' & Hgone' & Hchk' & Hlim' & Htouch');
        try (by rewrite Hassoc); try congruence.
      { cbn [length] in Hfuel. lia. }
      rewrite last_snoc in Hrun'. cbn [fmap option_fmap option_map] in Hrun'.
      exists m'. cbn [others List.filter]. rewrite Hk, Hk2. cbn [negb].
      fold (others (named key) l3).
      replace (pre ++ e2 :: others (named key) l3)
        with ((pre ++ [e2]) ++ others (named key) l3) by (by rewrite <- app_assoc).
      split; [done|]. split; [done|]. split; [|split; [done|split; [congruence|]]].
      * constructor; [|done].
        destruct Hgone1 as (G1 & G2 & G3). unfold entry_gone, gone.
        rewrite !Htouch' by (rewrite Hassoc; apply Hdisj; in_list). done.
      * intros a Ha. rewrite Htouch', Htouch1; [done|done|].
        rewrite Hassoc. intros Hin. apply Ha.
        rewrite addresses_mid. rewrite addresses_app in Hin.
        apply elem_of_app in Hin as [Hin|Hin]; apply elem_of_app; [by left|right].
        apply elem_of_app. by right.
  - (* the node stays *)
    cbn [rbind fst snd]. rewrite (load_node_live _ _ _ Hn). cbn [rbind node_of next].
    destruct (neighbours_cons _ _ _ Hnb) as [Hnb2 _].
    assert (Hassoc : (pre ++ [e]) ++ l2 = pre ++ e :: l2) by (by rewrite <- app_assoc).
    destruct (IH (length l2) ltac:(lia) l2 ltac:(lia) m (pre ++ [e]) fuel head)
      as (m' & Hrun' & Hseg' & Hgone' & Hchk' & Hlim' & Htouch');
      try (by rewrite Hassoc); try done.
    { lia. }
    rewrite last_snoc in Hrun'. cbn [fmap option_fmap option_map] in Hrun'.
    exists m'. cbn [others List.filter]. rewrite Hk. cbn [negb].
    fold (others (named key) l2).
    replace (pre ++ e :: others (named key) l2)
      with ((pre ++ [e]) ++ others (named key) l2) by (by rewrite <- app_assoc).
    split; [done|]. split; [done|]. split; [done|]. split; [done|]. split; [done|].
    intros a Ha. apply Htouch'. by rewrite Hassoc.
Qed.

Lemma addresses_filter p l a : a ∈ addresses (List.filter p l) -> a ∈ addresses l.
Proof.
  induction l as [|e l IH]; cbn [List.filter]; [done|].
  rewrite (addresses_cons e l). destruct (p e).
  - rewrite addresses_cons, !elem_of_cons. intros [->|[->|[->|Hin]]]; auto.
  - intros Hin. do 3 apply list_elem_of_further. by apply IH.
Qed.

Lemma NoDup_addresses_filter p l :
  NoDup (addresses l) -> NoDup (addresses (List.filter p l)).
Proof.
  induction l as [|e l IH]; cbn [List.filter]; [done|].
  intros Hnd. destruct (NoDup_addresses_mid [] e l Hnd) as (Hnde & Hdisj & Hndl).
  cbn [app] in Hdisj, Hndl. destruct (p e); [|by apply IH].
  change (e :: List.filter p l) with ([e] ++ List.filter p l).
  rewrite addresses_app. apply NoDup_app. split; [|split; [|by apply IH]].
  - exact Hnde.
  - intros a Ha Hin. apply (Hdisj a); [exact Ha|]. by eapply addresses_filter.
Qed.

Lemma Forall_list_filter (P : entry -> Prop) p l :
  Forall P l -> Forall P (List.filter p l).
Proof.
  induction 1 as [|e l He Hl IH]; cbn [List.filter]; [done|].
  destruct (p e); [by constructor|done].
Qed.

Lemma ids_in_order_filter bound p l :
  ids_in_order bound l -> ids_in_order bound (List.filter p l).
Proof.
  intros [Hs Hb]. split; [|by apply Forall_list_filter].
  clear Hb. induction Hs as [|e l Hs IH He]; cbn [List.filter]; [constructor|].
  destruct (p e); [|done]. constructor; [done|]. by apply Forall_list_filter.
Qed.

Lemma others_not_named key l : Forall (fun e => named key e = false) (others (named key) l).
Proof.
  unfold others. induction l as [|e l IH]; cbn [List.filter]; [constructor|].
  destruct (named key e) eqn:Hk; cbn [negb]; [done|]. by constructor.
Qed.

Lemma existsb_false_Forall (f : entry -> bool) l :
  Forall (fun e => f e = false) l -> existsb f l = false.
Proof.
  induction 1 as [|e l He Hl IH]; cbn [existsb]; [done|]. by rewrite He, IH.
Qed.

(** X23: Where the stale contents of a freed block can still be read,
    [destroy_object_by_name] does what its name says whenever no two
    objects of the name are neighbours in the list: every object of the
    name is unlinked and given back, the other objects stay in their
    order, the templates and fonts are not touched, and [object_exists]
    no longer finds the name. *)
Theorem destroy_object_by_name_without_neighbours (w : world) (lo lt lf : list entry)
    (key : string) :
  engine_initialized w -> checked (mem w) = false -> well_formed w lo lt lf ->
  neighbours (named key) lo = false ->
  exists w',
    destroy_object_by_name key w = Returns tt w'
    /\ well_formed w' (others (named key) lo) lt lf
    /\ Forall (entry_gone (mem w')) (List.filter (named key) lo)
    /\ Forall (fun e => e_name e <> key) (others (named key) lo)
    /\ object_exists key w' = Returns false w'.
Proof.
  intros Hinit Hchk Hwf Hnb.
  destruct (well_formed_disjoint _ _ _ _ Hwf) as (D1 & D2 & D3).
  destruct Hwf as ([Hreg Hobj] & Ht & Hf & _ & Hids).
  pose proof Hreg as (Hhead & Hseg & Hnd).
  destruct (unlink_every_apart key (length lo) lo ltac:(lia) (mem w) []
              (enough_fuel (mem w)) (_object_list w) Hchk Hseg Hnd Hnb)
    as (m' & Hrun & Hseg' & Hgone & Hchk' & Hlim' & Htouch); [|done|].
  { pose proof (segment_length _ _ _ Hseg Hnd). unfold enough_fuel. lia. }
  cbn [app last fmap option_fmap option_map] in Hrun, Hseg', Htouch.
  rewrite <- Hhead in Hrun.
  unfold destroy_object_by_name, bind, remove_from.
  rewrite (assert_initialized _ Hinit), Hrun.
  eexists. split; [reflexivity|]. cbn [mem set_mem set_object_list].
  assert (Hreg' : registry m' (first_or (others (named key) lo) NULL)
                    (others (named key) lo)).
  { split; [done|]. split; [done|]. by apply NoDup_addresses_filter. }
  assert (Hnames : Forall (fun e => e_name e <> key) (others (named key) lo)).
  { eapply Forall_impl; [apply others_not_named|]. cbn. intros e He.
    unfold named in He. by apply bool_decide_eq_false in He. }
  split; [|split; [done|split; [done|]]].
  - apply well_formed_intro; try done.
    + split; [done|]. by apply Forall_list_filter.
    + eapply registry_frame; [|exact Ht]. intros a Ha. apply Htouch.
      by apply (apart_sym _ _ D1).
    + eapply registry_frame; [|exact Hf]. intros a Ha. apply Htouch.
      by apply (apart_sym _ _ D2).
    + intros a Ha. by apply D1, (addresses_filter (fun e => negb (named key e))).
    + intros a Ha. by apply D2, (addresses_filter (fun e => negb (named key e))).
    + by apply ids_in_order_filter.
  - rewrite (object_exists_registry _ (others (named key) lo) key); [|done|done].
    by rewrite (existsb_false_Forall _ _ (others_not_named key lo)).
Qed.

Lemma three_objects_well_formed :
  well_formed (three_objects false) three_objects_entries [] [].
Proof.
  split; [split; [|repeat constructor; eexists; reflexivity]|].
  { split; [vm_compute; reflexivity|]. split.
    - vm_compute. repeat split.
    - apply (bool_decide_unpack _). vm_compute. exact I. }
  split; [split; [vm_compute; reflexivity|split; [exact I|apply NoDup_nil_2]]|].
  split; [split; [vm_compute; reflexivity|split; [exact I|apply NoDup_nil_2]]|].
  split; [apply (bool_decide_unpack _); vm_compute; exact I|].
  split.
  - repeat constructor.
  - repeat constructor; vm_compute; discriminate.
Qed.

Lemma destroy_object_by_name_without_neighbours_witness :
  engine_initialized (three_objects false) /\ checked (mem (three_objects false)) = false
  /\ well_formed (three_objects false) three_objects_entries [] []
  /\ neighbours (named "b") three_objects_entries = false
  /\ exists w',
       destroy_object_by_name "b" (three_objects false) = Returns tt w'
       /\ well_formed w' (take 2 three_objects_entries) [] []
       /\ object_exists "b" w' = Returns false w'.
Proof.
  assert (Hinit : engine_initialized (three_objects false)) by (vm_compute; discriminate).
  assert (Hchk : checked (mem (three_objects false)) = false) by (vm_compute; reflexivity).
  pose proof three_objects_well_formed as Hwf.
  split; [exact Hinit|]. split; [exact Hchk|]. split; [exact Hwf|].
  split; [reflexivity|].
  destruct (destroy_object_by_name_without_neighbours (three_objects false) _ _ _ "b"
              Hinit Hchk Hwf eq_refl) as (w' & Hrun & Hwf' & _ & _ & Hex).
  exists w'. split; [exact Hrun|]. split; [exact Hwf'|exact Hex].
Defined.

(** X24: With no object of the name registered, [destroy_object_by_name]
    returns and leaves the process as it was, on a checked heap as well:
    the loop frees nothing, so it reads no freed node.  The lookup of the
    same name ends the process. *)
Theorem destroy_object_by_name_absent_is_silent (w : world) (lo : list entry)
    (key : string) :
  engine_initialized w -> object_registry w lo ->
  Forall (fun e => e_name e <> key) lo ->
  destroy_object_by_name key w = Returns tt w
  /\ get_object_by_name key w = died_with "[ENGINE] Object not found: %s\n" w.
Proof.
  intros Hinit [Hreg Hobj] Hnone. split.
  - by apply (destroy_object_by_name_absent w lo).
  - rewrite (get_object_by_name_registry _ _ _ Hinit Hreg).
    rewrite Forall_first_such_none; [done|].
    eapply Forall_impl; [exact Hnone|]. cbn. intros e He.
    unfold named. by apply bool_decide_eq_false.
Qed.

Lemma destroy_object_by_name_absent_is_silent_witness :
  engine_initialized objects_and_font
  /\ object_registry objects_and_font three_objects_entries
  /\ Forall (fun e => e_name e <> "zz"%string) three_objects_entries
  /\ destroy_object_by_name "zz" objects_and_font = Returns tt objects_and_font.
Proof.
  assert (Hinit : engine_initialized objects_and_font) by (vm_compute; discriminate).
  assert (Hnone : Forall (fun e => e_name e <> "zz"%string) three_objects_entries)
    by (repeat constructor; discriminate).
  split; [exact Hinit|]. split; [exact three_objects_registry|]. split; [exact Hnone|].
  exact (proj1 (destroy_object_by_name_absent_is_silent objects_and_font _ "zz" Hinit
                  three_objects_registry Hnone)).
Defined.

(** ** Creation undone *)

Lemma without_first_newest f l e :
  Forall (fun e0 => f e0 = false) l -> f e = true -> without_first f (l ++ [e]) = l.
Proof.
  intros Hl He. induction Hl as [|e0 l H0 Hl IH]; cbn [app without_first].
  - by rewrite He.
  - by rewrite H0, IH.
Qed.

(** X25: [create_object] registers the new object as the last entry [e] of
    the object registry: a node, a copy of the name and the object, which
    carries the value of the counter as its identifier.  Destroying the
    object by that identifier brings the registry back to the entries it
    had, in their order, and gives back the three blocks of [e], the node,
    the name and the object; the counter is not set back, so the identifier
    is not handed out a second time. *)
Theorem create_then_destroy_by_id (w : world) (lo lt lf : list entry) (key : string)
    (o : Object) :
  engine_initialized w -> well_formed w lo lt lf -> can_allocate (mem w) 3 ->
  0 <= _object_id w < INT_MAX ->
  exists p w1 w2 e,
    create_like key o w = Returns (Some p) w1
    /\ well_formed w1 (lo ++ [e]) lt lf
    /\ e_name e = key /\ e_payload e = p
    /\ e_value e = CObject (with_id (_object_id w) o)
    /\ destroy_object_by_id (_object_id w) w1 = Returns tt w2
    /\ well_formed w2 lo lt lf
    /\ gone (mem w2) (e_node e) /\ gone (mem w2) (e_name_ptr e) /\ gone (mem w2) p
    /\ _object_id w2 = _object_id w + 1
    /\ _object_list w2 = _object_list w.
Proof.
  intros Hinit Hwf Hcap Hid.
  destruct (create_object_well_formed w lo lt lf key (texture o) (x o) (y o) (width o)
              (height o) (hitbox o) (data o) 0 Hinit Hwf Hcap Hid)
    as (p & w1 & e & Hrun1 & Hwf1 & Hk & Hp & Hv & _ & Heng1 & Hcount1 & _).
  assert (Hinit1 : engine_initialized w1) by (unfold engine_initialized; by rewrite Heng1).
  destruct (destroy_object_by_id_well_formed w1 (lo ++ [e]) lt lf (_object_id w) Hinit1
              Hwf1) as (w2 & Hrun2 & Hwf2 & _ & Hgone & _ & Hcount2 & _).
  assert (Hnew : has_id (_object_id w) e = true).
  { unfold has_id. rewrite Hv. cbn. apply Z.eqb_refl. }
  assert (Hold : Forall (fun e0 => has_id (_object_id w) e0 = false) lo).
  { destruct Hwf as (_ & _ & _ & _ & _ & Hb).
    eapply Forall_impl; [exact Hb|]. cbn. intros e0 He0.
    unfold has_id, entry_id in *. destruct (e_value e0); try done.
    apply Z.eqb_neq. lia. }
  rewrite (without_first_newest _ _ _ Hold Hnew) in Hwf2.
  assert (Hfreed : entry_gone (mem w2) e).
  { apply Hgone. by apply first_such_newest; [destruct Hwf as (_ & _ & _ & _ & Hids)|]. }
  destruct Hfreed as (Hg1 & Hg2 & Hg3). rewrite Hp in Hg3.
  exists p, w1, w2, e. split; [done|]. split; [done|]. split; [done|]. split; [done|].
  split; [exact Hv|]. split; [done|]. split; [done|]. split; [done|]. split; [done|].
  split; [done|]. split; [congruence|].
  destruct Hwf2 as ([(Hh2 & _) _] & _). destruct Hwf as ([(Hh & _) _] & _). congruence.
Qed.

Lemma create_then_destroy_by_id_witness :
  engine_initialized objects_and_font
  /\ well_formed objects_and_font three_objects_entries [] font_entries
  /\ can_allocate (mem objects_and_font) 3
  /\ 0 <= _object_id objects_and_font < INT_MAX
  /\ exists p w1 w2 e,
       create_like "c" sample_object objects_and_font = Returns (Some p) w1
       /\ well_formed w1 (three_objects_entries ++ [e]) [] font_entries
       /\ e_name e = "c"%string /\ e_payload e = p
       /\ destroy_object_by_id 3 w1 = Returns tt w2
       /\ well_formed w2 three_objects_entries [] font_entries
       /\ gone (mem w2) (e_node e) /\ gone (mem w2) (e_name_ptr e) /\ gone (mem w2) p
       /\ _object_id w2 = 4.
Proof.
  assert (Hinit : engine_initialized objects_and_font) by (vm_compute; discriminate).
  pose proof objects_and_font_well_formed as Hwf.
  assert (Hcap : can_allocate (mem objects_and_font) 3) by (vm_compute; lia).
  assert (Hc : _object_id objects_and_font = 3) by (vm_compute; reflexivity).
  assert (Hid : 0 <= _object_id objects_and_font < INT_MAX)
    by (rewrite Hc; split; [discriminate|reflexivity]).
  split; [exact Hinit|]. split; [exact Hwf|]. split; [exact Hcap|]. split; [exact Hid|].
  destruct (create_then_destroy_by_id objects_and_font _ _ _ "c" sample_object
              Hinit Hwf Hcap Hid)
    as (p & w1 & w2 & e & H1 & Hw1 & Hk & Hp & _ & H2 & H3 & Hg1 & Hg2 & Hg3 & H6 & _).
  exists p, w1, w2, e. split; [exact H1|]. rewrite Hc in H2, H6.
  split; [exact Hw1|]. split; [exact Hk|]. split; [exact Hp|].
  split; [exact H2|]. split; [exact H3|]. split; [exact Hg1|]. split; [exact Hg2|].
  split; [exact Hg3|exact H6].
Defined.

(** ** A font loaded, then used *)

(** X26: After [load_font] registered a font under a name that fits, text
    can be drawn with that name: [draw_text] finds a font, whether the new
    one or an older one of the same name, and hands the renderer the
    anchored rectangle. *)
Theorem load_font_then_draw_text (w : world) (lo lt lf : list entry)
    (filename : string) (size : Z) (key text : string) (px py sw sh : Z) (t : loc)
    (color : Color) (anchor : Anchor) :
  engine_initialized w -> well_formed w lo lt lf -> can_allocate (mem w) 3 ->
  filename ∈ font_files w -> (String.length key <= String.length filename)%nat ->
  exists w',
    load_font filename size key w = Returns tt w'
    /\ draw_text (Some (sw, sh)) (Some t) key text px py color anchor w'
       = Returns {| copied := Some t; srcrect := None;
                    dstrect := Some (anchored anchor px py sw sh) |} w'.
Proof.
  intros Hinit Hwf Hcap Hfile Hfits.
  destruct (load_font_well_formed w lo lt lf filename size key 0 Hinit Hwf Hcap Hfile
              Hfits) as (w' & e & Hrun & Hwf' & Hk & _ & _ & Heng & _).
  exists w'. split; [done|].
  assert (Hinit' : engine_initialized w') by (unfold engine_initialized; by rewrite Heng).
  destruct Hwf' as (_ & _ & Hreg & _).
  assert (Hfound : first_such (named key) (lf ++ [e]) <> None).
  { rewrite first_such_app. destruct (first_such (named key) lf); [done|].
    cbn [first_such]. unfold named. by rewrite bool_decide_eq_true_2. }
  unfold draw_text, bind. rewrite (assert_initialized _ Hinit').
  destruct (_font w') as [h|] eqn:Hhead.
  - destruct (proj2 (get_font_registry w' _ key Hreg) Hfound) as [n ->]. done.
  - exfalso. destruct Hreg as (Hh0 & _). rewrite Hhead in Hh0. by destruct lf.
Qed.

Lemma load_font_then_draw_text_witness :
  engine_initialized (fresh_process true) /\ well_formed (fresh_process true) [] [] []
  /\ can_allocate (mem (fresh_process true)) 3
  /\ "assets/font.ttf"%string ∈ font_files (fresh_process true)
  /\ (String.length "main" <= String.length "assets/font.ttf")%nat
  /\ exists w',
       load_font "assets/font.ttf" 16 "main" (fresh_process true) = Returns tt w'
       /\ draw_text (Some (41, 16)) (Some 99%positive) "main" "score" 400 300 red
            BOTTOM_RIGHT w'
          = Returns {| copied := Some 99%positive; srcrect := None;
                       dstrect := Some {| rect_x := 359; rect_y := 284; rect_w := 41;
                                          rect_h := 16 |} |} w'.
Proof.
  assert (Hinit : engine_initialized (fresh_process true)) by (vm_compute; discriminate).
  assert (Hwf : well_formed (fresh_process true) [] [] [])
    by (by apply well_formed_empty).
  assert (Hcap : can_allocate (mem (fresh_process true)) 3) by (vm_compute; lia).
  assert (Hin : "assets/font.ttf"%string ∈ font_files (fresh_process true))
    by (apply (bool_decide_unpack _); vm_compute; exact I).
  assert (Hfits : (String.length "main" <= String.length "assets/font.ttf")%nat)
    by (vm_compute; lia).
  split; [exact Hinit|]. split; [exact Hwf|]. split; [exact Hcap|]. split; [exact Hin|].
  split; [exact Hfits|].
  destruct (load_font_then_draw_text (fresh_process true) [] [] [] "assets/font.ttf" 16
              "main" "score" 400 300 41 16 99%positive red BOTTOM_RIGHT
              Hinit Hwf Hcap Hin Hfits) as (w' & Hrun & Hdraw).
  exists w'. split; [exact Hrun|exact Hdraw].
Defined.

(** ** The four registries *)

Lemma head_of_set_head_of k p w : head_of k (set_head_of k p w) = p.
Proof. by destruct k. Qed.

(** The payload is allocated, then [add_to_list] runs on the process
    [pre] makes of the one with the payload. *)
Lemma add_after_payload k no_name no_item room c key w l n (pre : world -> world) :
  (forall w1, head_of k (pre w1) = head_of k w1 /\ mem (pre w1) = mem w1
              /\ _engine (pre w1) = _engine w1 /\ font_files (pre w1) = font_files w1) ->
  registry (mem w) (head_of k w) l ->
  can_allocate (mem w) (3 + n) -> (String.length key + 1 <= room)%nat ->
  exists p m0 w' e,
    malloc (mem w) c = Some (p, m0)
    /\ add_to_list (head_of k) (set_head_of k) no_name no_item room (Some p) key
         (pre (set_mem m0 w)) = Returns tt w'
    /\ registry (mem w') (head_of k w') (l ++ [e])
    /\ e_payload e = p /\ e_value e = c /\ e_name e = key
    /\ blocks (mem w) !! p = None
    /\ _engine w' = _engine w /\ font_files w' = font_files w
    /\ can_allocate (mem w') n.
Proof.
  intros Hpre Hreg Hcap Hroom.
  destruct (add_payload_registry (head_of k) (set_head_of k) no_name no_item room c key
              w l n Hreg Hcap Hroom)
    as (p & m0 & m' & e & Hm0 & Hadd & Hreg' & Hp & Hv & Hk & _ & _ & _ & Hcap' & _).
  destruct (Hpre (set_mem m0 w)) as (Hh & Hm & He & Hf).
  assert (Hhead0 : head_of k (pre (set_mem m0 w)) = head_of k w)
    by (rewrite Hh; by destruct k).
  specialize (Hadd (pre (set_mem m0 w)) Hm Hhead0).
  destruct (malloc_inv _ _ _ _ Hm0) as (Hfp & _ & _).
  eexists p, m0, _, e. split; [done|]. split; [exact Hadd|].
  assert (Hhead' : first_or l (Some (e_node e))
                   = match head_of k w with NULL => Some (e_node e) | Some h => Some h end).
  { destruct Hreg as (-> & _). by destruct l. }
  destruct (head_of k w) as [h|] eqn:Hhd.
  - assert (Hhk : head_of k (set_mem m' (pre (set_mem m0 w))) = Some h).
    { transitivity (head_of k (pre (set_mem m0 w))); [by destruct k|].
      by rewrite Hhead0. }
    assert (Hmk : mem (set_mem m' (pre (set_mem m0 w))) = m') by done.
    rewrite Hmk, Hhk, <- Hhead'.
    split; [done|]. do 4 (split; [done|]).
    split; [transitivity (_engine (pre (set_mem m0 w))); [done|by rewrite He]|].
    split; [transitivity (font_files (pre (set_mem m0 w))); [done|by rewrite Hf]|done].
  - rewrite head_of_set_head_of.
    assert (Hmk : mem (set_head_of k (Some (e_node e)) (set_mem m' (pre (set_mem m0 w))))
                  = m') by (by destruct k).
    rewrite Hmk, <- Hhead'.
    split; [done|]. do 4 (split; [done|]).
    split; [transitivity (_engine (pre (set_mem m0 w))); [by destruct k|by rewrite He]|].
    split; [|done].
    transitivity (font_files (pre (set_mem m0 w))); [by destruct k|by rewrite Hf].
Qed.

(** The insertion of each registry links the new entry in last. *)
Lemma insert_registry r w l key n :
  engine_initialized w -> registry (mem w) (head_of (kind_of r) w) l ->
  insertable r key w -> can_allocate (mem w) (3 + n) ->
  exists w' e,
    insert r key w = Returns (returned r e) w'
    /\ registry (mem w') (head_of (kind_of r) w') (l ++ [e])
    /\ e_name e = key /\ e_value e = registered_value r w
    /\ blocks (mem w) !! e_payload e = None
    /\ engine_initialized w' /\ font_files w' = font_files w
    /\ can_allocate (mem w') n.
Proof.
  intros Hinit Hreg Hins Hcap.
  destruct r as [o|t|files filename|filename size];
    cbn [kind_of insert returned registered_value insertable] in *.
  - destruct (add_after_payload Objects
                "[ENGINE] Failed to allocate memory for object name\n"
                "[ENGINE] Failed to allocate memory for object list item\n"
                (String.length key + 1) (CObject (with_id (_object_id w) o)) key w l n
                (set_object_id (int_add (_object_id w) 1))
                ltac:(by intros []) Hreg Hcap ltac:(lia))
      as (p & m0 & w' & e & Hm0 & Hadd & Hreg' & Hp & Hv & Hk & Hfp & He & Hf & Hcap').
    exists w', e. unfold create_like, create_object, bind.
    rewrite (assert_initialized _ Hinit).
    change (CObject _) with (CObject (with_id (_object_id w) o)).
    rewrite Hm0. unfold _add_object_to_list.
    change _object_list with (head_of Objects).
    change set_object_list with (set_head_of Objects).
    rewrite Hadd. unfold ret. rewrite Hp.
    do 5 (split; [done|]).
    split; [unfold engine_initialized; by rewrite He|done].
  - destruct (add_after_payload Templates
                "[ENGINE] Failed to allocate memory for object template name\n"
                "[ENGINE] Failed to allocate memory for object template list item\n"
                (String.length key + 1) (CTemplate t) key w l n (fun w1 => w1)
                ltac:(done) Hreg Hcap ltac:(lia))
      as (p & m0 & w' & e & Hm0 & Hadd & Hreg' & Hp & Hv & Hk & Hfp & He & Hf & Hcap').
    exists w', e. unfold create_object_template, bind.
    rewrite (assert_initialized _ Hinit).
    replace (CTemplate _) with (CTemplate t) by (by destruct t).
    rewrite Hm0. unfold _add_object_template_to_list.
    change _object_template_list with (head_of Templates).
    change set_object_template_list with (set_head_of Templates).
    rewrite Hadd. unfold ret. rewrite Hp.
    do 5 (split; [done|]).
    split; [unfold engine_initialized; by rewrite He|done].
  - destruct (add_after_payload Textures
                "[ENGINE] Failed to allocate memory for texture name\n"
                "[ENGINE] Failed to allocate memory for texture list item\n"
                (String.length key + 1) CForeign key w l n (fun w1 => w1)
                ltac:(done) Hreg Hcap ltac:(lia))
      as (p & m0 & w' & e & Hm0 & Hadd & Hreg' & Hp & Hv & Hk & Hfp & He & Hf & Hcap').
    exists w', e. unfold load_texture, bind.
    rewrite (assert_initialized _ Hinit).
    rewrite bool_decide_eq_true_2 by done.
    rewrite Hm0. unfold _add_to_texture_list.
    change _texture_list with (head_of Textures).
    change set_texture_list with (set_head_of Textures).
    rewrite Hadd. unfold ret. rewrite Hp.
    do 5 (split; [done|]).
    split; [unfold engine_initialized; by rewrite He|done].
  - destruct Hins as [Hfile Hfits].
    destruct (add_after_payload Fonts
                "[ENGINE] Failed to allocate memory for font filename\n"
                "[ENGINE] Failed to allocate memory for font\n"
                (String.length filename + 1) CForeign key w l n (fun w1 => w1)
                ltac:(done) Hreg Hcap ltac:(lia))
      as (p & m0 & w' & e & Hm0 & Hadd & Hreg' & Hp & Hv & Hk & Hfp & He & Hf & Hcap').
    exists w', e. unfold load_font, bind.
    rewrite (assert_initialized _ Hinit).
    rewrite bool_decide_eq_true_2 by done.
    rewrite Hm0.
    change _font with (head_of Fonts).
    change set_font with (set_head_of Fonts).
    rewrite Hadd. unfold ret. rewrite Hp.
    do 5 (split; [done|]).
    split; [unfold engine_initialized; by rewrite He|done].
Qed.

(** The lookup of each registry returns the payload of the first entry of
    the name. *)
Lemma lookup_first k w l key :
  engine_initialized w -> registry (mem w) (head_of k w) l ->
  lookup k key w
  = match first_such (named key) l with
    | Some e => Returns (Some (e_payload e)) w
    | None => died_with (not_found k) w
    end.
Proof.
  intros Hinit Hreg.
  assert (Htest : tests_as (name_is key) (mem w) (named key) l).
  { destruct Hreg as (_ & Hseg & _). by eapply name_is_tests. }
  destruct (lookup_registry (head_of k) (name_is key) (named key) w l Hreg Htest)
    as (r & Hrun & Hr).
  destruct k; cbn [lookup not_found head_of] in *.
  - by apply get_object_by_name_registry.
  - by apply get_template_by_name_registry.
  - unfold get_texture_by_name, bind. rewrite (assert_initialized _ Hinit), Hrun.
    destruct r as [n|], (first_such (named key) l) as [e|]; try done.
    cbn in Hr. injection Hr as Hr. unfold ret. by rewrite Hr.
  - unfold _get_font, bind. rewrite Hrun.
    destruct r as [n|], (first_such (named key) l) as [e|]; try done.
    cbn in Hr. injection Hr as Hr. unfold ret. by rewrite Hr.
Qed.

Lemma insertable_same_files r key w w' :
  font_files w' = font_files w -> insertable r key w -> insertable r key w'.
Proof. intros Hf. destruct r; cbn [insertable]; try done. by rewrite Hf. Qed.

(** C6: for each of the four registries (objects, templates, textures,
    fonts) the insertion links the new entry in after the last one, and the
    lookup by name returns the payload of the first entry, from the head,
    whose name equals the query; so after inserting "a", "b", "a" into a
    registry that has no "a", the lookup of "a" returns the payload of the
    first insertion, not of the third.  For the font registry this holds
    for a name that is not longer than the file name: [load_font] sizes the
    block for the name by the file name, and a longer name is copied past
    the end of the block, which is undefined behaviour and not an
    insertion at the tail. *)
Theorem registry_appends_and_finds_first (k : registry_kind) (w : world)
    (l : list entry) :
  engine_initialized w -> registry (mem w) (head_of k w) l ->
  (forall r key, kind_of r = k -> insertable r key w -> can_allocate (mem w) 3 ->
     exists w' e,
       insert r key w = Returns (returned r e) w'
       /\ registry (mem w') (head_of k w') (l ++ [e])
       /\ e_name e = key /\ e_value e = registered_value r w)
  /\ (forall key,
        lookup k key w
        = match first_such (named key) l with
          | Some e => Returns (Some (e_payload e)) w
          | None => died_with (not_found k) w
          end)
  /\ (forall r1 r2 r3,
        kind_of r1 = k -> kind_of r2 = k -> kind_of r3 = k ->
        insertable r1 "a" w -> insertable r2 "b" w -> insertable r3 "a" w ->
        first_such (named "a") l = None -> can_allocate (mem w) 9 ->
        exists w1 e1 w2 e2 w3 e3,
          insert r1 "a" w = Returns (returned r1 e1) w1
          /\ insert r2 "b" w1 = Returns (returned r2 e2) w2
          /\ insert r3 "a" w2 = Returns (returned r3 e3) w3
          /\ registry (mem w3) (head_of k w3) (l ++ [e1; e2; e3])
          /\ lookup k "a" w3 = Returns (Some (e_payload e1)) w3
          /\ e_payload e1 <> e_payload e3)
  /\ (forall filename size key,
        filename ∈ font_files w -> can_allocate (mem w) 2 ->
        (String.length filename < String.length key)%nat ->
        load_font filename size key w = Undef).
Proof.
  intros Hinit Hreg. split; [|split; [|split]].
  - intros r key <- Hins Hcap.
    destruct (insert_registry r w l key 0 Hinit Hreg Hins Hcap)
      as (w' & e & ? & ? & ? & ? & _).
    by exists w', e.
  - intros key. by apply lookup_first.
  - intros r1 r2 r3 <- Hk2 Hk3 Hi1 Hi2 Hi3 Hnone Hcap.
    destruct (insert_registry r1 w l "a" 6 Hinit Hreg Hi1 Hcap)
      as (w1 & e1 & Hr1 & Hreg1 & Hn1 & _ & _ & Hinit1 & Hf1 & Hcap1).
    rewrite <- Hk2 in Hreg1.
    destruct (insert_registry r2 w1 _ "b" 3 Hinit1 Hreg1
                (insertable_same_files _ _ _ _ Hf1 Hi2) Hcap1)
      as (w2 & e2 & Hr2 & Hreg2 & Hn2 & _ & _ & Hinit2 & Hf2 & Hcap2).
    rewrite Hk2, <- Hk3 in Hreg2.
    destruct (insert_registry r3 w2 _ "a" 0 Hinit2 Hreg2
                (insertable_same_files _ _ _ _ (eq_trans Hf2 Hf1) Hi3) Hcap2)
      as (w3 & e3 & Hr3 & Hreg3 & Hn3 & _ & Hfresh3 & Hinit3 & _).
    rewrite Hk3 in Hreg2, Hreg3. rewrite <- !app_assoc in Hreg3. cbn [app] in Hreg3.
    exists w1, e1, w2, e2, w3, e3. do 4 (split; [done|]). split.
    + rewrite (lookup_first _ w3 _ "a" Hinit3 Hreg3).
      rewrite first_such_app, Hnone. cbn [first_such].
      unfold named at 1. by rewrite Hn1, bool_decide_eq_true_2.
    + intros E. destruct Hreg2 as (_ & Hseg2 & _).
      destruct (segment_addresses _ _ _ (e_payload e1) Hseg2) as [bk Hbk];
        [|rewrite E in Hbk; congruence].
      rewrite !addresses_app. apply elem_of_app. left. apply elem_of_app. right.
      rewrite addresses_cons. in_list.
  - intros filename size key Hin Hcap Hlong.
    unfold load_font, bind. rewrite (assert_initialized _ Hinit).
    rewrite bool_decide_eq_true_2 by done.
    destruct (malloc_fresh (mem w) CForeign _ Hcap) as (p & -> & _ & Hcap1).
    unfold add_to_list. cbn [mem set_mem].
    destruct (malloc_fresh _ (CString key) _ Hcap1) as (a1 & -> & _).
    replace (String.length filename + 1 <? String.length key + 1)%nat with true; [done|].
    symmetry. apply Nat.ltb_lt. lia.
Qed.

Lemma registry_appends_and_finds_first_witness :
  engine_initialized (three_objects true)
  /\ registry (mem (three_objects true)) (head_of Objects (three_objects true))
       three_objects_entries
  /\ (exists w' e,
        insert (AnObject sample_object) "c" (three_objects true)
        = Returns (Some (e_payload e)) w'
        /\ registry (mem w') (head_of Objects w') (three_objects_entries ++ [e])
        /\ e_name e = "c"%string)
  /\ lookup Objects "a" (three_objects true) = Returns (Some 1%positive) (three_objects true)
  /\ load_font "assets/font.ttf" 16 "a-name-longer-than-the-path" (three_objects true)
     = Undef.
Proof.
  remember (three_objects true) as w eqn:Ew.
  assert (Hinit : engine_initialized w) by (subst w; vm_compute; discriminate).
  assert (Hreg : registry (mem w) (head_of Objects w) three_objects_entries).
  { subst w. split; [vm_compute; reflexivity|]. split.
    - vm_compute. repeat split.
    - apply (bool_decide_unpack _). vm_compute. exact I. }
  assert (Hcap3 : can_allocate (mem w) 3) by (subst w; vm_compute; lia).
  assert (Hcap2 : can_allocate (mem w) 2) by (subst w; vm_compute; lia).
  assert (Hfile : "assets/font.ttf"%string ∈ font_files w)
    by (subst w; apply (bool_decide_unpack _); vm_compute; exact I).
  clear Ew.
  destruct (registry_appends_and_finds_first Objects w _ Hinit Hreg)
    as (Hinsert & Hlookup & _ & Hlong).
  split; [exact Hinit|]. split; [exact Hreg|]. split; [|split].
  - destruct (Hinsert (AnObject sample_object) "c"%string eq_refl I Hcap3)
      as (w' & e & Hrun & Hreg' & Hname & _).
    exists w', e. split; [exact Hrun|]. split; [exact Hreg'|exact Hname].
  - exact (Hlookup "a"%string).
  - apply (Hlong _ 16 _ Hfile Hcap2). vm_compute. lia.
Defined.
